(** * Storage clients of the Snowflake connector: S3 REST client and local client

    A shallow embedding of [s3_storage_client.py] and
    [local_storage_client.py], and the properties of their behaviour.

    Conventions of the embedding.
    - Python [str] and [bytes] are both byte strings here ([string]); text is
      taken to be ASCII, so [encode("utf-8")] and [decode("utf-8")] are the
      identity and are not written.
    - Python [int] is [Z].
    - A Python [dict] that is iterated is an insertion-ordered association
      list with unique keys ([dict]); maps that are only looked up are [gmap].
    - A method is a function from the state of the object (and of its
      surroundings) to an outcome and a new state; a raised exception is the
      outcome [Raise e], and the state reached when it was raised is kept.
    - Libraries the code calls but does not contain (the XML parser, the
      hash functions, URL quoting, the HTTP layer of the base class) are
      fields of type classes; every theorem holds for all their instances. *)

From Stdlib Require Import ZArith String Ascii List Lia Bool Sorted.
From stdpp Require Import base option list strings gmap pretty.

Local Open Scope string_scope.
Local Open Scope Z_scope.
Local Set Warnings "-register-all,-clear-no-such-hyp".

(** ** Python values and built-ins *)

Module Py.

(** Exceptions the modelled code can raise. *)
Inductive Exn : Type :=
| KeyError (key : string)
| IndexError
| TypeError
| AttributeError
| ValueError
| ParseError
| HTTPError (status : Z)
| FileNotFoundError (path : string)
| IsADirectoryError (path : string)
| NotADirectoryError (path : string)
| OSError (what : string).

Inductive Res (A : Type) : Type :=
| Ok (a : A)
| Raise (e : Exn).
Arguments Ok {A} a.
Arguments Raise {A} e.

Definition code (c : ascii) : N := N_of_ascii c.

(** [str.lower] on ASCII text. *)
Definition lower_char (c : ascii) : ascii :=
  if ((65 <=? code c) && (code c <=? 90))%N
  then ascii_of_N (code c + 32) else c.

Fixpoint lower (s : string) : string :=
  match s with
  | EmptyString => EmptyString
  | String c r => String (lower_char c) (lower r)
  end.

(** The ASCII characters for which [str.isspace] holds: TAB, LF, VT, FF,
    CR, FS, GS, RS, US and the space. *)
Definition isspace_char (c : ascii) : bool :=
  (((9 <=? code c) && (code c <=? 13))
   || ((28 <=? code c) && (code c <=? 32)))%N.

Fixpoint all_chars (p : ascii -> bool) (s : string) : bool :=
  match s with
  | EmptyString => true
  | String c r => p c && all_chars p r
  end.

(** [s.isspace()]: at least one character, all of them whitespace. *)
Definition isspace (s : string) : bool :=
  match s with
  | EmptyString => false
  | _ => all_chars isspace_char s
  end.

(** Truth value of a string: [not s] is [negb (truthy s)]. *)
Definition truthy (s : string) : bool :=
  match s with EmptyString => false | _ => true end.

Fixpoint lstrip_by (p : ascii -> bool) (s : string) : string :=
  match s with
  | EmptyString => EmptyString
  | String c r => if p c then lstrip_by p r else s
  end.

(** Drops the characters satisfying [p] at the end of [s]. *)
Fixpoint rstrip_by (p : ascii -> bool) (s : string) : string :=
  match s with
  | EmptyString => EmptyString
  | String c r =>
      match rstrip_by p r with
      | EmptyString => if p c then EmptyString else String c EmptyString
      | r' => String c r'
      end
  end.

(** [s.strip()] *)
Definition strip (s : string) : string :=
  rstrip_by isspace_char (lstrip_by isspace_char s).

(** [s.lstrip("/")] *)
Definition lstrip_slash (s : string) : string :=
  lstrip_by (fun c => Ascii.eqb c "/") s.

(** [s.replace(a, b)] for single characters. *)
Fixpoint replace_char (a b : ascii) (s : string) : string :=
  match s with
  | EmptyString => EmptyString
  | String c r =>
      String (if Ascii.eqb c a then b else c) (replace_char a b r)
  end.

(** [sep.join(l)] *)
Fixpoint join (sep : string) (l : list string) : string :=
  match l with
  | [] => ""
  | [x] => x
  | x :: r => x +:+ sep +:+ join sep r
  end.

(** [s.split(sep)] for a single-character separator: never empty. *)
Fixpoint split_char (sep : ascii) (s : string) : list string :=
  match s with
  | EmptyString => [""]
  | String c r =>
      if Ascii.eqb c sep then "" :: split_char sep r
      else match split_char sep r with
           | [] => [String c ""]
           | x :: xs => String c x :: xs
           end
  end.

(** [s.partition(sep)] for a single-character separator, as
    (head, found, tail). *)
Fixpoint partition_char (sep : ascii) (s : string) : string * bool * string :=
  match s with
  | EmptyString => ("", false, "")
  | String c r =>
      if Ascii.eqb c sep then ("", true, r)
      else let '(h, f, t) := partition_char sep r in (String c h, f, t)
  end.

(** [s.endswith("/")] *)
Fixpoint endswith_slash (s : string) : bool :=
  match s with
  | EmptyString => false
  | String c EmptyString => Ascii.eqb c "/"
  | String _ r => endswith_slash r
  end.

(** [s.startswith("/")] *)
Definition startswith_slash (s : string) : bool :=
  match s with
  | String c _ => Ascii.eqb c "/"
  | EmptyString => false
  end.

(** [s[:n]] *)
Fixpoint take_str (n : nat) (s : string) : string :=
  match n, s with
  | S n', String c r => String c (take_str n' r)
  | _, _ => EmptyString
  end.

(** [s[1:]] *)
Definition drop1 (s : string) : string :=
  match s with
  | String _ r => r
  | EmptyString => EmptyString
  end.

(** [str(n)] and the rendering of an integer inside an f-string. *)
Definition str (n : Z) : string := pretty n.

Definition is_digit (c : ascii) : bool :=
  ((48 <=? code c) && (code c <=? 57))%N.

(** The digits of an [int()] literal: decimal digits, where single
    underscores may separate digits. *)
Fixpoint int_digits (s : string) (acc : Z) (after_digit : bool) : option Z :=
  match s with
  | EmptyString => if after_digit then Some acc else None
  | String c r =>
      if is_digit c
      then int_digits r (10 * acc + Z.of_N (code c - 48)) true
      else if Ascii.eqb c "_" && after_digit
           then int_digits r acc false
           else None
  end.

(** [int(s)] for a string: surrounding whitespace, an optional sign, the
    digits. [None] stands for [ValueError]. *)
Definition int_of_str (s : string) : option Z :=
  match strip s with
  | String "-" r => Z.opp <$> int_digits r 0 false
  | String "+" r => int_digits r 0 false
  | t => int_digits t 0 false
  end.

(** [int(x)] where [x] is the result of a [dict.get]: [int(None)] is a
    [TypeError]. *)
Definition int (x : option string) : Res Z :=
  match x with
  | None => Raise TypeError
  | Some s =>
      match int_of_str s with
      | Some n => Ok n
      | None => Raise ValueError
      end
  end.

(** [RE_MULTIPLE_SPACES.sub(" ", s)] for the pattern [" +"]: every maximal
    run of spaces becomes one space. *)
Fixpoint collapse_from (in_run : bool) (s : string) : string :=
  match s with
  | EmptyString => EmptyString
  | String c r =>
      if Ascii.eqb c " "
      then if in_run then collapse_from true r
           else String " " (collapse_from true r)
      else String c (collapse_from false r)
  end.

Definition collapse_spaces (s : string) : string := collapse_from false s.

(** The newline character. *)
Definition nl : string := String "010" EmptyString.

Definition hex_digit (n : N) : ascii :=
  if (n <? 10)%N then ascii_of_N (48 + n) else ascii_of_N (87 + n).

(** [binascii.hexlify]: two lower-case hexadecimal digits per byte. *)
Fixpoint hexlify (s : string) : string :=
  match s with
  | EmptyString => EmptyString
  | String c r =>
      String (hex_digit (code c / 16)) (String (hex_digit (code c mod 16)) (hexlify r))
  end.

(** [sorted(l, key=key)] and [l.sort(key=key)]: a stable sort, the keys
    compared as strings (by character code). *)
Section Sort.
Context {A : Type} (key : A -> string).

Fixpoint insert_by (x : A) (l : list A) : list A :=
  match l with
  | [] => [x]
  | y :: r => if String.leb (key x) (key y) then x :: l else y :: insert_by x r
  end.

Definition sort_by (l : list A) : list A := foldr insert_by [] l.
End Sort.

Definition sorted (l : list string) : list string := sort_by (fun k => k) l.

(** A [dict] with string keys: the items in insertion order, every key
    once. *)
Definition dict (V : Type) : Type := list (string * V).

Section Dict.
Context {V : Type}.

(** [d.get(k)] *)
Fixpoint dict_get (k : string) (d : dict V) : option V :=
  match d with
  | [] => None
  | (k', v) :: r => if String.eqb k k' then Some v else dict_get k r
  end.

(** [d[k] = v]: an existing key keeps its place. *)
Fixpoint dict_set (k : string) (v : V) (d : dict V) : dict V :=
  match d with
  | [] => [(k, v)]
  | (k', v') :: r =>
      if String.eqb k k' then (k', v) :: r else (k', v') :: dict_set k v r
  end.

(** [d.keys()] *)
Definition dict_keys (d : dict V) : list string := d.*1.

(** [d.update(e)] *)
Definition dict_update (d e : dict V) : dict V :=
  fold_left (fun acc kv => dict_set kv.1 kv.2 acc) e d.

(** [d[k]] *)
Definition dict_item (k : string) (d : dict V) : Res V :=
  match dict_get k d with
  | Some v => Ok v
  | None => Raise (KeyError k)
  end.
End Dict.

(** Sequencing of computations that may raise. *)
Definition res_bind {A B : Type} (r : Res A) (k : A -> Res B) : Res B :=
  match r with
  | Ok a => k a
  | Raise e => Raise e
  end.

(** A list comprehension whose element expression may raise. *)
Fixpoint res_map {A B : Type} (f : A -> Res B) (l : list A) : Res (list B) :=
  match l with
  | [] => Ok []
  | x :: r =>
      res_bind (f x) (fun y => res_bind (res_map f r) (fun ys => Ok (y :: ys)))
  end.

(** Python list indexing [l[i]] with an integer that may be negative. *)
Definition norm_index (len i : Z) : option nat :=
  if (0 <=? i) && (i <? len) then Some (Z.to_nat i)
  else if (i <? 0) && (- len <=? i) then Some (Z.to_nat (len + i))
  else None.

End Py.

Import Py.

(** ** The element trees of [xml.etree.ElementTree] *)

Module Xml.

(** An element: its tag, its [text] (the text before the first child, or
    [None]) and its children. Attributes and tails are not used by the
    code. *)
Inductive Element : Type :=
| Elem (tag : string) (text : option string) (children : list Element).

Definition tag (e : Element) : string := let 'Elem t _ _ := e in t.
Definition text (e : Element) : option string := let 'Elem _ x _ := e in x.
Definition children (e : Element) : list Element := let 'Elem _ _ c := e in c.

(** [ET.Element(tag)] *)
Definition Element_new (t : string) : Element := Elem t None [].

(** [e.text = x] *)
Definition set_text (x : option string) (e : Element) : Element :=
  Elem (tag e) x (children e).

(** [e.append(c)] *)
Definition append (c : Element) (e : Element) : Element :=
  Elem (tag e) (text e) (children e ++ [c]).

(** [e.find(name)] for a plain tag name: the first child with that tag. *)
Definition find (name : string) (e : Element) : option Element :=
  List.find (fun c => String.eqb (tag c) name) (children e).

(** [e[i]] for [i >= 0] *)
Definition child (i : nat) (e : Element) : Res Element :=
  match children e !! i with
  | Some c => Ok c
  | None => Raise IndexError
  end.

(** The escaping of character data by the serialiser. *)
Fixpoint escape_cdata (s : string) : string :=
  match s with
  | EmptyString => EmptyString
  | String c r =>
      (if Ascii.eqb c "&" then "&amp;"
       else if Ascii.eqb c "<" then "&lt;"
       else if Ascii.eqb c ">" then "&gt;"
       else String c EmptyString) +:+ escape_cdata r
  end.

(** [ET.tostring(e)]: an element with neither text nor children is written
    in the short form. *)
Fixpoint tostring (e : Element) : string :=
  match e with
  | Elem t x cs =>
      let body := (fix go (l : list Element) : string :=
                     match l with
                     | [] => ""
                     | c :: r => tostring c +:+ go r
                     end) cs in
      let has_text := match x with Some s => truthy s | None => false end in
      if has_text || negb (Nat.eqb (length cs) 0)
      then "<" +:+ t +:+ ">" +:+ escape_cdata (default "" x) +:+ body
           +:+ "</" +:+ t +:+ ">"
      else "<" +:+ t +:+ " />"
  end.

End Xml.

Import Xml.

(** ** What both clients share: [constants.py], the file metadata, the
    libraries *)

Module Connector.

(** Modelled from the spec: the result status of a transfer job, declared
    in [constants.py]; the code assigns [UPLOADED], [DOWNLOADED] and
    [NOT_FOUND_FILE]. *)
Inductive ResultStatus : Type :=
| PENDING | UPLOADED | DOWNLOADED | NOT_FOUND_FILE | ERROR | SKIPPED.

(** [EncryptionMetadata(key, iv, matdesc)]; a field read with
    [metadata.get] may be [None]. *)
Record EncryptionMetadata : Type := mkEncryptionMetadata {
  key : option string;
  iv : option string;
  matdesc : option string
}.

(** [FileHeader(digest, content_length, encryption_metadata)] *)
Record FileHeader : Type := mkFileHeader {
  digest : option string;
  content_length : Z;
  fh_encryption_metadata : option EncryptionMetadata
}.

(** The value of an outgoing header. *)
Inductive HeaderValue : Type :=
| VStr (s : string)
| VList (l : list string)
| VNone.

Definition hv (o : option string) : HeaderValue :=
  match o with Some s => VStr s | None => VNone end.

(** A [requests.Response]: the body is [text] and [content] alike; the
    headers are a case-insensitive dictionary, kept under the lower-cased
    names. *)
Record Response : Type := mkResponse {
  status_code : Z;
  body : string;
  headers : gmap string string
}.

Definition text (r : Response) : string := body r.
Definition content (r : Response) : string := body r.

(** [headers.get(name)] on the case-insensitive dictionary. *)
Definition cid_get (name : string) (h : gmap string string) : option string :=
  h !! lower name.

(** [headers[name]] *)
Definition cid_item (name : string) (h : gmap string string) : Res string :=
  match cid_get name h with
  | Some v => Ok v
  | None => Raise (KeyError name)
  end.

(** [response.raise_for_status()]: an [HTTPError] for a 4xx or 5xx
    status. *)
Definition raise_for_status (r : Response) : Res unit :=
  if (400 <=? status_code r) && (status_code r <? 600)
  then Raise (HTTPError (status_code r)) else Ok tt.

(** The key of a retry counter: a label or a chunk index. *)
Definition RetryId : Type := string + Z.

(** The result of [urlparse]. *)
Record ParsedUrl : Type := mkParsedUrl {
  pu_path : string;
  pu_params : string;
  pu_query : string;
  pu_hostname : option string
}.

(** What the closure [generate_authenticated_url_and_args_v4] captures
    when [_send_request_with_authentication_and_retry] creates it. *)
Record Request : Type := mkRequest {
  rq_url : string;
  rq_verb : string;
  rq_retry_id : RetryId;
  rq_x_amz_headers : dict HeaderValue;
  rq_headers : dict HeaderValue;
  rq_data : string
}.

(** SHA-256 and HMAC-SHA-256 of the [cryptography] package. *)
Class Crypto : Type := {
  sha256 : string -> string;
  hmac_sha256 : string -> string -> string
}.

(** [ET.fromstring]; [None] stands for [ParseError]. *)
Class XmlParser : Type := {
  fromstring : string -> option Element
}.

(** [quote] and [urlparse] of [compat]. *)
Class UrlLib : Type := {
  quote : string -> string;
  urlparse : string -> ParsedUrl
}.

(** The part of the base class [SnowflakeStorageClient]
    ([storage_client.py]) that the S3 client calls: the dispatcher
    [_send_request_with_retry], which may raise, counts attempts in the
    retry counters and talks to the network [Net], and
    [write_downloaded_chunk], which stores a chunk in [Sink]; also the two
    header constants of [constants.py]. *)
Class StorageClientBase : Type := {
  Net : Type;
  _send_request_with_retry :
    Request -> gmap RetryId Z -> Net -> Res Response * gmap RetryId Z * Net;
  Sink : Type;
  write_downloaded_chunk : Z -> string -> Sink -> Sink;
  HTTP_HEADER_CONTENT_TYPE : string;
  HTTP_HEADER_VALUE_OCTET_STREAM : string
}.

End Connector.

Import Connector.

(** ** [s3_storage_client.py] *)

Module S3.

Definition META_PREFIX : string := "x-amz-meta-".
Definition SFC_DIGEST : string := "sfc-digest".
Definition AMZ_MATDESC : string := "x-amz-matdesc".
Definition AMZ_KEY : string := "x-amz-key".
Definition AMZ_IV : string := "x-amz-iv".
Definition EXPIRED_TOKEN : string := "ExpiredToken".

Record S3Location : Type := mkS3Location {
  bucket_name : string;
  path : string
}.

(** The fields of [SnowflakeFileMeta] that the S3 client reads and
    writes. *)
Record FileMeta : Type := mkFileMeta {
  result_status : ResultStatus;
  sha256_digest : option string;
  src_file_name : string;
  dst_file_name : string
}.

Notation "'let?' x ':=' c 'in' k" := (res_bind c (fun x => k))
  (at level 10, x name, c at level 100, k at level 200, only parsing).

(** *** The signer *)

Section Signer.
Context `{Crypto} `{UrlLib}.

Definition _sign_bytes (secret_key _input : string) : string :=
  hmac_sha256 secret_key _input.

Definition _sign_bytes_hex (secret_key _input : string) : string :=
  hexlify (_sign_bytes secret_key _input).

Definition _hash_bytes (_input : string) : string := sha256 _input.

Definition _hash_bytes_hex (_input : string) : string :=
  hexlify (_hash_bytes _input).

(** The dictionary comprehension [{k.lower(): v for k, v in
    headers.items()}]: a later item replaces an earlier one with the
    same lower-cased name. *)
Definition low_key_dict (headers : dict HeaderValue) : dict HeaderValue :=
  fold_left (fun acc kv => dict_set (lower kv.1) kv.2 acc) headers [].

(** One line of the canonical block, the body of the [for] loop. *)
Definition canonical_line (kv : string * HeaderValue) : Res string :=
  let '(k, v) := kv in
  let? v := match v with
            | VList l => Ok (join "," l)
            | VStr s => Ok s
            | VNone => Raise AttributeError
            end in
  let k := replace_char "010" " " k in
  Ok (strip k +:+ ":" +:+ collapse_spaces (strip v)).

(** The [for] loop: the value of a [None] header has no [strip]. A list
    value is joined first, so a list never raises. *)
Definition _construct_canonicalized_and_signed_headers
    (headers : dict HeaderValue) : Res (string * string) :=
  let low := low_key_dict headers in
  let sorted_headers := sorted (dict_keys headers) in
  let? _res := res_map (fun k => let? v := dict_item k low in Ok (k, v))
                 sorted_headers in
  let? res := res_map canonical_line _res in
  let ans := join nl res in
  let ans := if truthy ans then ans +:+ nl else ans in
  Ok (ans, join ";" sorted_headers).

Definition _construct_canonical_request_and_signed_headers
    (verb canonical_uri_parameter url_query : string)
    (canonical_headers : option (dict HeaderValue))
    (payload : string) : Res (string * string) :=
  let kv :=
    if truthy url_query
    then sort_by fst
           (map (fun e => let '(k, _, v) := partition_char "=" e in (k, v))
              (split_char "&" url_query))
    else [] in
  let canonical_query_string :=
    join "&" (map (fun kv => join "=" [kv.1; kv.2]) kv) in
  let? headers := match canonical_headers with
                  | Some h => Ok h
                  | None => Raise AttributeError
                  end in
  let? cs := _construct_canonicalized_and_signed_headers headers in
  let '(canonical_headers, signed_headers) := cs in
  Ok (join nl
        [verb;
         if truthy canonical_uri_parameter then canonical_uri_parameter else "/";
         canonical_query_string;
         canonical_headers;
         signed_headers;
         lower (_hash_bytes_hex payload)],
      signed_headers).

Definition _construct_string_to_sign
    (region_name service_name amzdate canonical_request_hash : string)
    : string * string :=
  let short_amzdate := take_str 8 amzdate in
  let scope := short_amzdate +:+ "/" +:+ region_name +:+ "/" +:+ service_name
               +:+ "/aws4_request" in
  (join nl ["AWS4-HMAC-SHA256"; amzdate; scope; canonical_request_hash], scope).

(** The arguments of the HTTP call that the closure returns. *)
Record RestArgs : Type := mkRestArgs {
  ra_headers : dict HeaderValue;
  ra_data : option string
}.

(** One call of the closure [generate_authenticated_url_and_args_v4]
    created for the request [rq]: [amzdate] is the formatted
    [datetime.utcnow()] of the call, [creds] is
    [self.credentials.creds] at the time of the call. *)
Definition generate_authenticated_url_and_args_v4
    (region_name : string) (creds : gmap string string) (amzdate : string)
    (rq : Request) : Res (string * RestArgs) :=
  let parsed_url := urlparse (rq_url rq) in
  let short_amzdate := take_str 8 amzdate in
  let x_amz_headers := rq_x_amz_headers rq in
  let x_amz_headers := dict_set "x-amz-date" (VStr amzdate) x_amz_headers in
  let x_amz_headers :=
    dict_set "x-amz-security-token"
      (VStr (default "" (creds !! "AWS_TOKEN"))) x_amz_headers in
  let x_amz_headers :=
    dict_set "host" (hv (pu_hostname (urlparse (rq_url rq)))) x_amz_headers in
  let? cs :=
    _construct_canonical_request_and_signed_headers
      (rq_verb rq)
      (pu_path parsed_url
       +:+ (if truthy (pu_params parsed_url)
            then ";" +:+ pu_params parsed_url else ""))
      (pu_query parsed_url)
      (Some x_amz_headers)
      (rq_data rq) in
  let '(canonical_request, signed_headers) := cs in
  let '(string_to_sign, scope) :=
    _construct_string_to_sign region_name "s3" amzdate
      (lower (_hash_bytes_hex canonical_request)) in
  let? secret := match creds !! "AWS_SECRET_KEY" with
                 | Some k => Ok k
                 | None => Raise (KeyError "AWS_SECRET_KEY")
                 end in
  let kDate := _sign_bytes ("AWS4" +:+ secret) short_amzdate in
  let kRegion := _sign_bytes kDate region_name in
  let kService := _sign_bytes kRegion "s3" in
  let signing_key := _sign_bytes kService "aws4_request" in
  let signature := lower (_sign_bytes_hex signing_key string_to_sign) in
  let? key_id := match creds !! "AWS_KEY_ID" with
                 | Some k => Ok k
                 | None => Raise (KeyError "AWS_KEY_ID")
                 end in
  let authorization_header :=
    "AWS4-HMAC-SHA256 "
    +:+ ("Credential=" +:+ key_id +:+ "/" +:+ scope +:+ ", ")
    +:+ ("SignedHeaders=" +:+ signed_headers +:+ ", ")
    +:+ ("Signature=" +:+ signature) in
  let headers := dict_update (rq_headers rq) x_amz_headers in
  let headers := dict_set "Authorization" (VStr authorization_header) headers in
  Ok (rq_url rq,
      {| ra_headers := headers;
         ra_data := if truthy (rq_data rq) then Some (rq_data rq) else None |}).

End Signer.

(** *** The client *)

Section Client.
Context `{Crypto} `{UrlLib} `{XmlParser} `{StorageClientBase}.

(** The object and its surroundings. [wire] is not a field of the
    class: it lists, oldest first, the requests handed to the
    dispatcher. *)
Record Client : Type := mkClient {
  region_name : string;
  upload_id : option string;
  etags : option (list (option string));
  s3location : S3Location;
  endpoint : string;
  meta : FileMeta;
  encryption_metadata : option EncryptionMetadata;
  num_of_chunks : Z;
  chunk_size : Z;
  retry_count : gmap RetryId Z;
  net : Net;
  sink : Sink;
  wire : list Request
}.

Definition with_upload_id (x : option string) (s : Client) : Client :=
  mkClient (region_name s) x (etags s) (s3location s) (endpoint s) (meta s)
    (encryption_metadata s) (num_of_chunks s) (chunk_size s) (retry_count s)
    (net s) (sink s) (wire s).

Definition with_etags (x : option (list (option string))) (s : Client) : Client :=
  mkClient (region_name s) (upload_id s) x (s3location s) (endpoint s) (meta s)
    (encryption_metadata s) (num_of_chunks s) (chunk_size s) (retry_count s)
    (net s) (sink s) (wire s).

Definition with_result_status (x : ResultStatus) (s : Client) : Client :=
  mkClient (region_name s) (upload_id s) (etags s) (s3location s) (endpoint s)
    (mkFileMeta x (sha256_digest (meta s)) (src_file_name (meta s))
       (dst_file_name (meta s)))
    (encryption_metadata s) (num_of_chunks s) (chunk_size s) (retry_count s)
    (net s) (sink s) (wire s).

Definition with_retry_count (x : gmap RetryId Z) (s : Client) : Client :=
  mkClient (region_name s) (upload_id s) (etags s) (s3location s) (endpoint s)
    (meta s) (encryption_metadata s) (num_of_chunks s) (chunk_size s) x
    (net s) (sink s) (wire s).

Definition with_sink (x : Sink) (s : Client) : Client :=
  mkClient (region_name s) (upload_id s) (etags s) (s3location s) (endpoint s)
    (meta s) (encryption_metadata s) (num_of_chunks s) (chunk_size s)
    (retry_count s) (net s) x (wire s).

(** The state after the dispatcher has run on [rq]. *)
Definition dispatched (rq : Request) (rc : gmap RetryId Z) (n : Net)
    (s : Client) : Client :=
  mkClient (region_name s) (upload_id s) (etags s) (s3location s) (endpoint s)
    (meta s) (encryption_metadata s) (num_of_chunks s) (chunk_size s) rc
    n (sink s) (wire s ++ [rq]).

(** A method: state in, outcome and state out. *)
Definition M (A : Type) : Type := Client -> Res A * Client.

Definition ret {A : Type} (a : A) : M A := fun s => (Ok a, s).

Definition bind {A B : Type} (m : M A) (k : A -> M B) : M B :=
  fun s => match m s with
           | (Ok a, s') => k a s'
           | (Raise e, s') => (Raise e, s')
           end.

Definition lift {A : Type} (r : Res A) : M A := fun s => (r, s).

Definition gets {A : Type} (f : Client -> A) : M A := fun s => (Ok (f s), s).

Definition modify (f : Client -> Client) : M unit := fun s => (Ok tt, f s).

Notation "'let*' x ':=' c 'in' k" := (bind c (fun x => k))
  (at level 10, x name, c at level 100, k at level 200, only parsing).
Notation "c ';;;' k" := (bind c (fun _ => k))
  (at level 100, k at level 200, right associativity, only parsing).

(** [self.retry_count[retry_id] = 0] *)
Definition reset_retry (retry_id : RetryId) : M unit :=
  modify (fun s => with_retry_count (<[retry_id := 0]> (retry_count s)) s).

Definition _has_expired_token (response : Response) : Res bool :=
  if negb (status_code response =? 400) then Ok false
  else
    let message := text response in
    if negb (truthy message) || isspace message then Ok false
    else
      let? err := match fromstring message with
                  | Some e => Ok e
                  | None => Raise ParseError
                  end in
      let? code := match find "Code" err with
                   | Some c => Ok c
                   | None => Raise AttributeError
                   end in
      Ok (bool_decide (Xml.text code = Some EXPIRED_TOKEN)).

Definition _extract_bucket_name_and_path (stage_location : string) : S3Location :=
  let '(bucket_name, _, path) := partition_char "/" stage_location in
  let path := if truthy path && negb (endswith_slash path)
              then path +:+ "/" else path in
  {| bucket_name := bucket_name; path := path |}.

(** The request is built from the defaulted arguments and handed, as the
    closure, to the dispatcher of the base class. *)
Definition closure_of
    (url verb : string) (retry_id : RetryId)
    (x_amz_headers headers : option (dict HeaderValue))
    (data : option string) : Request :=
  let x_amz_headers := default [] x_amz_headers in
  let headers := default [] headers in
  let data := default "" data in
  let x_amz_headers :=
    dict_set "x-amz-content-sha256" (VStr (_hash_bytes_hex data)) x_amz_headers in
  {| rq_url := url; rq_verb := verb; rq_retry_id := retry_id;
     rq_x_amz_headers := x_amz_headers; rq_headers := headers;
     rq_data := data |}.

Definition _send_request_with_authentication_and_retry
    (url verb : string) (retry_id : RetryId)
    (x_amz_headers headers : option (dict HeaderValue))
    (data : option string) : M Response :=
  let rq := closure_of url verb retry_id x_amz_headers headers data in
  fun s =>
    let '(r, rc, n) := _send_request_with_retry rq (retry_count s) (net s) in
    (r, dispatched rq rc n s).

Definition get_file_header (filename : string) : M (option FileHeader) :=
  let* path := gets (fun s => quote (path (s3location s) +:+ lstrip_slash filename)) in
  let* url := gets (fun s => endpoint s +:+ ("/" +:+ path)) in
  let retry_id : RetryId := inl "HEAD" in
  reset_retry retry_id ;;;
  let* response :=
    _send_request_with_authentication_and_retry url "HEAD" retry_id None None None in
  if status_code response =? 200 then
    modify (with_result_status UPLOADED) ;;;
    let metadata := headers response in
    let encryption_metadata :=
      if truthy (default "" (cid_get (META_PREFIX +:+ AMZ_KEY) metadata))
      then Some {| key := cid_get (META_PREFIX +:+ AMZ_KEY) metadata;
                   iv := cid_get (META_PREFIX +:+ AMZ_IV) metadata;
                   matdesc := cid_get (META_PREFIX +:+ AMZ_MATDESC) metadata |}
      else None in
    let* n := lift (int (cid_get "Content-Length" metadata)) in
    ret (Some {| digest := cid_get (META_PREFIX +:+ SFC_DIGEST) metadata;
                 content_length := n;
                 fh_encryption_metadata := encryption_metadata |})
  else if status_code response =? 404 then
    modify (with_result_status NOT_FOUND_FILE) ;;;
    ret None
  else
    lift (raise_for_status response) ;;;
    ret None.

(** Reads the object and changes nothing. *)
Definition _prepare_file_metadata (s : Client) : dict HeaderValue :=
  let s3_metadata := [(META_PREFIX +:+ SFC_DIGEST, hv (sha256_digest (meta s)))] in
  match encryption_metadata s with
  | Some em =>
      dict_update s3_metadata
        [(META_PREFIX +:+ AMZ_IV, hv (iv em));
         (META_PREFIX +:+ AMZ_KEY, hv (key em));
         (META_PREFIX +:+ AMZ_MATDESC, hv (matdesc em))]
  | None => s3_metadata
  end.

(** The value of [self.upload_id] inside an f-string. *)
Definition fmt_upload_id (x : option string) : string := default "None" x.

Definition _initiate_multipart_upload : M unit :=
  let* path := gets (fun s =>
    quote (path (s3location s) +:+ lstrip_slash (dst_file_name (meta s)))) in
  let* url := gets (fun s => endpoint s +:+ ("/" +:+ path +:+ "?uploads")) in
  let* s3_metadata := gets _prepare_file_metadata in
  let retry_id : RetryId := inl "Initiate" in
  reset_retry retry_id ;;;
  let* response :=
    _send_request_with_authentication_and_retry url "POST" retry_id
      (Some s3_metadata)
      (Some [(HTTP_HEADER_CONTENT_TYPE, VStr HTTP_HEADER_VALUE_OCTET_STREAM)])
      None in
  if status_code response =? 200 then
    let* root := lift (match fromstring (content response) with
                       | Some e => Ok e
                       | None => Raise ParseError
                       end) in
    let* third := lift (child 2 root) in
    modify (with_upload_id (Xml.text third)) ;;;
    modify (fun s => with_etags (Some (replicate (Z.to_nat (num_of_chunks s)) None)) s)
  else
    lift (raise_for_status response).

(** [self.etags[chunk_id] = etag] *)
Definition set_etag (chunk_id : Z) (etag : string) : M unit :=
  fun s =>
    match etags s with
    | None => (Raise TypeError, s)
    | Some l =>
        match norm_index (Z.of_nat (length l)) chunk_id with
        | Some i => (Ok tt, with_etags (Some (<[i := Some etag]> l)) s)
        | None => (Raise IndexError, s)
        end
    end.

Definition _upload_chunk (chunk_id : Z) (chunk : string) : M unit :=
  let* path := gets (fun s =>
    quote (path (s3location s) +:+ lstrip_slash (dst_file_name (meta s)))) in
  let* url := gets (fun s => endpoint s +:+ ("/" +:+ path)) in
  let* n := gets num_of_chunks in
  if n =? 1 then
    let* s3_metadata := gets _prepare_file_metadata in
    let* response :=
      _send_request_with_authentication_and_retry url "PUT" (inr chunk_id)
        (Some s3_metadata)
        (Some [(HTTP_HEADER_CONTENT_TYPE, VStr HTTP_HEADER_VALUE_OCTET_STREAM)])
        (Some chunk) in
    lift (raise_for_status response)
  else
    let* chunk_url := gets (fun s =>
      url +:+ ("?partNumber=" +:+ str (chunk_id + 1) +:+ "&uploadId="
               +:+ fmt_upload_id (upload_id s))) in
    let* response :=
      _send_request_with_authentication_and_retry chunk_url "PUT" (inr chunk_id)
        None None (Some chunk) in
    (if status_code response =? 200 then
       let* etag := lift (cid_item "ETag" (headers response)) in
       set_etag chunk_id etag
     else ret tt) ;;;
    lift (raise_for_status response).

(** The [Part] element that the loop of [_complete_multipart_upload]
    builds for the slot [idx]. *)
Definition part_element (idx : nat) (etag_str : option string) : Element :=
  let part := Element_new "Part" in
  let etag := Element_new "ETag" in
  let etag := set_text etag_str etag in
  let part := append etag part in
  let part_number := Element_new "PartNumber" in
  let part_number := set_text (Some (str (Z.of_nat idx + 1))) part_number in
  append part_number part.

(** The document that the loop builds from [self.etags]. *)
Definition completion_document (l : list (option string)) : Element :=
  fold_left (fun root p => append (part_element p.1 p.2) root)
    (imap (fun idx etag_str => (idx, etag_str)) l)
    (Element_new "CompleteMultipartUpload").

Definition _complete_multipart_upload : M unit :=
  let* path := gets (fun s =>
    quote (path (s3location s) +:+ lstrip_slash (dst_file_name (meta s)))) in
  let* url := gets (fun s =>
    endpoint s +:+ ("/" +:+ path +:+ "?uploadId=" +:+ fmt_upload_id (upload_id s))) in
  let* slots := gets etags in
  let* root := lift (match slots with
                     | Some l => Ok (completion_document l)
                     | None => Raise TypeError
                     end) in
  let retry_id : RetryId := inl "Complete" in
  reset_retry retry_id ;;;
  let* response :=
    _send_request_with_authentication_and_retry url "POST" retry_id
      None None (Some (tostring root)) in
  lift (raise_for_status response).

Definition _abort_multipart_upload : M unit :=
  let* uid := gets upload_id in
  match uid with
  | None => ret tt
  | Some _ =>
      let* path := gets (fun s =>
        quote (path (s3location s) +:+ lstrip_slash (dst_file_name (meta s)))) in
      let* url := gets (fun s =>
        endpoint s +:+ ("/" +:+ path +:+ "?uploadId=" +:+ fmt_upload_id (upload_id s))) in
      let retry_id : RetryId := inl "Abort" in
      reset_retry retry_id ;;;
      let* response :=
        _send_request_with_authentication_and_retry url "DELETE" retry_id
          None None None in
      lift (raise_for_status response)
  end.

(** The byte range of chunk [chunk_id], the value of [_range]. *)
Definition chunk_range (num_of_chunks chunk_size chunk_id : Z) : string :=
  if chunk_id <? num_of_chunks - 1
  then str (chunk_id * chunk_size) +:+ "-" +:+ str ((chunk_id + 1) * chunk_size - 1)
  else str (chunk_id * chunk_size) +:+ "-".

Definition download_chunk (chunk_id : Z) : M unit :=
  let* path := gets (fun s =>
    quote (path (s3location s) +:+ lstrip_slash (src_file_name (meta s)))) in
  let* url := gets (fun s => endpoint s +:+ ("/" +:+ path)) in
  let* n := gets num_of_chunks in
  if n =? 1 then
    let* response :=
      _send_request_with_authentication_and_retry url "GET" (inr chunk_id)
        None None None in
    (if status_code response =? 200 then
       modify (fun s => with_sink (write_downloaded_chunk 0 (content response) (sink s)) s) ;;;
       modify (with_result_status DOWNLOADED)
     else ret tt) ;;;
    lift (raise_for_status response)
  else
    let* chunk_size := gets chunk_size in
    let _range := chunk_range n chunk_size chunk_id in
    let* response :=
      _send_request_with_authentication_and_retry url "GET" (inr chunk_id)
        None (Some [("Range", VStr ("bytes=" +:+ _range))]) None in
    (if (status_code response =? 200) || (status_code response =? 206) then
       modify (fun s =>
         with_sink (write_downloaded_chunk chunk_id (content response) (sink s)) s)
     else ret tt) ;;;
    lift (raise_for_status response).

(** What [transfer_accelerate_config] can return: [x and y] yields [x]
    itself when [x] is false, so the result is [None], an element or a
    truth value. *)
Inductive AccelerateResult : Type :=
| ANone
| AElement (e : Element)
| ABool (b : bool).

(** The truth value of an [Element]: it has subelements. *)
Definition element_truthy (e : Element) : bool :=
  negb (Nat.eqb (length (children e)) 0).

(** The truth value of what [transfer_accelerate_config] returns. *)
Definition accelerate_truthy (r : AccelerateResult) : bool :=
  match r with
  | ANone => false
  | AElement e => element_truthy e
  | ABool b => b
  end.

Definition transfer_accelerate_config : M AccelerateResult :=
  let* url := gets (fun s => endpoint s +:+ "/?accelerate") in
  let retry_id : RetryId := inl "accelerate" in
  reset_retry retry_id ;;;
  let* response :=
    _send_request_with_authentication_and_retry url "GET" retry_id None None None in
  if status_code response =? 200 then
    let* config := lift (match fromstring (Connector.text response) with
                         | Some e => Ok e
                         | None => Raise ParseError
                         end) in
    let use_accelerate_endpoint :=
      match find "Status" config with
      | None => ANone
      | Some status =>
          if element_truthy status
          then ABool (bool_decide (Xml.text status = Some "Enabled"))
          else AElement status
      end in
    ret use_accelerate_endpoint
  else ret (ABool false).

End Client.

End S3.

(** ** [local_storage_client.py] *)

Module Local.

(** *** The file system

    Files and directories are known by their path strings: no
    normalisation, no links, no permissions. The empty directory name is
    the current directory when it is the parent of a relative path. *)
Record FS : Type := mkFS {
  files : gmap string string;
  dirs : gset string
}.

Definition is_slash (c : ascii) : bool := Ascii.eqb c "/".

(** [(p[:i], p[i:])] for [i = p.rfind("/") + 1] *)
Fixpoint split_last_slash (p : string) : string * string :=
  match p with
  | EmptyString => ("", "")
  | String c r =>
      let '(h, t) := split_last_slash r in
      if truthy h then (String c h, t)
      else if is_slash c then ("/", r)
      else ("", String c r)
  end.

(** [os.path.basename] *)
Definition basename (p : string) : string := (split_last_slash p).2.

(** [os.path.dirname] *)
Definition dirname (p : string) : string :=
  let head := (split_last_slash p).1 in
  if truthy head && negb (all_chars is_slash head)
  then rstrip_by is_slash head else head.

(** [os.path.join(a, b)] *)
Definition path_join (a b : string) : string :=
  if startswith_slash b then b
  else if negb (truthy a) || endswith_slash a then a +:+ b
  else a +:+ "/" +:+ b.

Definition is_root (p : string) : bool := truthy p && all_chars is_slash p.

Definition is_dir (p : string) (fs : FS) : bool :=
  is_root p || bool_decide (p ∈ dirs fs).

Definition is_file (p : string) (fs : FS) : bool :=
  bool_decide (is_Some (files fs !! p)).

(** [os.path.exists] *)
Definition path_exists (p : string) (fs : FS) : bool :=
  is_dir p fs || is_file p fs.

(** The path and the directories above it, nearest first. *)
Fixpoint ancestors (fuel : nat) (p : string) : list string :=
  match fuel with
  | O => []
  | S n =>
      if negb (truthy p) || is_root p then []
      else p :: ancestors n (dirname p)
  end.

(** [os.makedirs(p)] for a path that does not exist. *)
Definition makedirs (p : string) (fs : FS) : Res FS :=
  if negb (truthy p) then Raise (FileNotFoundError p)
  else
    let up := ancestors (String.length p) p in
    match List.find (fun a => is_file a fs) up with
    | Some a => Raise (NotADirectoryError a)
    | None => Ok (mkFS (files fs) (dirs fs ∪ list_to_set up))
    end.

(** [open(p, "rb")]: the file must be there. *)
Definition open_read (p : string) (fs : FS) : Res unit :=
  if is_dir p fs then Raise (IsADirectoryError p)
  else if is_file p fs then Ok tt
  else Raise (FileNotFoundError p).

(** [open(p, "wb")] and [open(p, "wb+")]: the file is created or emptied;
    its directory must be there. *)
Definition open_write (p : string) (fs : FS) : Res FS :=
  if is_dir p fs then Raise (IsADirectoryError p)
  else if negb (truthy (dirname p)) || is_dir (dirname p) fs
       then Ok (mkFS (<[p := ""]> (files fs)) (dirs fs))
       else Raise (FileNotFoundError p).

(** What reading an open file to its end yields. *)
Definition read_all (p : string) (fs : FS) : string :=
  default "" (files fs !! p).

(** Writing [data] to the file opened at [p], from its start. *)
Definition write_all (p data : string) (fs : FS) : FS :=
  mkFS (<[p := data]> (files fs)) (dirs fs).

(** [os.stat(p).st_size] of a file; the size of a directory is not
    modelled. *)
Definition st_size (p : string) (fs : FS) : Res Z :=
  match files fs !! p with
  | Some data => Ok (Z.of_nat (String.length data))
  | None => if is_dir p fs then Raise (OSError "size of a directory")
            else Raise (FileNotFoundError p)
  end.

(** [os.path.expanduser] depends on the environment of the process. *)
Class Os : Type := {
  expanduser : string -> string
}.

(** *** The client *)

(** The fields of [SnowflakeFileMeta] that the local client reads and
    writes; [stage_location] is [client_meta.stage_info["location"]]. A
    stream is the bytes that are still to be read from it. *)
Record FileMeta : Type := mkFileMeta {
  src_file_name : string;
  real_src_file_name : string;
  dst_file_name : string;
  src_stream : option string;
  real_src_stream : option string;
  stage_location : string;
  local_location : string;
  upload_size : Z;
  dst_file_size : Z;
  result_status : ResultStatus
}.

Definition with_streams (src real : option string) (m : FileMeta) : FileMeta :=
  mkFileMeta (src_file_name m) (real_src_file_name m) (dst_file_name m)
    src real (stage_location m) (local_location m) (upload_size m)
    (dst_file_size m) (result_status m).

Definition with_dst_file_size (n : Z) (m : FileMeta) : FileMeta :=
  mkFileMeta (src_file_name m) (real_src_file_name m) (dst_file_name m)
    (src_stream m) (real_src_stream m) (stage_location m) (local_location m)
    (upload_size m) n (result_status m).

Definition with_result_status (x : ResultStatus) (m : FileMeta) : FileMeta :=
  mkFileMeta (src_file_name m) (real_src_file_name m) (dst_file_name m)
    (src_stream m) (real_src_stream m) (stage_location m) (local_location m)
    (upload_size m) (dst_file_size m) x.

(** The source that [frd] is bound to. *)
Inductive Source : Type :=
| FromFile (p : string)
| FromRealStream
| FromStream.

Section Client.
Context `{Os}.

(** The destination of an upload. *)
Definition upload_target (meta : FileMeta) : string :=
  path_join (expanduser (stage_location meta)) (dst_file_name meta).

(** Reading [frd] to its end: a stream is left exhausted. *)
Definition drain (src : Source) (meta : FileMeta) (fs : FS) : string * FileMeta :=
  match src with
  | FromFile p => (read_all p fs, meta)
  | FromRealStream =>
      (default "" (real_src_stream meta), with_streams (src_stream meta) (Some "") meta)
  | FromStream =>
      (default "" (src_stream meta), with_streams (Some "") (real_src_stream meta) meta)
  end.

Definition _upload_file_with_retry (meta : FileMeta) (fs : FS)
    : Res unit * FileMeta * FS :=
  let frd : Res Source :=
    match src_stream meta with
    | None =>
        match open_read (real_src_file_name meta) fs with
        | Ok _ => Ok (FromFile (real_src_file_name meta))
        | Raise e => Raise e
        end
    | Some _ =>
        match real_src_stream meta with
        | Some _ => Ok FromRealStream
        | None => Ok FromStream
        end
    end in
  match frd with
  | Raise e => (Raise e, meta, fs)
  | Ok frd =>
      match open_write (upload_target meta) fs with
      | Raise e => (Raise e, meta, fs)
      | Ok fs =>
          let '(data, meta) := drain frd meta fs in
          let fs := write_all (upload_target meta) data fs in
          let meta := with_dst_file_size (upload_size meta) meta in
          let meta := with_result_status UPLOADED meta in
          (Ok tt, meta, fs)
      end
  end.

Definition full_src_file_name (meta : FileMeta) : string :=
  path_join (expanduser (stage_location meta))
    (if negb (startswith_slash (src_file_name meta))
     then src_file_name meta else drop1 (src_file_name meta)).

Definition full_dst_file_name (meta : FileMeta) : string :=
  path_join (local_location meta) (basename (dst_file_name meta)).

Definition _download_file (meta : FileMeta) (fs : FS)
    : Res unit * FileMeta * FS :=
  let src := full_src_file_name meta in
  let dst := full_dst_file_name meta in
  let base_dir := dirname dst in
  let made := if negb (path_exists base_dir fs) then makedirs base_dir fs
              else Ok fs in
  match made with
  | Raise e => (Raise e, meta, fs)
  | Ok fs =>
      match open_read src fs with
      | Raise e => (Raise e, meta, fs)
      | Ok _ =>
          match open_write dst fs with
          | Raise e => (Raise e, meta, fs)
          | Ok fs =>
              let fs := write_all dst (read_all src fs) fs in
              match st_size dst fs with
              | Raise e => (Raise e, meta, fs)
              | Ok n =>
                  let meta := with_dst_file_size n meta in
                  let meta := with_result_status DOWNLOADED meta in
                  (Ok tt, meta, fs)
              end
          end
      end
  end.

End Client.

End Local.


(** ** Instances of the libraries, for the examples

    Stand-ins with which the definitions above can be run: a checksum in
    place of the hash functions, an XML parser for documents made of
    elements and text only, a network that answers from a prepared list
    of responses. *)

Module Sample.

Fixpoint checksum (s : string) (acc : N) : N :=
  match s with
  | EmptyString => acc
  | String c r => checksum r ((31 * acc + code c) mod 65536)%N
  end.

Definition digest16 (s : string) : string :=
  let n := checksum s 7 in
  String (ascii_of_N (n / 256)) (String (ascii_of_N (n mod 256)) EmptyString).

Definition crypto : Crypto :=
  {| sha256 := digest16;
     hmac_sha256 := fun k m => digest16 (k +:+ ":" +:+ m) |}.

(** [scheme://host/path?query], without parameters. *)
Definition parse_url (url : string) : ParsedUrl :=
  let '(_, _, rest) := partition_char ":" url in
  let rest := drop1 (drop1 rest) in
  let '(host, slash, tail) := partition_char "/" rest in
  let '(p, _, q) := partition_char "?" tail in
  {| pu_path := if slash then "/" +:+ p else "";
     pu_params := "";
     pu_query := q;
     pu_hostname := if truthy host then Some host else None |}.

Definition urllib : UrlLib :=
  {| quote := fun s => s; urlparse := parse_url |}.

Inductive Token : Type :=
| TOpen (name : string)
| TClose (name : string)
| TEmpty (name : string)
| TText (s : string).

Definition snoc (s : string) (c : ascii) : string := s +:+ String c EmptyString.

Definition name_ok (n : string) : bool :=
  truthy n && all_chars (fun c => negb (isspace_char c || Ascii.eqb c "/")) n.

Definition tag_token (buf : string) : option Token :=
  match buf with
  | String "/" n => if name_ok n then Some (TClose n) else None
  | _ =>
      if endswith_slash buf
      then let n := rstrip_by (fun c => Ascii.eqb c "/") buf in
           if name_ok n && Nat.eqb (String.length buf) (S (String.length n))
           then Some (TEmpty n) else None
      else if name_ok buf then Some (TOpen buf) else None
  end.

Fixpoint lex (s : string) (in_tag : bool) (buf : string) : option (list Token) :=
  match s with
  | EmptyString =>
      if in_tag then None
      else Some (if truthy buf then [TText buf] else [])
  | String c r =>
      if in_tag then
        if Ascii.eqb c ">" then
          t ← tag_token buf; ts ← lex r false ""; Some (t :: ts)
        else if Ascii.eqb c "<" then None
        else lex r true (snoc buf c)
      else
        if Ascii.eqb c "<" then
          ts ← lex r true "";
          Some (if truthy buf then TText buf :: ts else ts)
        else if Ascii.eqb c "&" then None
        else lex r false (snoc buf c)
  end.

(** An element under construction: tag, text, children so far. *)
Definition Frame : Type := string * option string * list Element.

Definition add_child (c : Element) (f : Frame) : Frame :=
  let '(t, x, cs) := f in (t, x, (cs ++ [c])%list).

Fixpoint build (ts : list Token) (stack : list Frame) (root : option Element)
    : option Element :=
  match ts with
  | [] => match stack with [] => root | _ => None end
  | t :: r =>
      match root, stack, t with
      | Some _, _, TText x => if all_chars isspace_char x then build r stack root else None
      | Some _, _, _ => None
      | None, [], TText x => if all_chars isspace_char x then build r [] None else None
      | None, (tg, None, []) :: up, TText x => build r ((tg, Some x, []) :: up) None
      | None, _ :: _, TText _ => build r stack None
      | None, _, TOpen n => build r ((n, None, []) :: stack) None
      | None, [], TEmpty n => build r [] (Some (Elem n None []))
      | None, f :: up, TEmpty n => build r (add_child (Elem n None []) f :: up) None
      | None, [], TClose _ => None
      | None, (tg, x, cs) :: up, TClose n =>
          if String.eqb tg n then
            match up with
            | [] => build r [] (Some (Elem tg x cs))
            | f :: up' => build r (add_child (Elem tg x cs) f :: up') None
            end
          else None
      end
  end.

Definition parse_xml (s : string) : option Element :=
  ts ← lex s false ""; build ts [] None.

Definition xml : XmlParser := {| fromstring := parse_xml |}.

(** The network answers with the next prepared response and counts the
    attempt. *)
Definition scripted (rq : Request) (rc : gmap RetryId Z) (n : list Response)
    : Res Response * gmap RetryId Z * list Response :=
  let rc := <[rq_retry_id rq := default 0 (rc !! rq_retry_id rq) + 1]> rc in
  match n with
  | r :: rest => (Ok r, rc, rest)
  | [] => (Raise (OSError "connection aborted"), rc, [])
  end.

Definition base : StorageClientBase :=
  {| Net := list Response;
     _send_request_with_retry := scripted;
     Sink := gmap Z string;
     write_downloaded_chunk := fun i data sink => <[i := data]> sink;
     HTTP_HEADER_CONTENT_TYPE := "Content-Type";
     HTTP_HEADER_VALUE_OCTET_STREAM := "application/octet-stream" |}.

Definition os : Local.Os :=
  {| Local.expanduser := fun p =>
       match p with
       | String "~" r => "/home/user" +:+ r
       | _ => p
       end |}.

(** A disk with one staged file and one local file. *)
Definition disk : Local.FS :=
  Local.mkFS
    (<["/home/user/stage/data.csv" := "hello"]> (<["/tmp/src/report.csv" := "a,b;1,2"]> ∅))
    ({["/home/user/stage"]} ∪ {["/tmp/src"]} ∪ {["/tmp/out"]}).

(** Upload [/tmp/src/report.csv] to the stage [~/stage], declared as 7
    bytes. *)
Definition upload_job : Local.FileMeta :=
  Local.mkFileMeta "report.csv" "/tmp/src/report.csv" "report.csv" None None
    "~/stage" "" 7 0 PENDING.

(** Download [data.csv] from the stage into the new directory
    [/tmp/out/new], declared as 999 bytes. *)
Definition download_job : Local.FileMeta :=
  Local.mkFileMeta "/data.csv" "" "nested/data.csv" None None
    "~/stage" "/tmp/out/new" 999 0 PENDING.

Definition reply (status : Z) (body : string) (hs : list (string * string)) : Response :=
  {| status_code := status; body := body;
     headers := list_to_map (prod_map lower id <$> hs) |}.

Definition creds : gmap string string :=
  <["AWS_SECRET_KEY" := "secret"]>
    (<["AWS_KEY_ID" := "AKID"]> (<["AWS_TOKEN" := "tok"]> ∅)).

(** Credentials without a security token, and without the key
    identifier. *)
Definition creds_no_token : gmap string string :=
  <["AWS_SECRET_KEY" := "secret"]> (<["AWS_KEY_ID" := "AKID"]> ∅).

Definition creds_no_key_id : gmap string string :=
  <["AWS_SECRET_KEY" := "secret"]> ∅.

(** The request of the second part of an upload. *)
Definition part_two : Request :=
  @S3.closure_of crypto
    "https://bucket.s3.amazonaws.com/stage/data.csv.gz?partNumber=2&uploadId=UID"
    "PUT" (inr 1) None None (Some "part two").

(** A client for [bucket/stage/] with [n] chunks of [c] bytes and the
    prepared responses [rs]. *)
Definition client (n c : Z) (rs : list Response) : @S3.Client base :=
  @S3.mkClient base "us-west-2" None None
    (S3.mkS3Location "bucket" "stage/")
    "https://bucket.s3.amazonaws.com"
    (S3.mkFileMeta PENDING (Some "digest") "data.csv.gz" "data.csv.gz")
    None n c ∅ rs ∅ [].

(** The same client for a file without a digest, and for an encrypted
    file. *)
Definition client_no_digest (n c : Z) (rs : list Response) : @S3.Client base :=
  @S3.mkClient base "us-west-2" None None
    (S3.mkS3Location "bucket" "stage/")
    "https://bucket.s3.amazonaws.com"
    (S3.mkFileMeta PENDING None "data.csv.gz" "data.csv.gz")
    None n c ∅ rs ∅ [].

Definition client_encrypted (n c : Z) (rs : list Response) : @S3.Client base :=
  @S3.mkClient base "us-west-2" None None
    (S3.mkS3Location "bucket" "stage/")
    "https://bucket.s3.amazonaws.com"
    (S3.mkFileMeta PENDING (Some "digest") "data.csv.gz" "data.csv.gz")
    (Some (mkEncryptionMetadata (Some "KEY") (Some "IV") (Some "MATDESC")))
    n c ∅ rs ∅ [].

(** A client whose multipart upload of three chunks is initiated. *)
Definition ready (rs : list Response) : @S3.Client base :=
  S3.with_etags (Some [None; None; None])
    (S3.with_upload_id (Some "UID") (client 3 100 rs)).

(** The state after the part uploads [steps], made one after the other. *)
Definition uploads (s : @S3.Client base) (steps : list (Z * string))
    : @S3.Client base :=
  foldl (fun s p => (@S3._upload_chunk crypto urllib base p.1 p.2 s).2) s steps.

(** Answers to four part uploads and to the completion. *)
Definition part_replies : list Response :=
  [reply 200 "" [("ETag", "e1")]; reply 200 "" [("ETag", "e0")];
   reply 200 "" [("ETag", "e1b")]; reply 200 "" [("ETag", "e2")];
   reply 200 "" []].




(** A download without a local directory, an upload to a stage that is
    not there, and a job whose names start with separators. *)
Definition no_location_job : Local.FileMeta :=
  Local.mkFileMeta "data.csv" "" "data.csv" None None "~/stage" "" 0 0 PENDING.

Definition no_stage_job : Local.FileMeta :=
  Local.mkFileMeta "report.csv" "/tmp/src/report.csv" "report.csv" None None
    "/nowhere" "" 7 0 PENDING.

Definition absolute_job : Local.FileMeta :=
  Local.mkFileMeta "//etc/passwd" "/tmp/src/report.csv" "/etc/motd" None None
    "~/stage" "/tmp/out" 7 0 PENDING.

End Sample.


Import S3.

(** ** Notions used to state the properties *)

Module Spec.

Section Documents.
Context `{XmlParser}.

(** [body] is a structured error document whose error code is [c]: it
    is not blank, it parses, and its [Code] element has the text [c]. *)
Definition error_document_with_code (body c : string) : Prop :=
  truthy body = true ∧ isspace body = false ∧
  ∃ err code,
    fromstring body = Some err ∧ find "Code" err = Some code
    ∧ Xml.text code = Some c.
End Documents.

(** A header name as it is on the wire after canonicalisation. *)
Definition lower_case (k : string) : Prop := lower k = k.

(** The text of a header value: a list is joined with commas. *)
Definition value_text (v : HeaderValue) : string :=
  match v with
  | VStr s => s
  | VList l => join "," l
  | VNone => ""
  end.

(** The canonical line [name:value] of a header. *)
Definition line_text (kv : string * HeaderValue) : string :=
  strip (replace_char "010" " " kv.1) +:+ ":"
  +:+ collapse_spaces (strip (value_text kv.2)).

(** The order of [sorted]: by character code. *)
Definition str_le (a b : string) : Prop := String.leb a b = true.

Section Signing.
Context `{Crypto} `{UrlLib}.

(** The headers that a call of the closure signs: those captured with
    the request and the three set by the call. *)
Definition signed_x_amz_headers (creds : gmap string string) (amzdate : string)
    (rq : Request) : dict HeaderValue :=
  dict_set "host" (hv (pu_hostname (urlparse (rq_url rq))))
    (dict_set "x-amz-security-token" (VStr (default "" (creds !! "AWS_TOKEN")))
       (dict_set "x-amz-date" (VStr amzdate) (rq_x_amz_headers rq))).

(** The canonical request that a call of the closure builds. *)
Definition canonical_request_of (creds : gmap string string) (amzdate : string)
    (rq : Request) : Res (string * string) :=
  _construct_canonical_request_and_signed_headers
    (rq_verb rq)
    (pu_path (urlparse (rq_url rq))
     +:+ (if truthy (pu_params (urlparse (rq_url rq)))
          then ";" +:+ pu_params (urlparse (rq_url rq)) else ""))
    (pu_query (urlparse (rq_url rq)))
    (Some (signed_x_amz_headers creds amzdate rq))
    (rq_data rq).
End Signing.

Section Requests.
Context `{Crypto} `{UrlLib} `{XmlParser} `{StorageClientBase}.

(** The URL of the object [name] under the stage of the client. *)
Definition object_url (s : Client) (name : string) : string :=
  endpoint s +:+ ("/" +:+ quote (path (s3location s) +:+ lstrip_slash name)).

(** The request of a probe. *)
Definition head_request (s : Client) (filename : string) : Request :=
  closure_of (object_url s filename) "HEAD" (inl "HEAD") None None None.

(** The state in which the dispatcher has answered the probe. *)
Definition probed (s : Client) (filename : string)
    (rc : gmap RetryId Z) (n : Net) : Client :=
  dispatched (head_request s filename) rc n
    (with_retry_count (<[inl "HEAD" := 0]> (retry_count s)) s).

(** The request that completes a multipart upload with the slots [l]. *)
Definition complete_request (s : Client) (l : list (option string)) : Request :=
  closure_of
    (endpoint s +:+ ("/" +:+ quote (path (s3location s)
                                    +:+ lstrip_slash (dst_file_name (meta s)))
                     +:+ "?uploadId=" +:+ fmt_upload_id (upload_id s)))
    "POST" (inl "Complete") None None
    (Some (tostring (completion_document l))).

(** The request that initiates a multipart upload. *)
Definition initiate_request (s : Client) : Request :=
  closure_of
    (endpoint s +:+ ("/" +:+ quote (path (s3location s)
                                    +:+ lstrip_slash (dst_file_name (meta s)))
                     +:+ "?uploads"))
    "POST" (inl "Initiate") (Some (_prepare_file_metadata s))
    (Some [(HTTP_HEADER_CONTENT_TYPE, VStr HTTP_HEADER_VALUE_OCTET_STREAM)])
    None.

(** The request that uploads part [chunk_id] of a multipart upload. *)
Definition part_request (s : Client) (chunk_id : Z) (chunk : string) : Request :=
  closure_of
    (object_url s (dst_file_name (meta s))
     +:+ ("?partNumber=" +:+ str (chunk_id + 1) +:+ "&uploadId="
          +:+ fmt_upload_id (upload_id s)))
    "PUT" (inr chunk_id) None None (Some chunk).



(** The claim that completion rejects an array with an empty slot. *)
Definition completion_rejects_empty_slot (s : Client) : Prop :=
  ∀ l, etags s = Some l → None ∈ l →
       ∃ e s', _complete_multipart_upload s = (Raise e, s') ∧ wire s' = wire s.
End Requests.

(** The pairs of a query string, as the canonical request reads them. *)
Definition query_pairs (url_query : string) : list (string * string) :=
  if truthy url_query
  then map (fun e => let '(k, _, v) := partition_char "=" e in (k, v))
         (split_char "&" url_query)
  else [].

(** A string without the character [c]. *)
Definition free_of (c : ascii) (s : string) : Prop :=
  all_chars (fun d => negb (Ascii.eqb d c)) s = true.

(** The four names under which the metadata of an object is stored. *)
Definition reserved_names : list string :=
  [META_PREFIX +:+ SFC_DIGEST; META_PREFIX +:+ AMZ_IV;
   META_PREFIX +:+ AMZ_KEY; META_PREFIX +:+ AMZ_MATDESC].

(** The response headers [h] give back the metadata [metadata] that was
    sent with an upload. *)
Definition stored_as (metadata : dict HeaderValue) (h : gmap string string) : Prop :=
  ∀ k, k ∈ reserved_names →
       cid_get k h = match dict_get k metadata with
                     | Some (VStr v) => Some v
                     | _ => None
                     end.

(** The slots after the part uploads [tr], each a slot index with the
    [ETag] it was answered with, oldest first. *)
Definition slots_after (l : list (option string)) (tr : list (nat * string))
    : list (option string) :=
  foldl (fun l p => <[p.1 := Some p.2]> l) l tr.

Section Parts.
Context `{Crypto} `{UrlLib} `{XmlParser} `{StorageClientBase}.

(** [parts_uploaded s tr s']: from [s], the part uploads listed in [tr]
    were made one after the other, each for a chunk of the transfer and
    each answered with 200 and an [ETag], and led to [s']. *)
Inductive parts_uploaded : Client → list (nat * string) → Client → Prop :=
| parts_none (s : Client) : parts_uploaded s [] s
| parts_more (s s1 : Client) (tr : list (nat * string)) (chunk_id : Z)
    (chunk : string) (response : Response) (rc : gmap RetryId Z) (n : Net)
    (etag : string) :
    parts_uploaded s tr s1 →
    0 ≤ chunk_id < num_of_chunks s1 →
    _send_request_with_retry (part_request s1 chunk_id chunk)
      (retry_count s1) (net s1) = (Ok response, rc, n) →
    status_code response = 200 →
    cid_get "ETag" (headers response) = Some etag →
    parts_uploaded s (tr ++ [(Z.to_nat chunk_id, etag)])
      (_upload_chunk chunk_id chunk s1).2.

(** The request that aborts a multipart upload. *)
Definition abort_request (s : Client) : Request :=
  closure_of
    (endpoint s +:+ ("/" +:+ quote (path (s3location s)
                                    +:+ lstrip_slash (dst_file_name (meta s)))
                     +:+ "?uploadId=" +:+ fmt_upload_id (upload_id s)))
    "DELETE" (inl "Abort") None None None.

(** The request of a download in one piece, and of chunk [chunk_id] of a
    chunked download. *)
Definition get_request (s : Client) (chunk_id : Z) : Request :=
  closure_of (object_url s (src_file_name (meta s))) "GET" (inr chunk_id)
    None None None.

Definition range_request (s : Client) (chunk_id : Z) : Request :=
  closure_of (object_url s (src_file_name (meta s))) "GET" (inr chunk_id) None
    (Some [("Range",
            VStr ("bytes=" +:+ chunk_range (num_of_chunks s) (chunk_size s) chunk_id))])
    None.

(** The request for the transfer-acceleration status of the bucket. *)
Definition accelerate_request (s : Client) : Request :=
  closure_of (endpoint s +:+ "/?accelerate") "GET" (inl "accelerate")
    None None None.
End Parts.

End Spec.

Import Spec.

(** ** Facts about the built-ins *)

Lemma lower_char_idem (c : ascii) : lower_char (lower_char c) = lower_char c.
Proof. destruct c as [[] [] [] [] [] [] [] []]; reflexivity. Qed.

Lemma lower_idem (s : string) : lower (lower s) = lower s.
Proof.
  induction s as [|c r IH]; simpl; [reflexivity|].
  by rewrite lower_char_idem, IH.
Qed.

Lemma res_map_ok {A B : Type} (f : A -> Res B) (g : A -> B) (l : list A) :
  (∀ x, x ∈ l → f x = Ok (g x)) → res_map f l = Ok (g <$> l).
Proof.
  induction l as [|x r IH]; intros Hf; simpl; [reflexivity|].
  rewrite (Hf x) by left. simpl.
  rewrite IH; [reflexivity|].
  intros y Hy. apply Hf. by right.
Qed.

(** A comprehension raises as soon as one of its elements does, and what it
    raises comes from an element of the list. *)
Lemma res_map_raises {A B : Type} (f : A -> Res B) (l : list A) (x : A) (e : Exn) :
  x ∈ l → f x = Raise e → ∃ y e', y ∈ l ∧ f y = Raise e' ∧ res_map f l = Raise e'.
Proof.
  induction l as [|a r IH]; intros Hin Hx; [by apply elem_of_nil in Hin|].
  simpl. destruct (f a) as [b|e0] eqn:Ha.
  - apply elem_of_cons in Hin as [->|Hin]; [congruence|].
    destruct (IH Hin Hx) as (y & e' & Hy & Hfy & Hr).
    exists y, e'. split; [by right|]. split; [done|]. simpl. by rewrite Hr.
  - exists a, e0. split; [by left|]. by split.
Qed.

(** ** The expired-token classifier *)

Section ClassifierProps.
Context `{XmlParser}.

Lemma has_expired_token_other_status (response : Response) :
  status_code response ≠ 400 → _has_expired_token response = Ok false.
Proof.
  intros Hne. unfold _has_expired_token.
  destruct (Z.eqb_spec (status_code response) 400); [done|reflexivity].
Qed.

Lemma has_expired_token_blank (response : Response) :
  text response = "" ∨ isspace (text response) = true →
  _has_expired_token response = Ok false.
Proof.
  intros Hb. unfold _has_expired_token.
  destruct (negb (status_code response =? 400)); [reflexivity|].
  destruct Hb as [-> | ->]; [reflexivity|].
  by rewrite orb_true_r.
Qed.

(** Past the two guards the body is parsed and its [Code] is read. *)
Lemma has_expired_token_parses (response : Response) :
  status_code response = 400 →
  truthy (text response) = true → isspace (text response) = false →
  _has_expired_token response =
    match fromstring (text response) with
    | None => Raise ParseError
    | Some err =>
        match find "Code" err with
        | None => Raise AttributeError
        | Some code => Ok (bool_decide (Xml.text code = Some EXPIRED_TOKEN))
        end
    end.
Proof.
  intros Hs Ht Hw. unfold _has_expired_token.
  rewrite Hs, Ht, Hw. simpl.
  destruct (fromstring (text response)) as [err|]; [|reflexivity]. simpl.
  destruct (find "Code" err); reflexivity.
Qed.

(** C3: the classifier answers [True] exactly for a response with status
    400 whose body is the error document with code [ExpiredToken], and
    [False] for every response with another status. *)
Theorem expired_token_classifier (response : Response) :
  (_has_expired_token response = Ok true
   ↔ status_code response = 400
     ∧ error_document_with_code (text response) EXPIRED_TOKEN)
  ∧ (status_code response ≠ 400 → _has_expired_token response = Ok false).
Proof.
  split; [|apply has_expired_token_other_status].
  split.
  - intros Hr.
    destruct (decide (status_code response = 400)) as [Hs|Hs];
      [|by rewrite has_expired_token_other_status in Hr].
    split; [done|].
    destruct (truthy (text response)) eqn:Ht; cycle 1.
    { rewrite has_expired_token_blank in Hr; [done|].
      left. by destruct (text response). }
    destruct (isspace (text response)) eqn:Hw.
    { rewrite has_expired_token_blank in Hr; [done|by right]. }
    rewrite has_expired_token_parses in Hr by done.
    split; [done|]. split; [done|].
    destruct (fromstring (text response)) as [err|] eqn:Hp; [|done].
    destruct (find "Code" err) as [code|] eqn:Hf; [|done].
    exists err, code. split; [done|]. split; [done|].
    inversion Hr as [Hb]. by apply bool_decide_eq_true in Hb.
  - intros (Hs & Ht & Hw & err & code & Hp & Hf & Hc).
    rewrite has_expired_token_parses by done.
    rewrite Hp, Hf. f_equal. by apply bool_decide_eq_true.
Qed.


End ClassifierProps.

Lemma expired_token_classifier_witness :
  @_has_expired_token Sample.xml
    (Sample.reply 400 "<Error><Code>ExpiredToken</Code><Message>m</Message></Error>" [])
  = Ok true
  ∧ @_has_expired_token Sample.xml
      (Sample.reply 403 "<Error><Code>ExpiredToken</Code></Error>" [])
    = Ok false.
Proof.
  split.
  - apply (proj1 (@expired_token_classifier Sample.xml _)).
    split; [reflexivity|].
    split; [reflexivity|]. split; [reflexivity|].
    exists (Elem "Error" None
              [Elem "Code" (Some "ExpiredToken") []; Elem "Message" (Some "m") []]),
      (Elem "Code" (Some "ExpiredToken") []).
    split; [vm_compute; reflexivity|]. split; reflexivity.
  - apply (proj2 (@expired_token_classifier Sample.xml _)). simpl. lia.
Defined.


(** ** Dictionaries and sorting *)

Section DictFacts.
Context {V : Type}.
Implicit Types (d : dict V) (k : string) (v : V).

Lemma dict_get_set_eq k v d : dict_get k (dict_set k v d) = Some v.
Proof.
  induction d as [|[k' v'] r IH]; simpl.
  - by rewrite String.eqb_refl.
  - destruct (String.eqb_spec k k') as [->|Hne]; simpl.
    + by rewrite String.eqb_refl.
    + destruct (String.eqb_spec k k'); [done|apply IH].
Qed.

Lemma dict_get_set_ne k k' v d :
  k ≠ k' → dict_get k' (dict_set k v d) = dict_get k' d.
Proof.
  intros Hne. induction d as [|[k0 v0] r IH]; simpl.
  - destruct (String.eqb_spec k' k); [congruence|done].
  - destruct (String.eqb_spec k k0) as [->|Hk]; simpl.
    + destruct (String.eqb_spec k' k0); [congruence|done].
    + by rewrite IH.
Qed.

Lemma dict_get_set k k' v d :
  dict_get k' (dict_set k v d) = if decide (k = k') then Some v else dict_get k' d.
Proof.
  case_decide as Hk; [subst; apply dict_get_set_eq|by apply dict_get_set_ne].
Qed.

Lemma dict_get_update_ne k d e :
  k ∉ dict_keys e → dict_get k (dict_update d e) = dict_get k d.
Proof.
  unfold dict_update, dict_keys. revert d.
  induction e as [|[k0 v0] r IH]; intros d Hk; simpl; [done|].
  rewrite IH; [|set_solver].
  apply dict_get_set_ne. set_solver.
Qed.
End DictFacts.

Section SortFacts.
Context {A : Type} (key : A -> string).

Lemma elem_of_insert_by (x y : A) (l : list A) :
  y ∈ insert_by key x l ↔ y = x ∨ y ∈ l.
Proof.
  induction l as [|a r IH]; simpl; [set_solver|].
  destruct (String.leb (key x) (key a)); set_solver.
Qed.

Lemma elem_of_sort_by (y : A) (l : list A) : y ∈ sort_by key l ↔ y ∈ l.
Proof.
  induction l as [|a r IH]; simpl; [done|].
  rewrite elem_of_insert_by. set_solver.
Qed.
End SortFacts.

(** ** Canonical headers *)

Section CanonicalHeaders.

Lemma low_key_dict_fold_get (hs acc : dict HeaderValue) (k : string) :
  is_Some (dict_get k
             (fold_left (fun acc kv => dict_set (lower kv.1) kv.2 acc) hs acc)) →
  is_Some (dict_get k acc) ∨ ∃ k0, k0 ∈ dict_keys hs ∧ k = lower k0.
Proof.
  revert acc. induction hs as [|[k0 v0] r IH]; intros acc Hk; simpl in *; [by left|].
  destruct (IH _ Hk) as [Hacc | (k1 & Hin & ->)].
  - rewrite dict_get_set in Hacc. case_decide as Hd.
    + right. exists k0. split; [unfold dict_keys; set_solver|done].
    + by left.
  - right. exists k1. split; [unfold dict_keys in *; set_solver|done].
Qed.

Lemma low_key_dict_fold_keep (hs acc : dict HeaderValue) (k : string) :
  is_Some (dict_get k acc) →
  is_Some (dict_get k
             (fold_left (fun acc kv => dict_set (lower kv.1) kv.2 acc) hs acc)).
Proof.
  revert acc. induction hs as [|[k0 v0] r IH]; intros acc Hk; simpl; [done|].
  apply IH. rewrite dict_get_set. by case_decide.
Qed.

Lemma low_key_dict_fold_has (hs acc : dict HeaderValue) (k0 : string) :
  k0 ∈ dict_keys hs →
  is_Some (dict_get (lower k0)
             (fold_left (fun acc kv => dict_set (lower kv.1) kv.2 acc) hs acc)).
Proof.
  revert acc. induction hs as [|[k1 v1] r IH]; intros acc Hin; simpl.
  - by apply elem_of_nil in Hin.
  - unfold dict_keys in Hin. simpl in Hin.
    apply elem_of_cons in Hin as [->|Hin].
    + apply low_key_dict_fold_keep. rewrite dict_get_set_eq. by eexists.
    + by apply IH.
Qed.

(** The names under which [low_key_dict] holds values are lower-case. *)
Lemma low_key_dict_lower (headers : dict HeaderValue) (k : string) :
  is_Some (dict_get k (low_key_dict headers)) → lower_case k.
Proof.
  intros Hk. destruct (low_key_dict_fold_get _ _ _ Hk) as [[? Hn]|(k0 & _ & ->)].
  - done.
  - apply lower_idem.
Qed.

Lemma low_key_dict_has (headers : dict HeaderValue) (k : string) :
  k ∈ dict_keys headers → is_Some (dict_get (lower k) (low_key_dict headers)).
Proof. apply low_key_dict_fold_has. Qed.

(** C1: the names are sorted as given and looked up, as given, among the
    lower-cased names, so a header map with a name that is not lower-case
    is not canonicalised: the call raises [KeyError] for such a name. *)
Theorem canonical_headers_mixed_case_raises (headers : dict HeaderValue) :
  (∃ k, k ∈ dict_keys headers ∧ ¬ lower_case k) →
  ∃ k', k' ∈ dict_keys headers ∧ ¬ lower_case k'
        ∧ _construct_canonicalized_and_signed_headers headers = Raise (KeyError k').
Proof.
  intros (k & Hin & Hk).
  unfold _construct_canonicalized_and_signed_headers.
  set (f := fun k => res_bind (dict_item k (low_key_dict headers))
                       (fun v => Ok (k, v))).
  assert (∀ y e, f y = Raise e → e = KeyError y ∧ dict_get y (low_key_dict headers) = None)
    as Hf.
  { intros y e. unfold f, dict_item.
    destruct (dict_get y (low_key_dict headers)); simpl; [done|].
    intros [= <-]. done. }
  assert (f k = Raise (KeyError k)) as Hfk.
  { unfold f, dict_item.
    destruct (dict_get k (low_key_dict headers)) eqn:Hg; [|done].
    exfalso. apply Hk. apply (low_key_dict_lower headers). by eexists. }
  destruct (res_map_raises f (sorted (dict_keys headers)) k _
              ltac:(by apply elem_of_sort_by) Hfk) as (y & e' & Hy & Hfy & Hr).
  apply elem_of_sort_by in Hy.
  destruct (Hf _ _ Hfy) as [-> Hnone].
  exists y. split; [done|]. split.
  - intros Hl. destruct (low_key_dict_has headers y Hy) as [v Hv].
    rewrite Hl in Hv. congruence.
  - fold f. by rewrite Hr.
Qed.

End CanonicalHeaders.

(** The header set of the specification's example. *)
Example canonical_headers_spec_example :
  _construct_canonicalized_and_signed_headers
    [("X-Amz-Date", VStr "d"); ("host", VStr "h"); ("X-Amz-Content-Sha256", VStr "s")]
  = Raise (KeyError "X-Amz-Content-Sha256").
Proof. vm_compute. reflexivity. Qed.

(** The same headers under lower-case names. *)
Example canonical_headers_lower_example :
  _construct_canonicalized_and_signed_headers
    [("x-amz-date", VStr "d"); ("host", VStr " h   1 "); ("x-amz-content-sha256", VList ["s"; "t"])]
  = Ok ("host:h 1" +:+ nl +:+ "x-amz-content-sha256:s,t" +:+ nl +:+ "x-amz-date:d" +:+ nl,
        "host;x-amz-content-sha256;x-amz-date").
Proof. vm_compute. reflexivity. Qed.

Lemma canonical_headers_mixed_case_raises_witness :
  ∃ k', k' ∈ ["X-Amz-Date"; "host"; "X-Amz-Content-Sha256"] ∧ ¬ lower_case k'
    ∧ _construct_canonicalized_and_signed_headers
        [("X-Amz-Date", VStr "d"); ("host", VStr "h"); ("X-Amz-Content-Sha256", VStr "s")]
      = Raise (KeyError k').
Proof.
  apply (canonical_headers_mixed_case_raises
           [("X-Amz-Date", VStr "d"); ("host", VStr "h"); ("X-Amz-Content-Sha256", VStr "s")]).
  exists "X-Amz-Date". split.
  - simpl. left.
  - unfold lower_case. vm_compute. discriminate.
Defined.

(** ** The S3 client *)

Section ClientProps.
Context `{Crypto} `{UrlLib} `{XmlParser} `{StorageClientBase}.

Lemma send_run url verb rid x h d (s : Client) r rc n :
  _send_request_with_retry (closure_of url verb rid x h d) (retry_count s) (net s)
  = (r, rc, n) →
  _send_request_with_authentication_and_retry url verb rid x h d s
  = (r, dispatched (closure_of url verb rid x h d) rc n s).
Proof.
  intros Hd. unfold _send_request_with_authentication_and_retry. by rewrite Hd.
Qed.

(** The file header that a probe builds from the headers of a 200
    response with content length [len]. *)
Lemma get_file_header_run filename (s : Client) r rc n :
  _send_request_with_retry (head_request s filename)
    (<[inl "HEAD" := 0]> (retry_count s)) (net s) = (r, rc, n) →
  get_file_header filename s =
    match r with
    | Raise e => (Raise e, probed s filename rc n)
    | Ok response =>
        let metadata := headers response in
        if status_code response =? 200 then
          (match int (cid_get "Content-Length" metadata) with
           | Ok len =>
               Ok (Some {| digest := cid_get (META_PREFIX +:+ SFC_DIGEST) metadata;
                           content_length := len;
                           fh_encryption_metadata :=
                             if truthy (default "" (cid_get (META_PREFIX +:+ AMZ_KEY) metadata))
                             then Some {| key := cid_get (META_PREFIX +:+ AMZ_KEY) metadata;
                                          iv := cid_get (META_PREFIX +:+ AMZ_IV) metadata;
                                          matdesc := cid_get (META_PREFIX +:+ AMZ_MATDESC) metadata |}
                             else None |})
           | Raise e => Raise e
           end,
           with_result_status UPLOADED (probed s filename rc n))
        else if status_code response =? 404 then
          (Ok None, with_result_status NOT_FOUND_FILE (probed s filename rc n))
        else
          (match raise_for_status response with
           | Ok _ => Ok None
           | Raise e => Raise e
           end, probed s filename rc n)
    end.
Proof.
  intros Hd.
  unfold get_file_header, bind, gets, reset_retry, modify. simpl.
  erewrite send_run; [|exact Hd].
  destruct r as [response|e]; [|reflexivity].
  fold (probed s filename rc n). simpl.
  destruct (status_code response =? 200).
  - unfold lift, ret.
    destruct (int (cid_get "Content-Length" (headers response))); reflexivity.
  - destruct (status_code response =? 404); [reflexivity|].
    unfold lift, ret. destruct (raise_for_status response); reflexivity.
Qed.

(** C4, as the code has it: when the dispatcher answers the probe with
    404 the probe returns [None] and sets the status to not-found, raising
    nothing; when it answers with 200 and a [Content-Length] that [int]
    accepts, the probe returns a file header with the digest header, that
    length, and encryption metadata exactly when the key-material header
    is present with a non-empty value, built from the three reserved
    headers; with a 200 whose [Content-Length] is missing or is no
    integer the probe raises. *)
Theorem probe_semantics filename (s : Client) response rc n :
  _send_request_with_retry (head_request s filename)
    (<[inl "HEAD" := 0]> (retry_count s)) (net s) = (Ok response, rc, n) →
  (status_code response = 404 →
   get_file_header filename s
   = (Ok None, with_result_status NOT_FOUND_FILE (probed s filename rc n)))
  ∧ (status_code response = 200 →
     ∀ len, int (cid_get "Content-Length" (headers response)) = Ok len →
     ∃ fh, get_file_header filename s
           = (Ok (Some fh), with_result_status UPLOADED (probed s filename rc n))
       ∧ digest fh = cid_get (META_PREFIX +:+ SFC_DIGEST) (headers response)
       ∧ content_length fh = len
       ∧ (is_Some (fh_encryption_metadata fh)
          ↔ ∃ k, cid_get (META_PREFIX +:+ AMZ_KEY) (headers response) = Some k
                 ∧ k ≠ "")
       ∧ (∀ em, fh_encryption_metadata fh = Some em →
          em = {| key := cid_get (META_PREFIX +:+ AMZ_KEY) (headers response);
                  iv := cid_get (META_PREFIX +:+ AMZ_IV) (headers response);
                  matdesc := cid_get (META_PREFIX +:+ AMZ_MATDESC) (headers response) |}))
  ∧ (status_code response = 200 →
     ∀ e, int (cid_get "Content-Length" (headers response)) = Raise e →
     get_file_header filename s
     = (Raise e, with_result_status UPLOADED (probed s filename rc n))).
Proof.
  intros Hd. rewrite (get_file_header_run _ _ _ _ _ Hd). cbv zeta.
  split; [|split].
  - intros ->. reflexivity.
  - intros -> len ->. simpl. eexists. split; [reflexivity|]. simpl.
    split; [done|]. split; [done|].
    destruct (cid_get (META_PREFIX +:+ AMZ_KEY) (headers response)) as [k|] eqn:Hk;
      simpl.
    + destruct k as [|c k]; simpl.
      * split; [split|done].
        -- by intros [? ?].
        -- by intros (k & [= <-] & ?).
      * split; [split|].
        -- intros _. by eexists.
        -- by eexists.
        -- by intros em [= <-].
    + split; [split|done].
      * by intros [? ?].
      * by intros (k & ? & ?).
  - intros -> e ->. reflexivity.
Qed.

(** C9: whenever the dispatcher answers a probe with 200, the probe sets
    the result status of the job to [UPLOADED], also when it then fails to
    read the content length. *)
Theorem probe_200_marks_uploaded filename (s : Client) response rc n :
  _send_request_with_retry (head_request s filename)
    (<[inl "HEAD" := 0]> (retry_count s)) (net s) = (Ok response, rc, n) →
  status_code response = 200 →
  result_status (meta (get_file_header filename s).2) = UPLOADED.
Proof.
  intros Hd Hs. rewrite (get_file_header_run _ _ _ _ _ Hd). cbv zeta.
  rewrite Hs. reflexivity.
Qed.

End ClientProps.

Lemma probe_semantics_witness :
  (@get_file_header Sample.crypto Sample.urllib Sample.base "data.csv.gz"
     (Sample.client 1 100 [Sample.reply 404 "" []])).1 = Ok None
  ∧ ∃ fh,
      (@get_file_header Sample.crypto Sample.urllib Sample.base "data.csv.gz"
         (Sample.client 1 100
            [Sample.reply 200 ""
               [("Content-Length", "1024"); ("x-amz-meta-sfc-digest", "abc");
                ("x-amz-meta-x-amz-key", "k"); ("x-amz-meta-x-amz-iv", "i")]])).1
      = Ok (Some fh)
      ∧ content_length fh = 1024.
Proof.
  split.
  - pose proof (proj1 (@probe_semantics Sample.crypto Sample.urllib Sample.base
                         "data.csv.gz" (Sample.client 1 100 [Sample.reply 404 "" []])
                         (Sample.reply 404 "" []) _ _ eq_refl) eq_refl) as W.
    by rewrite W.
  - destruct (proj1 (proj2 (@probe_semantics Sample.crypto Sample.urllib Sample.base
                         "data.csv.gz"
                         (Sample.client 1 100
                            [Sample.reply 200 ""
                               [("Content-Length", "1024"); ("x-amz-meta-sfc-digest", "abc");
                                ("x-amz-meta-x-amz-key", "k"); ("x-amz-meta-x-amz-iv", "i")]])
                         _ _ _ eq_refl)) eq_refl 1024 ltac:(vm_compute; reflexivity))
      as (fh & W & _ & Hlen & _).
    exists fh. by rewrite W.
Defined.

Lemma probe_200_marks_uploaded_witness :
  result_status
    (meta (@get_file_header Sample.crypto Sample.urllib Sample.base "data.csv.gz"
             (Sample.client 1 100 [Sample.reply 200 "" []])).2) = UPLOADED
  ∧ (@get_file_header Sample.crypto Sample.urllib Sample.base "data.csv.gz"
       (Sample.client 1 100 [Sample.reply 200 "" []])).1 = Raise TypeError.
Proof.
  split.
  - apply (@probe_200_marks_uploaded Sample.crypto Sample.urllib Sample.base
             "data.csv.gz" (Sample.client 1 100 [Sample.reply 200 "" []])
             (Sample.reply 200 "" []) _ _ eq_refl eq_refl).
  - vm_compute. reflexivity.
Defined.

(** C4 as stated fails on two inputs: a 200 response whose key-material
    header is present but empty yields a file header without encryption
    metadata, and a 200 response without [Content-Length] yields no file
    header at all. *)
Lemma probe_semantics_counterexample :
  let present_but_empty :=
    Sample.reply 200 ""
      [("Content-Length", "5"); ("x-amz-meta-sfc-digest", "abc");
       ("x-amz-meta-x-amz-key", "")] in
  let no_length := Sample.reply 200 "" [("x-amz-meta-sfc-digest", "abc")] in
  (is_Some (cid_get (META_PREFIX +:+ AMZ_KEY) (headers present_but_empty))
   ∧ (@get_file_header Sample.crypto Sample.urllib Sample.base "data.csv.gz"
        (Sample.client 1 100 [present_but_empty])).1
     = Ok (Some {| digest := Some "abc"; content_length := 5;
                   fh_encryption_metadata := None |}))
  ∧ (@get_file_header Sample.crypto Sample.urllib Sample.base "data.csv.gz"
       (Sample.client 1 100 [no_length])).1
    = Raise TypeError.
Proof.
  cbv zeta. split; [split|].
  - vm_compute. by eexists.
  - vm_compute. reflexivity.
  - vm_compute. reflexivity.
Qed.

(** ** Chunked download *)

Section DownloadProps.
Context `{Crypto} `{UrlLib} `{XmlParser} `{StorageClientBase}.

Lemma wire_with_sink x (s : Client) : wire (with_sink x s) = wire s.
Proof. reflexivity. Qed.

(** C5: in a transfer of more than one chunk, downloading chunk [i] hands
    the dispatcher one GET for the object whose [Range] header is
    [bytes=i*C-((i+1)*C-1)] for a chunk before the last one and the
    open-ended [bytes=i*C-] for the last chunk. *)
Theorem download_chunk_range (s : Client) (chunk_id : Z) :
  1 < num_of_chunks s →
  ∃ rq, wire (download_chunk chunk_id s).2 = (wire s ++ [rq])%list
    ∧ rq_verb rq = "GET"
    ∧ rq_url rq = object_url s (src_file_name (meta s))
    ∧ (chunk_id < num_of_chunks s - 1 →
       rq_headers rq
       = [("Range",
           VStr ("bytes=" +:+ (str (chunk_id * chunk_size s) +:+ "-"
                               +:+ str ((chunk_id + 1) * chunk_size s - 1))))])
    ∧ (chunk_id = num_of_chunks s - 1 →
       rq_headers rq
       = [("Range", VStr ("bytes=" +:+ (str (chunk_id * chunk_size s) +:+ "-")))]).
Proof.
  intros Hn.
  unfold download_chunk, bind, gets. simpl.
  destruct (Z.eqb_spec (num_of_chunks s) 1) as [Heq|_]; [lia|].
  match goal with
  | |- context [_send_request_with_authentication_and_retry ?u ?v ?i ?x ?h ?d s] =>
      set (rq := closure_of u v i x h d)
  end.
  destruct (_send_request_with_retry rq (retry_count s) (net s)) as [[r rc] n] eqn:Hd.
  rewrite (send_run _ _ _ _ _ _ _ _ _ _ Hd). fold rq.
  exists rq. split; [|split; [reflexivity|split; [reflexivity|split]]].
  - destruct r as [response|e]; [|reflexivity].
    destruct ((status_code response =? 200) || (status_code response =? 206));
      unfold modify, ret, lift; simpl; destruct (raise_for_status response);
      reflexivity.
  - intros Hlt. subst rq. simpl. unfold chunk_range.
    destruct (Z.ltb_spec chunk_id (num_of_chunks s - 1)); [reflexivity|lia].
  - intros Hlast. subst rq. simpl. unfold chunk_range.
    destruct (Z.ltb_spec chunk_id (num_of_chunks s - 1)); [lia|reflexivity].
Qed.

End DownloadProps.

Lemma download_chunk_range_witness :
  let s := Sample.client 3 100 [Sample.reply 206 "chunk" []] in
  let sent i :=
    (λ rq, dict_get "Range" (rq_headers rq))
      <$> wire (@download_chunk Sample.crypto Sample.urllib Sample.base i s).2 in
  sent 0 = [Some (VStr "bytes=0-99")]
  ∧ sent 1 = [Some (VStr "bytes=100-199")]
  ∧ sent 2 = [Some (VStr "bytes=200-")].
Proof.
  cbv zeta.
  destruct (@download_chunk_range Sample.crypto Sample.urllib Sample.base
              (Sample.client 3 100 [Sample.reply 206 "chunk" []]) 0
              ltac:(simpl; lia)) as (rq0 & W0 & _ & _ & R0 & _).
  destruct (@download_chunk_range Sample.crypto Sample.urllib Sample.base
              (Sample.client 3 100 [Sample.reply 206 "chunk" []]) 1
              ltac:(simpl; lia)) as (rq1 & W1 & _ & _ & R1 & _).
  destruct (@download_chunk_range Sample.crypto Sample.urllib Sample.base
              (Sample.client 3 100 [Sample.reply 206 "chunk" []]) 2
              ltac:(simpl; lia)) as (rq2 & W2 & _ & _ & _ & R2).
  rewrite W0, W1, W2. simpl.
  rewrite (R0 ltac:(simpl; lia)), (R1 ltac:(simpl; lia)), (R2 eq_refl).
  vm_compute. done.
Defined.

(** ** Multipart upload *)

Section MultipartProps.
Context `{Crypto} `{UrlLib} `{XmlParser} `{StorageClientBase}.

Lemma part_element_eq (idx : nat) (etag_str : option string) :
  part_element idx etag_str
  = Elem "Part" None
      [Elem "ETag" etag_str [];
       Elem "PartNumber" (Some (str (Z.of_nat idx + 1))) []].
Proof. reflexivity. Qed.

Lemma completion_fold (g : nat → nat) (l : list (option string))
    (t : string) (cs : list Element) :
  fold_left (fun root p => append (part_element p.1 p.2) root)
    (imap (fun idx etag_str => (g idx, etag_str)) l) (Elem t None cs)
  = Elem t None (cs ++ imap (fun idx etag_str => part_element (g idx) etag_str) l)%list.
Proof.
  revert g cs. induction l as [|x r IH]; intros g cs; simpl.
  - by rewrite app_nil_r.
  - unfold append at 2. simpl.
    rewrite (IH (g ∘ S)). by rewrite <- app_assoc.
Qed.

(** The document has one [Part] per slot, in the order of the slots, with
    the part numbers 1, 2, ...; the [ETag] element of an empty slot has no
    text. *)
Lemma completion_document_parts (l : list (option string)) :
  completion_document l
  = Elem "CompleteMultipartUpload" None (imap part_element l).
Proof. unfold completion_document, Element_new. apply (completion_fold id). Qed.

Lemma complete_run (s : Client) l r rc n :
  etags s = Some l →
  _send_request_with_retry (complete_request s l)
    (<[inl "Complete" := 0]> (retry_count s)) (net s) = (r, rc, n) →
  _complete_multipart_upload s
  = (match r with
     | Ok response => raise_for_status response
     | Raise e => Raise e
     end,
     dispatched (complete_request s l) rc n
       (with_retry_count (<[inl "Complete" := 0]> (retry_count s)) s)).
Proof.
  intros Hl Hd.
  unfold _complete_multipart_upload, bind, gets, reset_retry, modify, lift. simpl.
  rewrite Hl. simpl.
  erewrite send_run; [|exact Hd].
  destruct r; reflexivity.
Qed.

(** C2, as the code has it: completion does not look at the slots. For
    every array of slots, with or without empty ones, it hands the
    dispatcher one POST whose body is the document with one part per slot,
    and it fails only if the dispatcher raises or the response has a 4xx
    or 5xx status. *)
Theorem completion_sends_every_slot (s : Client) l r rc n :
  etags s = Some l →
  _send_request_with_retry (complete_request s l)
    (<[inl "Complete" := 0]> (retry_count s)) (net s) = (r, rc, n) →
  (_complete_multipart_upload s).1
  = match r with
    | Ok response => raise_for_status response
    | Raise e => Raise e
    end
  ∧ wire (_complete_multipart_upload s).2 = (wire s ++ [complete_request s l])%list
  ∧ rq_verb (complete_request s l) = "POST"
  ∧ rq_data (complete_request s l)
    = tostring
        (Elem "CompleteMultipartUpload" None
           (imap (fun idx etag_str =>
                    Elem "Part" None
                      [Elem "ETag" etag_str [];
                       Elem "PartNumber" (Some (str (Z.of_nat idx + 1))) []]) l)).
Proof.
  intros Hl Hd. rewrite (complete_run _ _ _ _ _ Hl Hd). simpl.
  split; [done|]. split; [done|]. split; [done|].
  by rewrite completion_document_parts.
Qed.

End MultipartProps.

Lemma completion_sends_every_slot_witness :
  let s := with_etags (Some [Some "e1"; Some "e2"])
             (with_upload_id (Some "UID")
                (Sample.client 2 100 [Sample.reply 500 "" []])) in
  (@_complete_multipart_upload Sample.crypto Sample.urllib Sample.base s).1
  = Raise (HTTPError 500)
  ∧ rq_data <$> wire (@_complete_multipart_upload Sample.crypto Sample.urllib Sample.base s).2
    = ["<CompleteMultipartUpload><Part><ETag>e1</ETag><PartNumber>1</PartNumber></Part><Part><ETag>e2</ETag><PartNumber>2</PartNumber></Part></CompleteMultipartUpload>"].
Proof.
  cbv zeta.
  destruct (@completion_sends_every_slot Sample.crypto Sample.urllib Sample.base
              (with_etags (Some [Some "e1"; Some "e2"])
                 (with_upload_id (Some "UID")
                    (Sample.client 2 100 [Sample.reply 500 "" []])))
              [Some "e1"; Some "e2"] _ _ _ eq_refl eq_refl) as (W1 & W2 & _ & W3).
  rewrite W1, W2. split; [reflexivity|].
  rewrite fmap_app, fmap_cons, W3. vm_compute. reflexivity.
Defined.

(** C2 as stated fails: with the second of two slots empty the call is not
    rejected; the document goes out with an empty [ETag] for part 2 and,
    the response being 200, the call returns normally. *)
Lemma completion_rejects_empty_slot_counterexample :
  let s := with_etags (Some [Some "e1"; None])
             (with_upload_id (Some "UID")
                (Sample.client 2 100 [Sample.reply 200 "" []])) in
  ¬ @completion_rejects_empty_slot Sample.crypto Sample.urllib Sample.base s
  ∧ (@_complete_multipart_upload Sample.crypto Sample.urllib Sample.base s).1 = Ok tt
  ∧ rq_data <$> wire (@_complete_multipart_upload Sample.crypto Sample.urllib Sample.base s).2
    = ["<CompleteMultipartUpload><Part><ETag>e1</ETag><PartNumber>1</PartNumber></Part><Part><ETag /><PartNumber>2</PartNumber></Part></CompleteMultipartUpload>"].
Proof.
  cbv zeta. split; [|split].
  - intros Hc.
    destruct (Hc [Some "e1"; None] eq_refl ltac:(set_solver)) as (e & s' & Heq & _).
    apply (f_equal fst) in Heq. vm_compute in Heq. discriminate.
  - vm_compute. reflexivity.
  - vm_compute. reflexivity.
Qed.

Section MultipartState.
Context `{Crypto} `{UrlLib} `{XmlParser} `{StorageClientBase}.

Lemma initiate_run (s : Client) r rc n :
  _send_request_with_retry (initiate_request s)
    (<[inl "Initiate" := 0]> (retry_count s)) (net s) = (r, rc, n) →
  _initiate_multipart_upload s =
    let s1 := dispatched (initiate_request s) rc n
                (with_retry_count (<[inl "Initiate" := 0]> (retry_count s)) s) in
    match r with
    | Raise e => (Raise e, s1)
    | Ok response =>
        if status_code response =? 200 then
          match fromstring (content response) with
          | None => (Raise ParseError, s1)
          | Some root =>
              match children root !! 2%nat with
              | None => (Raise IndexError, s1)
              | Some third =>
                  (Ok tt,
                   with_etags (Some (replicate (Z.to_nat (num_of_chunks s)) None))
                     (with_upload_id (Xml.text third) s1))
              end
          end
        else (raise_for_status response, s1)
    end.
Proof.
  intros Hd.
  unfold _initiate_multipart_upload, bind, gets, reset_retry, modify, lift. simpl.
  erewrite send_run; [|exact Hd].
  destruct r as [response|e]; [|reflexivity].
  destruct (status_code response =? 200); [|reflexivity].
  destruct (fromstring (content response)) as [root|]; [|reflexivity].
  unfold child. destruct (children root !! 2%nat); reflexivity.
Qed.




Lemma norm_index_in_range (len i : Z) :
  0 ≤ i < len → norm_index len i = Some (Z.to_nat i).
Proof.
  intros Hi. unfold norm_index.
  destruct (Z.leb_spec 0 i); [|lia]. destruct (Z.ltb_spec i len); [done|lia].
Qed.

(** A part answered with 200 and an [ETag] header fills its own slot. *)
Lemma upload_chunk_records_etag (s : Client) chunk_id chunk response rc n l etag :
  num_of_chunks s ≠ 1 → etags s = Some l →
  0 ≤ chunk_id < Z.of_nat (length l) →
  _send_request_with_retry (part_request s chunk_id chunk) (retry_count s) (net s)
  = (Ok response, rc, n) →
  status_code response = 200 →
  cid_get "ETag" (headers response) = Some etag →
  _upload_chunk chunk_id chunk s
  = (Ok tt,
     with_etags (Some (<[Z.to_nat chunk_id := Some etag]> l))
       (dispatched (part_request s chunk_id chunk) rc n s)).
Proof.
  intros Hn Hl Hi Hd Hs Het.
  unfold _upload_chunk, bind, gets. simpl.
  destruct (Z.eqb_spec (num_of_chunks s) 1); [done|].
  unfold part_request, object_url in Hd.
  rewrite (send_run _ _ _ _ _ _ _ _ _ _ Hd).
  rewrite Hs. simpl. unfold lift at 1, cid_item. rewrite Het.
  unfold set_etag. simpl. rewrite Hl.
  rewrite norm_index_in_range by done. simpl.
  unfold lift, raise_for_status. rewrite Hs. reflexivity.
Qed.




End MultipartState.


(** ** The signer *)

Section SignerProps.
Context `{Crypto} `{UrlLib}.

Lemma take_str_length (n : nat) (s : string) :
  (n ≤ String.length s)%nat → String.length (take_str n s) = n.
Proof.
  revert s. induction n as [|n IH]; intros s Hn; [reflexivity|].
  destruct s as [|c r]; simpl in *; [lia|].
  rewrite IH; [reflexivity|lia].
Qed.

(** C6: the string to sign is the algorithm identifier, the timestamp,
    the scope [date/region/service/aws4_request] and the hash of the
    canonical request, one per line, the date being the first eight
    characters of the timestamp; and whenever the closure has built its
    canonical request and the credentials hold the secret and the key
    identifier, the signature in the [Authorization] header it returns is
    the HMAC-SHA-256 of that string under the key derived from
    ["AWS4" + secret] by four chained HMAC-SHA-256 steps over the date, the
    region, ["s3"] and ["aws4_request"]. *)
Theorem signature_derivation (region_name : string) (creds : gmap string string)
    (amzdate secret key_id : string) (rq : Request)
    (canonical_request signed_headers : string) :
  let date := take_str 8 amzdate in
  let scope := date +:+ "/" +:+ region_name +:+ "/" +:+ "s3" +:+ "/aws4_request" in
  let string_to_sign :=
    "AWS4-HMAC-SHA256" +:+ nl +:+ amzdate +:+ nl +:+ scope +:+ nl
    +:+ lower (hexlify (sha256 canonical_request)) in
  let signing_key :=
    hmac_sha256
      (hmac_sha256
         (hmac_sha256 (hmac_sha256 ("AWS4" +:+ secret) date) region_name)
         "s3")
      "aws4_request" in
  creds !! "AWS_SECRET_KEY" = Some secret →
  creds !! "AWS_KEY_ID" = Some key_id →
  canonical_request_of creds amzdate rq = Ok (canonical_request, signed_headers) →
  (∀ service hash,
     _construct_string_to_sign region_name service amzdate hash
     = ("AWS4-HMAC-SHA256" +:+ nl +:+ amzdate +:+ nl
        +:+ (date +:+ "/" +:+ region_name +:+ "/" +:+ service +:+ "/aws4_request")
        +:+ nl +:+ hash,
        date +:+ "/" +:+ region_name +:+ "/" +:+ service +:+ "/aws4_request"))
  ∧ ((8 ≤ String.length amzdate)%nat → String.length date = 8%nat)
  ∧ ∃ args,
      generate_authenticated_url_and_args_v4 region_name creds amzdate rq
      = Ok (rq_url rq, args)
      ∧ dict_get "Authorization" (ra_headers args)
        = Some (VStr ("AWS4-HMAC-SHA256 "
                      +:+ ("Credential=" +:+ key_id +:+ "/" +:+ scope +:+ ", ")
                      +:+ ("SignedHeaders=" +:+ signed_headers +:+ ", ")
                      +:+ ("Signature="
                           +:+ lower (hexlify (hmac_sha256 signing_key string_to_sign))))).
Proof.
  intros date scope string_to_sign signing_key Hsecret Hid Hcanon.
  split; [reflexivity|]. split; [apply take_str_length|].
  unfold generate_authenticated_url_and_args_v4.
  unfold canonical_request_of, signed_x_amz_headers in Hcanon.
  rewrite Hcanon. simpl. rewrite Hsecret, Hid. simpl.
  eexists. split; [reflexivity|]. simpl.
  apply dict_get_set_eq.
Qed.

End SignerProps.

(** ** Canonical headers of lower-case names *)

Section CanonicalLower.

Lemma dict_get_elem {V : Type} (k : string) (v : V) (d : dict V) :
  dict_get k d = Some v → (k, v) ∈ d.
Proof.
  induction d as [|[k' v'] r IH]; simpl; [done|].
  destruct (String.eqb_spec k k') as [->|_].
  - intros [= ->]. by left.
  - intros Hr. right. by apply IH.
Qed.

Lemma dict_get_fresh {V : Type} (k : string) (d : dict V) :
  k ∉ dict_keys d → dict_get k d = None.
Proof.
  intros Hk. destruct (dict_get k d) as [v|] eqn:Hg; [|done].
  exfalso. apply Hk. apply dict_get_elem in Hg.
  unfold dict_keys. by apply (list_elem_of_fmap_2' fst _ (k, v)).
Qed.

Lemma dict_get_unique {V : Type} (k : string) (v : V) (d : dict V) :
  NoDup (dict_keys d) → (k, v) ∈ d → dict_get k d = Some v.
Proof.
  unfold dict_keys. induction d as [|[k' v'] r IH]; intros Hnd Hin.
  - by apply elem_of_nil in Hin.
  - simpl in *. apply NoDup_cons in Hnd as [Hk' Hnd].
    apply elem_of_cons in Hin as [[= -> ->]|Hin].
    + by rewrite String.eqb_refl.
    + destruct (String.eqb_spec k k') as [->|_]; [|by apply IH].
      exfalso. apply Hk'. by apply (list_elem_of_fmap_2' fst _ (k', v)).
Qed.

Lemma elem_of_dict_set {V : Type} (k k0 : string) (v v0 : V) (d : dict V) :
  (k, v) ∈ dict_set k0 v0 d → (k = k0 ∧ v = v0) ∨ (k, v) ∈ d.
Proof.
  induction d as [|[k' v'] r IH]; simpl.
  - intros Hin. apply list_elem_of_singleton in Hin as [= -> ->]. by left.
  - destruct (String.eqb_spec k0 k') as [->|_]; intros Hin;
      apply elem_of_cons in Hin as [[= -> ->]|Hin].
    + by left.
    + right. by right.
    + right. by left.
    + destruct (IH Hin) as [?|?]; [by left|]. right. by right.
Qed.

Lemma dict_set_fresh {V : Type} (k : string) (v : V) (d : dict V) :
  k ∉ dict_keys d → dict_set k v d = (d ++ [(k, v)])%list.
Proof.
  unfold dict_keys. induction d as [|[k' v'] r IH]; intros Hk; simpl; [done|].
  simpl in Hk. apply not_elem_of_cons in Hk as [Hne Hk].
  destruct (String.eqb_spec k k'); [done|]. by rewrite IH.
Qed.

(** For distinct lower-case names the comprehension rebuilds the
    dictionary itself. *)
Lemma low_key_dict_fold_id (hs acc : dict HeaderValue) :
  NoDup (dict_keys (acc ++ hs)%list) →
  Forall lower_case (dict_keys hs) →
  fold_left (fun acc kv => dict_set (lower kv.1) kv.2 acc) hs acc
  = (acc ++ hs)%list.
Proof.
  unfold dict_keys. revert acc.
  induction hs as [|[k v] r IH]; intros acc Hnd Hlow; simpl.
  - by rewrite app_nil_r.
  - apply Forall_cons in Hlow as [Hk Hlow]. simpl in Hk. rewrite Hk.
    rewrite fmap_app in Hnd. simpl in Hnd.
    rewrite dict_set_fresh.
    + rewrite IH; [by rewrite <- app_assoc| |done].
      rewrite <- app_assoc. simpl. by rewrite fmap_app.
    + apply NoDup_app in Hnd as (_ & Hdisj & _).
      intros Hin. apply (Hdisj k Hin). by left.
Qed.

Lemma low_key_dict_id (headers : dict HeaderValue) :
  NoDup (dict_keys headers) → Forall lower_case (dict_keys headers) →
  low_key_dict headers = headers.
Proof. intros Hnd Hlow. by apply (low_key_dict_fold_id headers []). Qed.




(** Canonicalisation succeeds as soon as the names are lower-case and no
    value is [None], whether or not the names are distinct. *)
Lemma canonical_headers_returns (headers : dict HeaderValue) :
  Forall lower_case (dict_keys headers) →
  Forall (fun kv => kv.2 ≠ VNone) headers →
  ∃ block,
    _construct_canonicalized_and_signed_headers headers
    = Ok (block, join ";" (sorted (dict_keys headers))).
Proof.
  intros Hlow Hval.
  assert (∀ (hs acc : dict HeaderValue) k v,
            dict_get k (fold_left (fun acc kv => dict_set (lower kv.1) kv.2 acc) hs acc)
            = Some v → v ∈ acc.*2 ∨ v ∈ hs.*2) as Hfold.
  { induction hs as [|[k0 v0] r IH]; intros acc k v Hg; simpl in *.
    - left. apply dict_get_elem in Hg.
      by apply (list_elem_of_fmap_2' snd _ (k, v)).
    - destruct (IH _ _ _ Hg) as [Hacc|Hr]; [|right; by right].
      apply list_elem_of_fmap in Hacc as ([k1 v1] & -> & Hin).
      apply elem_of_dict_set in Hin as [[_ ->]|Hin]; [right; by left|].
      left. by apply (list_elem_of_fmap_2' snd _ (k1, v1)). }
  set (g := fun k => (k, default VNone (dict_get k (low_key_dict headers)))).
  assert (∀ k, k ∈ dict_keys headers →
               ∃ v, dict_get k (low_key_dict headers) = Some v ∧ v ≠ VNone) as Hhas.
  { intros k Hk.
    destruct (low_key_dict_has headers k Hk) as [v Hv].
    rewrite Forall_forall in Hlow. rewrite (Hlow k Hk) in Hv.
    exists v. split; [done|].
    destruct (Hfold _ _ _ _ Hv) as [Hnil|Hin]; [by apply elem_of_nil in Hnil|].
    apply list_elem_of_fmap in Hin as ([k1 v1] & -> & Hin).
    rewrite Forall_forall in Hval. apply (Hval _ Hin). }
  unfold _construct_canonicalized_and_signed_headers.
  rewrite (res_map_ok _ g); cycle 1.
  { intros k Hk. apply elem_of_sort_by in Hk.
    destruct (Hhas k Hk) as (v & Hv & _). unfold dict_item, g. by rewrite Hv. }
  simpl.
  rewrite (res_map_ok _ line_text); cycle 1.
  { intros [k v] Hin. apply list_elem_of_fmap in Hin as (k' & [= -> ->] & Hk').
    apply elem_of_sort_by in Hk'.
    destruct (Hhas k' Hk') as (v & Hv & Hne). rewrite Hv. simpl.
    by destruct v. }
  simpl. by eexists.
Qed.

End CanonicalLower.

Section SignerReturns.
Context `{Crypto} `{UrlLib}.

Lemma dict_set_Forall {V : Type} (P : string * V → Prop) k v (d : dict V) :
  P (k, v) → Forall P d → Forall P (dict_set k v d).
Proof.
  intros Hkv Hd. apply Forall_forall. intros [k' v'] Hin.
  apply elem_of_dict_set in Hin as [[-> ->]|Hin]; [done|].
  rewrite Forall_forall in Hd. by apply Hd.
Qed.

(** The closure builds its canonical request whenever the captured header
    names are lower-case, no captured value is [None] and the URL has a
    host name. *)
Lemma canonical_request_returns creds amzdate (rq : Request) host :
  Forall lower_case (dict_keys (rq_x_amz_headers rq)) →
  Forall (fun kv => kv.2 ≠ VNone) (rq_x_amz_headers rq) →
  pu_hostname (urlparse (rq_url rq)) = Some host →
  ∃ canonical_request signed_headers,
    canonical_request_of creds amzdate rq = Ok (canonical_request, signed_headers).
Proof.
  intros Hlow Hval Hhost.
  unfold canonical_request_of, _construct_canonical_request_and_signed_headers.
  simpl.
  destruct (canonical_headers_returns (signed_x_amz_headers creds amzdate rq))
    as (block & Hblock).
  - unfold dict_keys in *. apply Forall_fmap.
    pose proof (proj1 (Forall_fmap fst lower_case (rq_x_amz_headers rq)) Hlow)
      as Hlow'.
    unfold signed_x_amz_headers.
    repeat (apply dict_set_Forall; [reflexivity|]). exact Hlow'.
  - unfold signed_x_amz_headers. rewrite Hhost.
    repeat (apply dict_set_Forall; [simpl; discriminate|]). exact Hval.
  - rewrite Hblock. simpl. by do 2 eexists.
Qed.

(** The requests of the client carry lower-case names only when the
    metadata is that of [_prepare_file_metadata] or absent. *)
Lemma closure_of_plain_lower url verb retry_id headers data :
  Forall lower_case
    (dict_keys (rq_x_amz_headers (closure_of url verb retry_id None headers data)))
  ∧ Forall (fun kv => kv.2 ≠ VNone)
      (rq_x_amz_headers (closure_of url verb retry_id None headers data)).
Proof. split; repeat constructor; simpl; discriminate. Qed.

End SignerReturns.

Lemma signature_derivation_witness :
  let rq :=
    @closure_of Sample.crypto
      "https://bucket.s3.amazonaws.com/stage/data.csv.gz?partNumber=2&uploadId=UID"
      "PUT" (inr 1) None None (Some "part two") in
  ∃ args,
    @generate_authenticated_url_and_args_v4 Sample.crypto Sample.urllib
      "us-west-2" Sample.creds "20211104T120000Z" rq
    = Ok ("https://bucket.s3.amazonaws.com/stage/data.csv.gz?partNumber=2&uploadId=UID",
          args)
    ∧ dict_get "Authorization" (ra_headers args)
      = Some (VStr "AWS4-HMAC-SHA256 Credential=AKID/20211104/us-west-2/s3/aws4_request, SignedHeaders=host;x-amz-content-sha256;x-amz-date;x-amz-security-token, Signature=1174").
Proof.
  cbv zeta.
  destruct (@signature_derivation Sample.crypto Sample.urllib "us-west-2"
              Sample.creds "20211104T120000Z" "secret" "AKID"
              (@closure_of Sample.crypto
                 "https://bucket.s3.amazonaws.com/stage/data.csv.gz?partNumber=2&uploadId=UID"
                 "PUT" (inr 1) None None (Some "part two"))
              _ _
              ltac:(vm_compute; reflexivity) ltac:(vm_compute; reflexivity)
              ltac:(vm_compute; reflexivity))
    as (_ & _ & args & Hrun & Hauth).
  exists args. split; [exact Hrun|].
  rewrite Hauth. vm_compute. reflexivity.
Defined.

(** ** The local client *)

Section LocalProps.
Context `{Local.Os}.

Lemma upload_outcome (meta : Local.FileMeta) (fs : Local.FS) :
  (∃ e, Local._upload_file_with_retry meta fs = (Raise e, meta, fs))
  ∨ (∃ meta' fs',
       Local._upload_file_with_retry meta fs = (Ok tt, meta', fs')
       ∧ Local.dst_file_size meta' = Local.upload_size meta
       ∧ Local.result_status meta' = UPLOADED).
Proof.
  unfold Local._upload_file_with_retry.
  destruct (Local.src_stream meta) as [stream|] eqn:Hs.
  - destruct (Local.real_src_stream meta) as [real|] eqn:Hr;
      (destruct (Local.open_write (Local.upload_target meta) fs) as [fs1|e];
       [right|left; by eexists]); simpl; do 2 eexists; by split.
  - destruct (Local.open_read (Local.real_src_file_name meta) fs) as [[]|e];
      [|left; by eexists].
    destruct (Local.open_write (Local.upload_target meta) fs) as [fs1|e];
      [right|left; by eexists].
    simpl. do 2 eexists. by split.
Qed.

Lemma st_size_write_all (p data : string) (fs : Local.FS) :
  Local.st_size p (Local.write_all p data fs) = Ok (Z.of_nat (String.length data)).
Proof. unfold Local.st_size, Local.write_all. simpl. by rewrite lookup_insert_eq. Qed.

Lemma download_outcome (meta : Local.FileMeta) (fs : Local.FS) :
  (∃ e fs', Local._download_file meta fs = (Raise e, meta, fs'))
  ∨ (∃ meta' fs' data,
       Local._download_file meta fs = (Ok tt, meta', fs')
       ∧ Local.files fs' !! Local.full_dst_file_name meta = Some data
       ∧ Local.st_size (Local.full_dst_file_name meta) fs'
         = Ok (Local.dst_file_size meta')
       ∧ Local.dst_file_size meta' = Z.of_nat (String.length data)
       ∧ Local.result_status meta' = DOWNLOADED).
Proof.
  unfold Local._download_file.
  set (src := Local.full_src_file_name meta).
  set (dst := Local.full_dst_file_name meta).
  destruct (if negb (Local.path_exists (Local.dirname dst) fs)
            then Local.makedirs (Local.dirname dst) fs else Ok fs) as [fs1|e];
    [|left; by do 2 eexists].
  destruct (Local.open_read src fs1) as [[]|e]; [|left; by do 2 eexists].
  destruct (Local.open_write dst fs1) as [fs2|e]; [|left; by do 2 eexists].
  rewrite st_size_write_all.
  right. do 3 eexists. split; [reflexivity|]. simpl.
  split; [apply lookup_insert_eq|]. split; [apply st_size_write_all|done].
Qed.

(** An upload from a file goes through when the source is a file and the
    target can be opened for writing. *)
Lemma upload_returns (meta : Local.FileMeta) (fs fs1 : Local.FS) :
  Local.src_stream meta = None →
  Local.open_read (Local.real_src_file_name meta) fs = Ok tt →
  Local.open_write (Local.upload_target meta) fs = Ok fs1 →
  (Local._upload_file_with_retry meta fs).1.1 = Ok tt.
Proof.
  intros Hs Hr Hw. unfold Local._upload_file_with_retry.
  by rewrite Hs, Hr, Hw.
Qed.

(** A download goes through when the directory of the destination is
    there, the source is a file and the destination is not a directory. *)
Lemma download_returns (meta : Local.FileMeta) (fs : Local.FS) :
  Local.is_dir (Local.dirname (Local.full_dst_file_name meta)) fs = true →
  Local.is_dir (Local.full_src_file_name meta) fs = false →
  Local.is_file (Local.full_src_file_name meta) fs = true →
  Local.is_dir (Local.full_dst_file_name meta) fs = false →
  (Local._download_file meta fs).1.1 = Ok tt.
Proof.
  intros Hbase Hsd Hsf Hdd. unfold Local._download_file.
  unfold Local.path_exists. rewrite Hbase. simpl.
  unfold Local.open_read. rewrite Hsd, Hsf.
  unfold Local.open_write. rewrite Hdd, Hbase, orb_true_r.
  by rewrite st_size_write_all.
Qed.

(** C8: an upload that completes leaves the declared upload size as the
    final size and the status [UPLOADED]; a download that completes leaves
    as the final size the size that [stat] reports for the destination
    file it wrote, which is the length of that file, and the status
    [DOWNLOADED]. A call that raises leaves both fields as they were. *)
Theorem local_result_fields (meta : Local.FileMeta) (fs : Local.FS) :
  (∀ meta' fs',
     Local._upload_file_with_retry meta fs = (Ok tt, meta', fs') →
     Local.dst_file_size meta' = Local.upload_size meta
     ∧ Local.result_status meta' = UPLOADED)
  ∧ (∀ meta' fs',
       Local._download_file meta fs = (Ok tt, meta', fs') →
       Local.st_size (Local.full_dst_file_name meta) fs'
       = Ok (Local.dst_file_size meta')
       ∧ (∃ data, Local.files fs' !! Local.full_dst_file_name meta = Some data
                  ∧ Local.dst_file_size meta' = Z.of_nat (String.length data))
       ∧ Local.result_status meta' = DOWNLOADED)
  ∧ (∀ e meta' fs',
       Local._upload_file_with_retry meta fs = (Raise e, meta', fs')
       ∨ Local._download_file meta fs = (Raise e, meta', fs') →
       meta' = meta).
Proof.
  split; [|split].
  - intros meta' fs' Hrun.
    destruct (upload_outcome meta fs) as [(e & He)|(m & f & Hok & Hsize & Hst)];
      [congruence|].
    rewrite Hok in Hrun. by injection Hrun as <- <-.
  - intros meta' fs' Hrun.
    destruct (download_outcome meta fs)
      as [(e & f & He)|(m & f & data & Hok & Hfile & Hstat & Hsize & Hst)];
      [congruence|].
    rewrite Hok in Hrun. injection Hrun as <- <-.
    split; [done|]. split; [by exists data|done].
  - intros e meta' fs' [Hrun|Hrun].
    + destruct (upload_outcome meta fs) as [(e0 & He)|(m & f & Hok & _)];
        congruence.
    + destruct (download_outcome meta fs) as [(e0 & f & He)|(m & f & d & Hok & _)];
        congruence.
Qed.

End LocalProps.

Lemma local_result_fields_witness :
  let up := @Local._upload_file_with_retry Sample.os Sample.upload_job Sample.disk in
  let down := @Local._download_file Sample.os Sample.download_job Sample.disk in
  (up.1.1 = Ok tt ∧ Local.dst_file_size up.1.2 = 7
   ∧ Local.result_status up.1.2 = UPLOADED
   ∧ Local.files up.2 !! "/home/user/stage/report.csv" = Some "a,b;1,2")
  ∧ (down.1.1 = Ok tt ∧ Local.dst_file_size down.1.2 = 5
     ∧ Local.result_status down.1.2 = DOWNLOADED
     ∧ Local.files down.2 !! "/tmp/out/new/data.csv" = Some "hello").
Proof.
  cbv zeta. split.
  - assert (@Local._upload_file_with_retry Sample.os Sample.upload_job Sample.disk
            = (Ok tt,
               (@Local._upload_file_with_retry Sample.os Sample.upload_job Sample.disk).1.2,
               (@Local._upload_file_with_retry Sample.os Sample.upload_job Sample.disk).2))
      as Hup by (vm_compute; reflexivity).
    destruct (proj1 (@local_result_fields Sample.os Sample.upload_job Sample.disk)
                _ _ Hup) as (Hsize & Hstatus).
    split; [vm_compute; reflexivity|]. split; [exact Hsize|].
    split; [exact Hstatus|]. vm_compute. reflexivity.
  - assert (@Local._download_file Sample.os Sample.download_job Sample.disk
            = (Ok tt,
               (@Local._download_file Sample.os Sample.download_job Sample.disk).1.2,
               (@Local._download_file Sample.os Sample.download_job Sample.disk).2))
      as Hdown by (vm_compute; reflexivity).
    destruct (proj1 (proj2 (@local_result_fields Sample.os Sample.download_job
                              Sample.disk)) _ _ Hdown)
      as (Hstat & (data & Hfile & Hsize) & Hstatus).
    assert (Local.files
              (@Local._download_file Sample.os Sample.download_job Sample.disk).2
              !! "/tmp/out/new/data.csv" = Some "hello") as Hhello
      by (vm_compute; reflexivity).
    split; [vm_compute; reflexivity|].
    split; [|split; [exact Hstatus|exact Hhello]].
    change (Local.full_dst_file_name Sample.download_job)
      with "/tmp/out/new/data.csv" in Hfile.
    rewrite Hhello in Hfile. injection Hfile as <-. exact Hsize.
Defined.

(** ** What signing leaves alone *)

Section SignedHeaders.
Context `{Crypto} `{UrlLib}.

(** A header of the request that is neither [Authorization] nor one of the
    signed headers reaches the HTTP call as the caller set it. *)
Lemma signing_keeps_header region_name creds amzdate (rq : Request) url args k :
  generate_authenticated_url_and_args_v4 region_name creds amzdate rq = Ok (url, args) →
  k ≠ "Authorization" →
  k ∉ dict_keys (signed_x_amz_headers creds amzdate rq) →
  dict_get k (ra_headers args) = dict_get k (rq_headers rq).
Proof.
  unfold generate_authenticated_url_and_args_v4. intros Hrun Hauth Hk.
  fold (signed_x_amz_headers creds amzdate rq) in Hrun.
  destruct (_construct_canonical_request_and_signed_headers _ _ _ _ _)
    as [[canonical_request signed_headers]|e]; [|done].
  simpl in Hrun.
  destruct (creds !! "AWS_SECRET_KEY") as [secret|]; [|done]. simpl in Hrun.
  destruct (creds !! "AWS_KEY_ID") as [key_id|]; [|done]. simpl in Hrun.
  injection Hrun as _ <-. simpl.
  rewrite dict_get_set_ne by done.
  by apply dict_get_update_ne.
Qed.

(** X9: The [Range] header of a chunk download is sent as it was computed. *)
Lemma range_header_is_sent region_name creds amzdate url retry_id range url' args :
  generate_authenticated_url_and_args_v4 region_name creds amzdate
    (closure_of url "GET" retry_id None (Some [("Range", VStr range)]) None)
  = Ok (url', args) →
  dict_get "Range" (ra_headers args) = Some (VStr range).
Proof.
  intros Hrun.
  rewrite (signing_keeps_header _ _ _ _ _ _ "Range" Hrun); [reflexivity|done|].
  unfold signed_x_amz_headers, dict_keys. simpl.
  rewrite !not_elem_of_cons. repeat split; try done. apply not_elem_of_nil.
Qed.

End SignedHeaders.

(** ** Further properties of the signer *)


Lemma hex_digit_lower (n : N) : (n < 16)%N → lower_char (hex_digit n) = hex_digit n.
Proof.
  intros Hn.
  assert (n ∈ [0;1;2;3;4;5;6;7;8;9;10;11;12;13;14;15]%N) as Hin.
  { repeat (rewrite elem_of_cons). repeat rewrite elem_of_nil. lia. }
  repeat (apply elem_of_cons in Hin as [->|Hin]; [reflexivity|]).
  by apply elem_of_nil in Hin.
Qed.

Lemma code_lt_256 (c : ascii) : (code c < 256)%N.
Proof. apply N_ascii_bounded. Qed.

Lemma hexlify_lower (s : string) : lower (hexlify s) = hexlify s.
Proof.
  induction s as [|c r IH]; simpl; [reflexivity|].
  rewrite !hex_digit_lower, IH; [reflexivity| |].
  - apply N.mod_lt. lia.
  - apply N.Div0.div_lt_upper_bound. pose proof (code_lt_256 c). lia.
Qed.

Lemma hexlify_length (s : string) :
  String.length (hexlify s) = (2 * String.length s)%nat.
Proof. induction s as [|c r IH]; simpl; [reflexivity|]. rewrite IH. lia. Qed.

Section HexProps.
Context `{Crypto}.

(** X2: The hexadecimal form of a hash or of a signature has two characters
    per byte and no upper-case letter: lower-casing it, as the signer does,
    changes nothing. *)
Theorem hex_is_lower_case (key input : string) :
  lower (_hash_bytes_hex input) = _hash_bytes_hex input
  ∧ lower (_sign_bytes_hex key input) = _sign_bytes_hex key input
  ∧ String.length (_hash_bytes_hex input)
    = (2 * String.length (_hash_bytes input))%nat
  ∧ String.length (_sign_bytes_hex key input)
    = (2 * String.length (_sign_bytes key input))%nat.
Proof.
  unfold _hash_bytes_hex, _sign_bytes_hex.
  by rewrite !hexlify_lower, !hexlify_length.
Qed.

End HexProps.

(** ** The canonical query string *)

Section SortByFacts.
Context {A : Type} (key : A → string).

Lemma sort_by_Sorted (l : list A) :
  Sorted (fun a b => str_le (key a) (key b)) (sort_by key l).
Proof.
  unfold sort_by.
  induction l as [|x r IH]; simpl; [constructor|].
  set (t := foldr (insert_by key) [] r) in *. clearbody t.
  induction IH as [|y t' Hs IHs Hhd]; simpl; [repeat constructor|].
  destruct (String.leb (key x) (key y)) eqn:Hxy.
  - constructor; [by constructor|]. by constructor.
  - constructor; [exact IHs|].
    assert (str_le (key y) (key x)) as Hyx.
    { destruct (String.leb_total (key x) (key y)) as [Hc|Hc]; [congruence|done]. }
    destruct Hhd as [|z t'' Hyz]; simpl; [by constructor|].
    destruct (String.leb (key x) (key z)); by constructor.
Qed.

Lemma sort_by_Permutation (l : list A) : sort_by key l ≡ₚ l.
Proof.
  unfold sort_by.
  induction l as [|x r IH]; simpl; [done|].
  rewrite <- IH at 2.
  generalize (foldr (insert_by key) [] r). intros t.
  induction t as [|y t' IHt]; simpl; [done|].
  destruct (String.leb (key x) (key y)); [done|].
  rewrite IHt. apply Permutation_swap.
Qed.

(** Sorting keeps a list that is already in order. *)
Lemma sort_by_sorted_id (l : list A) :
  Sorted (fun a b => str_le (key a) (key b)) l → sort_by key l = l.
Proof.
  unfold sort_by. induction 1 as [|x r Hs IH Hhd]; simpl; [reflexivity|].
  rewrite IH. destruct Hhd as [|y r' Hxy]; simpl; [reflexivity|].
  unfold str_le in Hxy. by rewrite Hxy.
Qed.
End SortByFacts.

Lemma split_char_free (c : ascii) (s : string) :
  free_of c s → split_char c s = [s].
Proof.
  unfold free_of. induction s as [|d r IH]; simpl; [reflexivity|].
  intros Hf. apply andb_true_iff in Hf as [Hd Hr].
  apply negb_true_iff in Hd. rewrite Hd, (IH Hr). reflexivity.
Qed.

Lemma partition_char_free (c : ascii) (s : string) :
  free_of c s → partition_char c s = (s, false, "").
Proof.
  unfold free_of. induction s as [|d r IH]; simpl; [reflexivity|].
  intros Hf. apply andb_true_iff in Hf as [Hd Hr].
  apply negb_true_iff in Hd. rewrite Hd, (IH Hr). reflexivity.
Qed.

Lemma join_split_char (c : ascii) (s : string) :
  join (String c "") (split_char c s) = s.
Proof.
  induction s as [|d r IH]; simpl; [reflexivity|].
  destruct (Ascii.eqb_spec d c) as [->|Hne].
  - destruct (split_char c r) as [|x xs] eqn:Hs; simpl in *; [by subst|].
    by rewrite IH.
  - destruct (split_char c r) as [|x xs] eqn:Hs; simpl in *; [by subst|].
    destruct xs as [|y ys]; simpl in *; by rewrite <- IH.
Qed.

Lemma partition_char_found (c : ascii) (s h t : string) :
  partition_char c s = (h, true, t) → s = h +:+ String c t.
Proof.
  revert h. induction s as [|d r IH]; intros h; simpl; [done|].
  destruct (Ascii.eqb_spec d c) as [->|Hne].
  - by intros [= <- <-].
  - destruct (partition_char c r) as [[h' f] t'].
    intros [= <- -> <-]. simpl. by rewrite (IH h').
Qed.

Lemma Sorted_fst {B : Type} (l : list (string * B)) :
  Sorted str_le l.*1 → Sorted (fun a b => str_le a.1 b.1) l.
Proof.
  induction l as [|x r IH]; intros Hs; [constructor|].
  simpl in Hs. apply Sorted_inv in Hs as [Hs Hhd].
  constructor; [by apply IH|]. destruct r; simpl in *; [constructor|].
  apply HdRel_inv in Hhd. by constructor.
Qed.

Lemma Sorted_of_fst {B : Type} (l : list (string * B)) :
  Sorted (fun a b => str_le a.1 b.1) l → Sorted str_le l.*1.
Proof.
  induction 1 as [|x r Hs IH Hhd]; simpl; [constructor|].
  constructor; [exact IH|]. destruct Hhd; simpl; by constructor.
Qed.

(** Pairs that all have a value are put together again by the joins. *)
Lemma query_pairs_join (url_query : string) :
  Forall (fun e => ¬ free_of "=" e) (split_char "&" url_query) →
  join "&" (map (fun kv => kv.1 +:+ "=" +:+ kv.2) (query_pairs url_query))
  = url_query.
Proof.
  intros Hvalues. unfold query_pairs.
  destruct (truthy url_query) eqn:Ht; [|by destruct url_query].
  rewrite <- (join_split_char "&" url_query) at 2.
  f_equal. rewrite map_map.
  induction Hvalues as [|e r He _ IH]; simpl; [reflexivity|].
  rewrite IH. f_equal.
  destruct (partition_char "=" e) as [[k f] v] eqn:Hp. simpl.
  destruct f.
  - by rewrite (partition_char_found _ _ _ _ Hp).
  - exfalso. apply He. clear -Hp. unfold free_of.
    revert k Hp. induction e as [|d r IH]; intros k; simpl; [done|].
    destruct (Ascii.eqb d "="); [done|].
    destruct (partition_char "=" r) as [[k' f'] v'].
    intros [= <- -> <-]. simpl. by apply (IH k').
Qed.

Section CanonicalQuery.
Context `{Crypto}.

Lemma canonical_request_lines verb uri url_query headers payload block signed :
  _construct_canonicalized_and_signed_headers headers = Ok (block, signed) →
  _construct_canonical_request_and_signed_headers verb uri url_query
    (Some headers) payload
  = Ok (join nl
          [verb; if truthy uri then uri else "/";
           join "&" (map (fun kv => kv.1 +:+ "=" +:+ kv.2)
                       (sort_by fst (query_pairs url_query)));
           block; signed; _hash_bytes_hex payload],
        signed).
Proof.
  intros Hh. unfold _construct_canonical_request_and_signed_headers.
  cbn [res_bind]. rewrite Hh. cbn [res_bind].
  unfold _hash_bytes_hex. rewrite hexlify_lower.
  unfold query_pairs. destruct (truthy url_query); reflexivity.
Qed.

(** X3: The canonical request has six lines: the verb, the URI (or [/] when it
    is empty), the query, the header block, the signed header names and the
    hash of the payload. Its query line lists the pairs of the query string
    as [key=value] joined by [&], reordered so that the keys do not
    decrease; nothing is added or lost. *)
Theorem canonical_query_sorted verb uri url_query headers payload block signed :
  _construct_canonicalized_and_signed_headers headers = Ok (block, signed) →
  ∃ pairs,
    pairs ≡ₚ query_pairs url_query
    ∧ Sorted str_le pairs.*1
    ∧ _construct_canonical_request_and_signed_headers verb uri url_query
        (Some headers) payload
      = Ok (join nl
              [verb; if truthy uri then uri else "/";
               join "&" (map (fun kv => kv.1 +:+ "=" +:+ kv.2) pairs);
               block; signed; _hash_bytes_hex payload],
            signed).
Proof.
  intros Hh.
  exists (sort_by fst (query_pairs url_query)).
  split; [apply sort_by_Permutation|]. split.
  - apply Sorted_of_fst, sort_by_Sorted.
  - by apply canonical_request_lines.
Qed.

(** X4: A query string whose pairs all have a value and whose keys are already
    in order is its own canonical form. *)
Theorem canonical_query_of_sorted verb uri url_query headers payload block signed :
  _construct_canonicalized_and_signed_headers headers = Ok (block, signed) →
  Sorted str_le (query_pairs url_query).*1 →
  Forall (fun e => ¬ free_of "=" e) (split_char "&" url_query) →
  _construct_canonical_request_and_signed_headers verb uri url_query
    (Some headers) payload
  = Ok (join nl
          [verb; if truthy uri then uri else "/"; url_query;
           block; signed; _hash_bytes_hex payload],
        signed).
Proof.
  intros Hh Hsorted Hvalues.
  rewrite (canonical_request_lines _ _ _ _ _ _ _ Hh).
  rewrite (sort_by_sorted_id fst _ (Sorted_fst _ Hsorted)).
  by rewrite (query_pairs_join _ Hvalues).
Qed.

(** X5: A single parameter without a value, as in [?uploads], is written with
    a trailing [=]. *)
Theorem canonical_query_without_value verb uri name headers payload block signed :
  _construct_canonicalized_and_signed_headers headers = Ok (block, signed) →
  name ≠ "" → free_of "&" name → free_of "=" name →
  _construct_canonical_request_and_signed_headers verb uri name
    (Some headers) payload
  = Ok (join nl
          [verb; if truthy uri then uri else "/"; name +:+ "=";
           block; signed; _hash_bytes_hex payload],
        signed).
Proof.
  intros Hh Hne Hamp Heq.
  rewrite (canonical_request_lines _ _ _ _ _ _ _ Hh).
  unfold query_pairs.
  assert (truthy name = true) as -> by by destruct name.
  rewrite (split_char_free _ _ Hamp). simpl.
  rewrite (partition_char_free _ _ Heq). reflexivity.
Qed.

End CanonicalQuery.

Lemma canonical_query_sorted_witness :
  ∃ pairs,
    pairs ≡ₚ [("uploadId", "UID"); ("partNumber", "2")]
    ∧ Sorted str_le pairs.*1
    ∧ @_construct_canonical_request_and_signed_headers Sample.crypto
        "PUT" "/stage/data.csv.gz" "uploadId=UID&partNumber=2"
        (Some [("host", VStr "h")]) ""
      = Ok (join nl
              ["PUT"; "/stage/data.csv.gz";
               join "&" (map (fun kv => kv.1 +:+ "=" +:+ kv.2) pairs);
               "host:h" +:+ nl; "host"; @_hash_bytes_hex Sample.crypto ""],
            "host").
Proof.
  apply (@canonical_query_sorted Sample.crypto "PUT" "/stage/data.csv.gz"
           "uploadId=UID&partNumber=2" [("host", VStr "h")] ""
           ("host:h" +:+ nl) "host").
  vm_compute. reflexivity.
Defined.

Lemma canonical_query_of_sorted_witness :
  @_construct_canonical_request_and_signed_headers Sample.crypto
    "PUT" "" "partNumber=2&uploadId=UID" (Some [("host", VStr "h")]) ""
  = Ok (join nl
          ["PUT"; "/"; "partNumber=2&uploadId=UID";
           "host:h" +:+ nl; "host"; @_hash_bytes_hex Sample.crypto ""],
        "host").
Proof.
  apply (@canonical_query_of_sorted Sample.crypto "PUT" ""
           "partNumber=2&uploadId=UID" [("host", VStr "h")] ""
           ("host:h" +:+ nl) "host").
  - vm_compute. reflexivity.
  - vm_compute. repeat constructor.
  - repeat constructor; unfold free_of; vm_compute; discriminate.
Defined.

Lemma canonical_query_without_value_witness :
  @_construct_canonical_request_and_signed_headers Sample.crypto
    "POST" "/stage/data.csv.gz" "uploads" (Some [("host", VStr "h")]) ""
  = Ok (join nl
          ["POST"; "/stage/data.csv.gz"; "uploads=";
           "host:h" +:+ nl; "host"; @_hash_bytes_hex Sample.crypto ""],
        "host").
Proof.
  apply (@canonical_query_without_value Sample.crypto "POST" "/stage/data.csv.gz"
           "uploads" [("host", VStr "h")] "" ("host:h" +:+ nl) "host").
  - vm_compute. reflexivity.
  - discriminate.
  - reflexivity.
  - reflexivity.
Defined.

(** ** What the closure returns *)

Section DictMore.
Context {V : Type}.
Implicit Types (d e : dict V) (k : string) (v : V).

Lemma dict_keys_set k v d :
  dict_keys (dict_set k v d)
  = if bool_decide (k ∈ dict_keys d) then dict_keys d
    else (dict_keys d ++ [k])%list.
Proof.
  unfold dict_keys. induction d as [|[k' v'] r IH].
  - rewrite bool_decide_eq_false_2; [done|apply not_elem_of_nil].
  - cbn [dict_set]. destruct (String.eqb_spec k k') as [->|Hne].
    + clear IH. rewrite bool_decide_eq_true_2; [done|].
      cbn [fmap list_fmap]. by left.
    + cbn [fmap list_fmap]. cbn [fmap list_fmap] in IH. rewrite IH.
      destruct (decide (k ∈ list_fmap _ _ fst r)) as [Hin|Hin].
      * rewrite !bool_decide_eq_true_2; [done|by right|done].
      * rewrite !bool_decide_eq_false_2; [done| |done].
        by apply not_elem_of_cons.
Qed.

Lemma dict_set_NoDup k v d : NoDup (dict_keys d) → NoDup (dict_keys (dict_set k v d)).
Proof.
  intros Hnd. rewrite dict_keys_set. case_bool_decide as Hk; [done|].
  apply NoDup_app. split; [done|]. split; [|apply NoDup_singleton].
  intros x Hx Hx'. apply list_elem_of_singleton in Hx' as ->. done.
Qed.

Lemma dict_get_update_in k v d e :
  NoDup (dict_keys e) → dict_get k e = Some v →
  dict_get k (dict_update d e) = Some v.
Proof.
  unfold dict_update, dict_keys. revert d.
  induction e as [|[k0 v0] r IH]; intros d Hnd Hg; simpl in *; [done|].
  apply NoDup_cons in Hnd as [Hk0 Hnd].
  destruct (String.eqb_spec k k0) as [->|Hne].
  - injection Hg as ->.
    pose proof (dict_get_update_ne k0 (dict_set k0 v d) r Hk0) as Hu.
    unfold dict_update in Hu. rewrite Hu. apply dict_get_set_eq.
  - by apply IH.
Qed.
End DictMore.

Section ClosureResult.
Context `{Crypto} `{UrlLib}.

Lemma generate_run region_name creds amzdate (rq : Request) cr sh secret key_id :
  canonical_request_of creds amzdate rq = Ok (cr, sh) →
  creds !! "AWS_SECRET_KEY" = Some secret →
  creds !! "AWS_KEY_ID" = Some key_id →
  ∃ authorization,
    generate_authenticated_url_and_args_v4 region_name creds amzdate rq
    = Ok (rq_url rq,
          {| ra_headers :=
               dict_set "Authorization" (VStr authorization)
                 (dict_update (rq_headers rq) (signed_x_amz_headers creds amzdate rq));
             ra_data := if truthy (rq_data rq) then Some (rq_data rq) else None |}).
Proof.
  intros Hc Hs Hk. unfold generate_authenticated_url_and_args_v4.
  unfold canonical_request_of, signed_x_amz_headers in *.
  rewrite Hc. simpl. rewrite Hs, Hk. simpl. by eexists.
Qed.

(** X6: Whenever the closure returns, the request it describes goes to the URL
    of the captured request and carries the timestamp, the security token
    (the empty string when the credentials have none, not an absent
    header), the host, an [Authorization] header and every captured header,
    the payload hash among them; it has a body exactly when the captured
    data is not empty. *)
Theorem signed_request_headers region_name creds amzdate (rq : Request) url args :
  NoDup (dict_keys (rq_x_amz_headers rq)) →
  generate_authenticated_url_and_args_v4 region_name creds amzdate rq = Ok (url, args) →
  url = rq_url rq
  ∧ dict_get "x-amz-date" (ra_headers args) = Some (VStr amzdate)
  ∧ dict_get "x-amz-security-token" (ra_headers args)
    = Some (VStr (default "" (creds !! "AWS_TOKEN")))
  ∧ dict_get "host" (ra_headers args)
    = Some (hv (pu_hostname (urlparse (rq_url rq))))
  ∧ is_Some (dict_get "Authorization" (ra_headers args))
  ∧ (ra_data args = None ↔ rq_data rq = "")
  ∧ (∀ k v, dict_get k (rq_x_amz_headers rq) = Some v →
            k ∉ ["x-amz-date"; "x-amz-security-token"; "host"; "Authorization"] →
            dict_get k (ra_headers args) = Some v).
Proof.
  intros Hnd Hrun.
  assert (NoDup (dict_keys (signed_x_amz_headers creds amzdate rq))) as Hnd'.
  { unfold signed_x_amz_headers. by repeat apply dict_set_NoDup. }
  unfold generate_authenticated_url_and_args_v4 in Hrun.
  fold (signed_x_amz_headers creds amzdate rq) in Hrun.
  destruct (_construct_canonical_request_and_signed_headers _ _ _ _ _)
    as [[cr sh]|e]; [|done]. simpl in Hrun.
  destruct (creds !! "AWS_SECRET_KEY") as [secret|]; [|done]. simpl in Hrun.
  destruct (creds !! "AWS_KEY_ID") as [key_id|]; [|done]. simpl in Hrun.
  injection Hrun as <- <-. simpl.
  split; [done|].
  assert (∀ a k v, k ≠ "Authorization" →
                   dict_get k (signed_x_amz_headers creds amzdate rq) = Some v →
                   dict_get k (dict_set "Authorization" a
                                 (dict_update (rq_headers rq)
                                    (signed_x_amz_headers creds amzdate rq)))
                   = Some v) as Hget.
  { intros a k v Hk Hg. rewrite dict_get_set_ne by done.
    by apply dict_get_update_in. }
  split; [apply Hget; [done|]|].
  { unfold signed_x_amz_headers. rewrite !dict_get_set. by repeat case_decide. }
  split; [apply Hget; [done|]|].
  { unfold signed_x_amz_headers. rewrite !dict_get_set. by repeat case_decide. }
  split; [apply Hget; [done|]|].
  { unfold signed_x_amz_headers. rewrite !dict_get_set. by repeat case_decide. }
  split; [rewrite dict_get_set_eq; by eexists|].
  split.
  { destruct (rq_data rq); simpl; split; done. }
  intros k v Hk Hnot.
  apply Hget; [set_solver|].
  unfold signed_x_amz_headers. rewrite !dict_get_set.
  repeat case_decide; try done; set_solver.
Qed.

(** X7: Signing needs the secret key and the key identifier and nothing else
    of the credentials: once the canonical request is built, a missing
    secret raises [KeyError] for it, a missing identifier raises [KeyError]
    for it, and with both the closure returns, with or without a token. *)
Theorem signing_needs_credentials region_name creds amzdate (rq : Request) cr sh :
  canonical_request_of creds amzdate rq = Ok (cr, sh) →
  (creds !! "AWS_SECRET_KEY" = None →
   generate_authenticated_url_and_args_v4 region_name creds amzdate rq
   = Raise (KeyError "AWS_SECRET_KEY"))
  ∧ (is_Some (creds !! "AWS_SECRET_KEY") → creds !! "AWS_KEY_ID" = None →
     generate_authenticated_url_and_args_v4 region_name creds amzdate rq
     = Raise (KeyError "AWS_KEY_ID"))
  ∧ (is_Some (creds !! "AWS_SECRET_KEY") → is_Some (creds !! "AWS_KEY_ID") →
     ∃ args,
       generate_authenticated_url_and_args_v4 region_name creds amzdate rq
       = Ok (rq_url rq, args)).
Proof.
  intros Hc. split; [|split].
  - intros Hs. unfold generate_authenticated_url_and_args_v4.
    unfold canonical_request_of, signed_x_amz_headers in Hc.
    rewrite Hc. simpl. by rewrite Hs.
  - intros [secret Hs] Hk. unfold generate_authenticated_url_and_args_v4.
    unfold canonical_request_of, signed_x_amz_headers in Hc.
    rewrite Hc. simpl. rewrite Hs. simpl. by rewrite Hk.
  - intros [secret Hs] [key_id Hk].
    destruct (generate_run region_name _ _ _ _ _ _ _ Hc Hs Hk) as (a & Ha).
    by eexists.
Qed.

End ClosureResult.

Lemma signed_request_headers_witness :
  ∃ args,
    @generate_authenticated_url_and_args_v4 Sample.crypto Sample.urllib
      "us-west-2" Sample.creds_no_token "20211104T120000Z" Sample.part_two
    = Ok (rq_url Sample.part_two, args)
    ∧ dict_get "x-amz-security-token" (ra_headers args) = Some (VStr "")
    ∧ dict_get "host" (ra_headers args) = Some (VStr "bucket.s3.amazonaws.com")
    ∧ dict_get "x-amz-content-sha256" (ra_headers args)
      = Some (VStr (@_hash_bytes_hex Sample.crypto "part two")).
Proof.
  destruct (@generate_authenticated_url_and_args_v4 Sample.crypto Sample.urllib
              "us-west-2" Sample.creds_no_token "20211104T120000Z" Sample.part_two)
    as [[url args]|e] eqn:Hrun; [|vm_compute in Hrun; discriminate].
  assert (NoDup (dict_keys (rq_x_amz_headers Sample.part_two))) as Hnd.
  { unfold dict_keys. simpl. apply NoDup_singleton. }
  destruct (@signed_request_headers Sample.crypto Sample.urllib _ _ _ _ _ _
              Hnd Hrun)
    as (-> & _ & Htoken & Hhost & _ & _ & Hkept).
  exists args. split; [reflexivity|]. split; [exact Htoken|]. split; [exact Hhost|].
  apply Hkept; [reflexivity|set_solver].
Defined.

Lemma signing_needs_credentials_witness :
  @generate_authenticated_url_and_args_v4 Sample.crypto Sample.urllib
    "us-west-2" ∅ "20211104T120000Z" Sample.part_two
  = Raise (KeyError "AWS_SECRET_KEY")
  ∧ @generate_authenticated_url_and_args_v4 Sample.crypto Sample.urllib
      "us-west-2" Sample.creds_no_key_id "20211104T120000Z" Sample.part_two
    = Raise (KeyError "AWS_KEY_ID")
  ∧ ∃ args,
      @generate_authenticated_url_and_args_v4 Sample.crypto Sample.urllib
        "us-west-2" Sample.creds_no_token "20211104T120000Z" Sample.part_two
      = Ok (rq_url Sample.part_two, args).
Proof.
  split; [|split].
  - apply (proj1 (@signing_needs_credentials Sample.crypto Sample.urllib
                    "us-west-2" ∅ "20211104T120000Z" Sample.part_two _ _
                    ltac:(vm_compute; reflexivity))).
    reflexivity.
  - apply (proj1 (proj2 (@signing_needs_credentials Sample.crypto Sample.urllib
                    "us-west-2" Sample.creds_no_key_id "20211104T120000Z"
                    Sample.part_two _ _ ltac:(vm_compute; reflexivity)))).
    + by eexists.
    + reflexivity.
  - apply (proj2 (proj2 (@signing_needs_credentials Sample.crypto Sample.urllib
                    "us-west-2" Sample.creds_no_token "20211104T120000Z"
                    Sample.part_two _ _ ltac:(vm_compute; reflexivity))));
      by eexists.
Defined.

(** ** Signing the requests of an upload *)

Lemma canonical_line_raises (kv : string * HeaderValue) (e : Exn) :
  canonical_line kv = Raise e → e = AttributeError ∧ kv.2 = VNone.
Proof. destruct kv as [k [v|l|]]; simpl; intros [= <-]; done. Qed.

(** A header without a value stops the canonicalisation of lower-case
    names with [AttributeError]. *)
Lemma canonical_headers_none_raises (headers : dict HeaderValue) (k : string) :
  NoDup (dict_keys headers) →
  Forall lower_case (dict_keys headers) →
  (k, VNone) ∈ headers →
  _construct_canonicalized_and_signed_headers headers = Raise AttributeError.
Proof.
  intros Hnd Hlow Hin.
  unfold _construct_canonicalized_and_signed_headers.
  rewrite (low_key_dict_id headers Hnd Hlow).
  set (g := fun k => (k, default VNone (dict_get k headers))).
  rewrite (res_map_ok _ g); cycle 1.
  { intros k' Hk. apply elem_of_sort_by in Hk.
    unfold dict_keys in Hk. apply list_elem_of_fmap in Hk as ([k0 v] & -> & Hin0).
    unfold dict_item, g. simpl.
    by rewrite (dict_get_unique k0 v headers Hnd Hin0). }
  simpl.
  destruct (res_map_raises canonical_line (g <$> sorted (dict_keys headers))
              (k, VNone) AttributeError) as (y & e' & _ & Hy & Hr).
  - apply list_elem_of_fmap. exists k. split.
    + unfold g. by rewrite (dict_get_unique k VNone headers Hnd Hin).
    + apply elem_of_sort_by. unfold dict_keys.
      by apply (list_elem_of_fmap_2' fst _ (k, VNone)).
  - reflexivity.
  - apply canonical_line_raises in Hy as [-> _]. by rewrite Hr.
Qed.

Section UploadSigning.
Context `{Crypto} `{UrlLib} `{XmlParser} `{StorageClientBase}.

(** X8: The request that initiates a multipart upload can be signed exactly
    when the file has a digest (and, if it is encrypted, all three fields of
    the encryption metadata): then the signed headers are the four headers
    of every request and the metadata headers, in sorted order; without a
    digest the closure raises [AttributeError]. *)
Theorem initiate_request_signing (s : Client) creds amzdate host :
  pu_hostname (urlparse (rq_url (initiate_request s))) = Some host →
  (sha256_digest (meta s) = None →
   canonical_request_of creds amzdate (initiate_request s) = Raise AttributeError)
  ∧ (is_Some (sha256_digest (meta s)) → encryption_metadata s = None →
     ∃ cr, canonical_request_of creds amzdate (initiate_request s)
           = Ok (cr, "host;x-amz-content-sha256;x-amz-date;x-amz-meta-sfc-digest;x-amz-security-token"))
  ∧ (is_Some (sha256_digest (meta s)) →
     ∀ em, encryption_metadata s = Some em →
           is_Some (key em) → is_Some (iv em) → is_Some (matdesc em) →
     ∃ cr, canonical_request_of creds amzdate (initiate_request s)
           = Ok (cr, "host;x-amz-content-sha256;x-amz-date;x-amz-meta-sfc-digest;x-amz-meta-x-amz-iv;x-amz-meta-x-amz-key;x-amz-meta-x-amz-matdesc;x-amz-security-token")).
Proof.
  intros Hhost.
  assert (∀ block signed,
            _construct_canonicalized_and_signed_headers
              (signed_x_amz_headers creds amzdate (initiate_request s))
            = Ok (block, signed) →
            ∃ cr, canonical_request_of creds amzdate (initiate_request s)
                  = Ok (cr, signed)) as Hok.
  { intros block signed Hh. unfold canonical_request_of.
    rewrite (canonical_request_lines _ _ _ _ _ _ _ Hh). by eexists. }
  split; [|split].
  - intros Hd. unfold canonical_request_of.
    unfold _construct_canonical_request_and_signed_headers. cbn [res_bind].
    rewrite (canonical_headers_none_raises _ (META_PREFIX +:+ SFC_DIGEST));
      [reflexivity| | |].
    + unfold signed_x_amz_headers, initiate_request, _prepare_file_metadata.
      destruct (encryption_metadata s); unfold dict_keys; simpl;
        repeat (apply NoDup_cons; split; [set_solver|]); apply NoDup_nil_2.
    + unfold signed_x_amz_headers, initiate_request, _prepare_file_metadata.
      destruct (encryption_metadata s); unfold dict_keys; simpl;
        repeat constructor.
    + unfold signed_x_amz_headers, initiate_request, _prepare_file_metadata.
      rewrite Hd. destruct (encryption_metadata s); simpl; left.
  - intros [d Hd] Hem.
    destruct (canonical_headers_returns
                (signed_x_amz_headers creds amzdate (initiate_request s)))
      as (block & Hblock).
    + unfold signed_x_amz_headers, initiate_request, _prepare_file_metadata.
      rewrite Hem. unfold dict_keys. simpl. repeat constructor.
    + unfold signed_x_amz_headers. rewrite Hhost.
      unfold initiate_request, _prepare_file_metadata. rewrite Hem, Hd. simpl.
      repeat constructor; simpl; discriminate.
    + destruct (Hok _ _ Hblock) as (cr & Hcr). exists cr. rewrite Hcr.
      do 2 f_equal.
      unfold signed_x_amz_headers, initiate_request, _prepare_file_metadata.
      rewrite Hem. reflexivity.
  - intros [d Hd] em Hem [k Hk] [i Hi] [m Hm].
    destruct (canonical_headers_returns
                (signed_x_amz_headers creds amzdate (initiate_request s)))
      as (block & Hblock).
    + unfold signed_x_amz_headers, initiate_request, _prepare_file_metadata.
      rewrite Hem. unfold dict_keys. simpl. repeat constructor.
    + unfold signed_x_amz_headers. rewrite Hhost.
      unfold initiate_request, _prepare_file_metadata.
      rewrite Hem, Hd, Hk, Hi, Hm. simpl.
      repeat constructor; simpl; discriminate.
    + destruct (Hok _ _ Hblock) as (cr & Hcr). exists cr. rewrite Hcr.
      do 2 f_equal.
      unfold signed_x_amz_headers, initiate_request, _prepare_file_metadata.
      rewrite Hem. reflexivity.
Qed.

End UploadSigning.

Lemma initiate_request_signing_witness :
  @canonical_request_of Sample.crypto Sample.urllib Sample.creds "20211104T120000Z"
    (@initiate_request Sample.crypto Sample.urllib Sample.base
       (Sample.client_no_digest 3 100 []))
  = Raise AttributeError
  ∧ (∃ cr,
       @canonical_request_of Sample.crypto Sample.urllib Sample.creds "20211104T120000Z"
         (@initiate_request Sample.crypto Sample.urllib Sample.base
            (Sample.client 3 100 []))
       = Ok (cr, "host;x-amz-content-sha256;x-amz-date;x-amz-meta-sfc-digest;x-amz-security-token"))
  ∧ (∃ cr,
       @canonical_request_of Sample.crypto Sample.urllib Sample.creds "20211104T120000Z"
         (@initiate_request Sample.crypto Sample.urllib Sample.base
            (Sample.client_encrypted 3 100 []))
       = Ok (cr, "host;x-amz-content-sha256;x-amz-date;x-amz-meta-sfc-digest;x-amz-meta-x-amz-iv;x-amz-meta-x-amz-key;x-amz-meta-x-amz-matdesc;x-amz-security-token")).
Proof.
  split; [|split].
  - apply (proj1 (@initiate_request_signing Sample.crypto Sample.urllib
                    Sample.base (Sample.client_no_digest 3 100 []) Sample.creds
                    "20211104T120000Z" "bucket.s3.amazonaws.com"
                    ltac:(vm_compute; reflexivity))).
    reflexivity.
  - apply (proj1 (proj2 (@initiate_request_signing Sample.crypto Sample.urllib
                    Sample.base (Sample.client 3 100 []) Sample.creds
                    "20211104T120000Z" "bucket.s3.amazonaws.com"
                    ltac:(vm_compute; reflexivity)))).
    + by eexists.
    + reflexivity.
  - apply (proj2 (proj2 (@initiate_request_signing Sample.crypto Sample.urllib
                    Sample.base (Sample.client_encrypted 3 100 [])
                    Sample.creds "20211104T120000Z" "bucket.s3.amazonaws.com"
                    ltac:(vm_compute; reflexivity)))
             ltac:(by eexists)
             (mkEncryptionMetadata (Some "KEY") (Some "IV") (Some "MATDESC")));
      [reflexivity|by eexists..].
Defined.

(** ** Bucket and path of a stage location *)

Lemma append_assoc_str (a b c : string) : (a +:+ b) +:+ c = a +:+ (b +:+ c).
Proof.
  induction a as [|x a IH]; [reflexivity|].
  change (String x ((a +:+ b) +:+ c) = String x (a +:+ (b +:+ c))).
  by rewrite IH.
Qed.

Lemma endswith_slash_append (p : string) : endswith_slash (p +:+ "/") = true.
Proof.
  induction p as [|c r IH]; [reflexivity|].
  simpl. destruct (r +:+ "/") eqn:Hr; [by destruct r|]. exact IH.
Qed.

Lemma partition_char_head_free (c : ascii) (s : string) :
  free_of c (partition_char c s).1.1.
Proof.
  unfold free_of. induction s as [|d r IH]; simpl; [reflexivity|].
  destruct (Ascii.eqb d c) eqn:Hd; [reflexivity|].
  destruct (partition_char c r) as [[h f] t]. simpl in *. by rewrite Hd.
Qed.

Lemma partition_char_not_free (c : ascii) (s : string) :
  ¬ free_of c s → (partition_char c s).1.2 = true.
Proof.
  intros Hn. destruct (partition_char c s) as [[h f] t] eqn:Hp. simpl.
  destruct f; [reflexivity|]. exfalso. apply Hn. clear Hn. unfold free_of.
  revert h Hp. induction s as [|d r IH]; intros h; simpl; [done|].
  destruct (Ascii.eqb d c); [done|].
  destruct (partition_char c r) as [[h' f'] t'].
  intros [= <- -> <-]. simpl. by apply (IH h').
Qed.

Lemma partition_char_append (c : ascii) (h t : string) :
  free_of c h → partition_char c (h +:+ String c t) = (h, true, t).
Proof.
  unfold free_of. induction h as [|d r IH]; simpl.
  - by rewrite Ascii.eqb_refl.
  - intros Hf. apply andb_true_iff in Hf as [Hd Hr].
    apply negb_true_iff in Hd. rewrite Hd, (IH Hr). reflexivity.
Qed.

(** X10: The bucket name is what precedes the first slash of the stage location
    and has no slash; the path is what follows, closed by a slash unless it
    is empty. A location without a slash is a bucket with an empty path;
    otherwise bucket, slash and path give the location back, with the
    closing slash added if it was missing; and a location put together
    from the result is split into the same result. *)
Theorem bucket_name_and_path (stage_location : string) :
  let loc := _extract_bucket_name_and_path stage_location in
  free_of "/" (bucket_name loc)
  ∧ (path loc = "" ∨ endswith_slash (path loc) = true)
  ∧ (free_of "/" stage_location →
     bucket_name loc = stage_location ∧ path loc = "")
  ∧ (¬ free_of "/" stage_location →
     bucket_name loc +:+ "/" +:+ path loc
     = if endswith_slash stage_location then stage_location
       else stage_location +:+ "/")
  ∧ _extract_bucket_name_and_path (bucket_name loc +:+ "/" +:+ path loc) = loc.
Proof.
  cbv zeta. unfold _extract_bucket_name_and_path.
  pose proof (partition_char_head_free "/" stage_location) as Hfree.
  destruct (partition_char "/" stage_location) as [[b f] p] eqn:Hp.
  simpl in Hfree.
  assert (∀ q, endswith_slash (b +:+ String "/" q)
               = if truthy q then endswith_slash q else true) as Hends.
  { intros q. clear -Hfree. unfold free_of in Hfree.
    induction b as [|c r IH]; simpl.
    - by destruct q.
    - simpl in Hfree. apply andb_true_iff in Hfree as [_ Hr].
      destruct (r +:+ String "/" q) eqn:Hrq; [by destruct r|].
      by apply IH. }
  split; [|split; [|split; [|split]]].
  - by destruct (truthy p && negb (endswith_slash p)).
  - destruct p as [|c r]; [by left|]. right. cbn [truthy andb].
    destruct (endswith_slash (String c r)) eqn:He; cbn [negb path];
      [exact He|apply endswith_slash_append].
  - intros Hf. rewrite (partition_char_free _ _ Hf) in Hp.
    injection Hp as <- _ <-. by split.
  - intros Hnf. pose proof (partition_char_not_free _ _ Hnf) as Hfound.
    rewrite Hp in Hfound. cbn in Hfound. subst f.
    apply partition_char_found in Hp. subst stage_location.
    rewrite Hends. destruct p as [|c r]; [reflexivity|]. cbn [truthy andb].
    destruct (endswith_slash (String c r)); cbn [negb path bucket_name];
      [reflexivity|].
    change (b +:+ "/" +:+ (String c r +:+ "/") = (b +:+ ("/" +:+ String c r)) +:+ "/").
    by rewrite !append_assoc_str.
  - cbn [bucket_name path].
    change (b +:+ "/" +:+ ?q) with (b +:+ String "/" q).
    rewrite (partition_char_append "/" b _ Hfree).
    destruct p as [|c r]; [reflexivity|]. cbn [truthy andb].
    destruct (endswith_slash (String c r)) eqn:He; cbn [negb].
    + by rewrite He.
    + change (truthy (String c r +:+ "/")) with true. cbn [andb].
      by rewrite endswith_slash_append.
Qed.

Lemma bucket_name_and_path_witness :
  _extract_bucket_name_and_path "bucket/stage/files"
  = {| bucket_name := "bucket"; path := "stage/files/" |}
  ∧ _extract_bucket_name_and_path "bucket/stage/files/"
    = {| bucket_name := "bucket"; path := "stage/files/" |}
  ∧ _extract_bucket_name_and_path "bucket"
    = {| bucket_name := "bucket"; path := "" |}.
Proof.
  pose proof (bucket_name_and_path "bucket/stage/files") as (_ & _ & _ & Hjoin & Hsame).
  pose proof (bucket_name_and_path "bucket") as (_ & _ & Hplain & _ & _).
  split; [reflexivity|]. split.
  - exact Hsame.
  - destruct (Hplain eq_refl) as [Hb Hpath].
    destruct (_extract_bucket_name_and_path "bucket") as [b p]. simpl in *.
    by subst.
Defined.

(** ** Further properties of the probe *)

Section ProbeMore.
Context `{Crypto} `{UrlLib} `{XmlParser} `{StorageClientBase}.

(** X11: A probe answered with a status other than 200 and 404 leaves the
    result status of the job as it was: it raises [HTTPError] for a 4xx or
    5xx status and returns [None] for any other, so that [None] alone does
    not tell that the file was not found. A probe sends one [HEAD] request
    with an empty body. *)
Theorem probe_other_status filename (s : Client) response rc n :
  _send_request_with_retry (head_request s filename)
    (<[inl "HEAD" := 0]> (retry_count s)) (net s) = (Ok response, rc, n) →
  status_code response ≠ 200 → status_code response ≠ 404 →
  result_status (meta (get_file_header filename s).2) = result_status (meta s)
  ∧ (400 ≤ status_code response < 600 →
     (get_file_header filename s).1 = Raise (HTTPError (status_code response)))
  ∧ (¬ 400 ≤ status_code response < 600 →
     (get_file_header filename s).1 = Ok None)
  ∧ wire (get_file_header filename s).2 = (wire s ++ [head_request s filename])%list
  ∧ rq_verb (head_request s filename) = "HEAD"
  ∧ rq_data (head_request s filename) = "".
Proof.
  intros Hd H200 H404. rewrite (get_file_header_run _ _ _ _ _ Hd). cbv zeta.
  destruct (Z.eqb_spec (status_code response) 200); [done|].
  destruct (Z.eqb_spec (status_code response) 404); [done|].
  unfold raise_for_status. simpl.
  split; [done|]. split; [|split; [|done]].
  - intros [Hlo Hhi].
    destruct (Z.leb_spec 400 (status_code response)); [|lia].
    destruct (Z.ltb_spec (status_code response) 600); [done|lia].
  - intros Hout.
    destruct (Z.leb_spec 400 (status_code response)); [|done].
    destruct (Z.ltb_spec (status_code response) 600); [lia|done].
Qed.

(** X12: The metadata sent with an upload and the probe fit together: when the
    headers of a 200 response give back the metadata that
    [_prepare_file_metadata] produced for a file, the probe returns the
    digest of that file, and its encryption metadata whenever the key
    material is a non-empty string (none otherwise). *)
Theorem metadata_round_trip filename (s up : Client) response rc n len :
  _send_request_with_retry (head_request s filename)
    (<[inl "HEAD" := 0]> (retry_count s)) (net s) = (Ok response, rc, n) →
  status_code response = 200 →
  int (cid_get "Content-Length" (headers response)) = Ok len →
  stored_as (_prepare_file_metadata up) (headers response) →
  ∃ fh, (get_file_header filename s).1 = Ok (Some fh)
    ∧ digest fh = sha256_digest (meta up)
    ∧ content_length fh = len
    ∧ fh_encryption_metadata fh
      = match encryption_metadata up with
        | Some em => if truthy (default "" (key em)) then Some em else None
        | None => None
        end.
Proof.
  intros Hd Hs Hlen Hstored. rewrite (get_file_header_run _ _ _ _ _ Hd). cbv zeta.
  rewrite Hs, Hlen. simpl. eexists. split; [reflexivity|]. simpl.
  assert (∀ k, k ∈ reserved_names →
               cid_get k (headers response)
               = match dict_get k (_prepare_file_metadata up) with
                 | Some (VStr v) => Some v
                 | _ => None
                 end) as Hget by exact Hstored.
  rewrite (Hget (META_PREFIX +:+ SFC_DIGEST)) by (unfold reserved_names; set_solver).
  rewrite !(Hget (META_PREFIX +:+ AMZ_KEY)) by (unfold reserved_names; set_solver).
  rewrite (Hget (META_PREFIX +:+ AMZ_IV)) by (unfold reserved_names; set_solver).
  rewrite (Hget (META_PREFIX +:+ AMZ_MATDESC)) by (unfold reserved_names; set_solver).
  unfold _prepare_file_metadata.
  destruct (encryption_metadata up) as [[k i m]|]; simpl.
  - split; [by destruct (sha256_digest (meta up))|]. split; [done|].
    destruct k as [k|]; simpl; [|done].
    destruct (truthy k); [|done]. by destruct i, m.
  - split; [by destruct (sha256_digest (meta up))|]. done.
Qed.

End ProbeMore.

Lemma probe_other_status_witness :
  (@get_file_header Sample.crypto Sample.urllib Sample.base "data.csv.gz"
     (Sample.client 1 100 [Sample.reply 403 "" []])).1 = Raise (HTTPError 403)
  ∧ (@get_file_header Sample.crypto Sample.urllib Sample.base "data.csv.gz"
       (Sample.client 1 100 [Sample.reply 301 "" []])).1 = Ok None
  ∧ result_status
      (meta (@get_file_header Sample.crypto Sample.urllib Sample.base "data.csv.gz"
               (Sample.client 1 100 [Sample.reply 301 "" []])).2) = PENDING.
Proof.
  destruct (@probe_other_status Sample.crypto Sample.urllib Sample.base
              "data.csv.gz" (Sample.client 1 100 [Sample.reply 403 "" []])
              (Sample.reply 403 "" []) _ _ eq_refl
              ltac:(simpl; lia) ltac:(simpl; lia)) as (_ & Hraise & _).
  destruct (@probe_other_status Sample.crypto Sample.urllib Sample.base
              "data.csv.gz" (Sample.client 1 100 [Sample.reply 301 "" []])
              (Sample.reply 301 "" []) _ _ eq_refl
              ltac:(simpl; lia) ltac:(simpl; lia)) as (Hstatus & _ & Hnone & _).
  split; [apply Hraise; simpl; lia|]. split; [apply Hnone; simpl; lia|exact Hstatus].
Defined.

Lemma metadata_round_trip_witness :
  ∃ fh,
    (@get_file_header Sample.crypto Sample.urllib Sample.base "data.csv.gz"
       (Sample.client 1 100
          [Sample.reply 200 ""
             [("Content-Length", "12"); ("x-amz-meta-sfc-digest", "digest");
              ("x-amz-meta-x-amz-key", "KEY"); ("x-amz-meta-x-amz-iv", "IV");
              ("x-amz-meta-x-amz-matdesc", "MATDESC")]])).1 = Ok (Some fh)
    ∧ digest fh = Some "digest"
    ∧ fh_encryption_metadata fh
      = Some (mkEncryptionMetadata (Some "KEY") (Some "IV") (Some "MATDESC")).
Proof.
  destruct (@metadata_round_trip Sample.crypto Sample.urllib Sample.base
              "data.csv.gz"
              (Sample.client 1 100
                 [Sample.reply 200 ""
                    [("Content-Length", "12"); ("x-amz-meta-sfc-digest", "digest");
                     ("x-amz-meta-x-amz-key", "KEY"); ("x-amz-meta-x-amz-iv", "IV");
                     ("x-amz-meta-x-amz-matdesc", "MATDESC")]])
              (Sample.client_encrypted 1 100 [])
              _ _ _ 12 eq_refl eq_refl ltac:(vm_compute; reflexivity))
    as (fh & Hrun & Hdigest & _ & Henc).
  - intros k Hk. unfold reserved_names in Hk.
    repeat (apply elem_of_cons in Hk as [->|Hk]; [vm_compute; reflexivity|]).
    by apply elem_of_nil in Hk.
  - exists fh. split; [exact Hrun|]. split; [exact Hdigest|exact Henc].
Defined.

(** ** Further properties of the multipart upload *)

Section MultipartMore.
Context `{Crypto} `{UrlLib} `{XmlParser} `{StorageClientBase}.

(** X13: An initiation that raises, or that is answered with a status other than
    200, leaves the upload identifier and the slots as they were; an answer
    with a status that is neither 200 nor an error returns normally all the
    same. A 200 answer whose body does not parse raises [ParseError], one
    whose document has fewer than three children raises [IndexError]. *)
Theorem initiate_outcomes (s : Client) r rc n :
  _send_request_with_retry (initiate_request s)
    (<[inl "Initiate" := 0]> (retry_count s)) (net s) = (r, rc, n) →
  (∀ e, (_initiate_multipart_upload s).1 = Raise e →
        upload_id (_initiate_multipart_upload s).2 = upload_id s
        ∧ etags (_initiate_multipart_upload s).2 = etags s)
  ∧ (∀ response, r = Ok response → status_code response ≠ 200 →
       (_initiate_multipart_upload s).1 = raise_for_status response
       ∧ upload_id (_initiate_multipart_upload s).2 = upload_id s
       ∧ etags (_initiate_multipart_upload s).2 = etags s)
  ∧ (∀ response, r = Ok response → status_code response = 200 →
       fromstring (content response) = None →
       (_initiate_multipart_upload s).1 = Raise ParseError)
  ∧ (∀ response root, r = Ok response → status_code response = 200 →
       fromstring (content response) = Some root →
       (length (children root) < 3)%nat →
       (_initiate_multipart_upload s).1 = Raise IndexError).
Proof.
  intros Hd. rewrite (initiate_run _ _ _ _ Hd). cbv zeta.
  split; [|split; [|split]].
  - intros e. destruct r as [response|e0]; [|done].
    destruct (status_code response =? 200); [|done].
    destruct (fromstring (content response)) as [root|]; [|done].
    destruct (children root !! 2%nat); done.
  - intros response -> Hs.
    destruct (Z.eqb_spec (status_code response) 200); done.
  - intros response -> -> Hp. by rewrite Hp.
  - intros response root -> -> Hp Hlen. rewrite Hp. simpl.
    by rewrite (proj2 (lookup_ge_None (children root) 2) ltac:(lia)).
Qed.



(** X15: Completion before any initiation raises [TypeError] and sends
    nothing: the object and the network are left exactly as they were. *)
Theorem complete_before_initiate (s : Client) :
  etags s = None →
  _complete_multipart_upload s = (Raise TypeError, s).
Proof.
  intros He. unfold _complete_multipart_upload, bind, gets, lift. simpl.
  by rewrite He.
Qed.

Lemma abort_run (s : Client) uid r rc n :
  upload_id s = Some uid →
  _send_request_with_retry (abort_request s)
    (<[inl "Abort" := 0]> (retry_count s)) (net s) = (r, rc, n) →
  _abort_multipart_upload s
  = (match r with
     | Ok response => raise_for_status response
     | Raise e => Raise e
     end,
     dispatched (abort_request s) rc n
       (with_retry_count (<[inl "Abort" := 0]> (retry_count s)) s)).
Proof.
  intros Hu Hd.
  unfold _abort_multipart_upload, bind, gets, reset_retry, modify, lift. simpl.
  rewrite Hu. simpl.
  unfold abort_request in Hd. rewrite Hu in Hd.
  erewrite send_run; [|rewrite Hu; exact Hd].
  unfold abort_request. rewrite Hu. destruct r; reflexivity.
Qed.

(** X16: Abort does nothing at all when no upload was initiated. Otherwise it
    sends one [DELETE] for the upload identifier, fails only if the
    dispatcher raises or the status is 4xx or 5xx, and keeps the identifier
    and the slots: a second abort sends the request again. *)
Theorem abort_behaviour (s : Client) :
  (upload_id s = None → _abort_multipart_upload s = (Ok tt, s))
  ∧ (∀ uid r rc n,
       upload_id s = Some uid →
       _send_request_with_retry (abort_request s)
         (<[inl "Abort" := 0]> (retry_count s)) (net s) = (r, rc, n) →
       (_abort_multipart_upload s).1
       = match r with
         | Ok response => raise_for_status response
         | Raise e => Raise e
         end
       ∧ wire (_abort_multipart_upload s).2 = (wire s ++ [abort_request s])%list
       ∧ rq_verb (abort_request s) = "DELETE"
       ∧ upload_id (_abort_multipart_upload s).2 = Some uid
       ∧ etags (_abort_multipart_upload s).2 = etags s).
Proof.
  split.
  - intros Hu. unfold _abort_multipart_upload, bind, gets. simpl. by rewrite Hu.
  - intros uid r rc n Hu Hd. rewrite (abort_run _ _ _ _ _ Hu Hd). simpl.
    by rewrite Hu.
Qed.

End MultipartMore.

Lemma initiate_outcomes_witness :
  let run rs := @_initiate_multipart_upload Sample.crypto Sample.urllib Sample.xml
                  Sample.base (Sample.client 3 100 rs) in
  ((run [Sample.reply 204 "" []]).1 = Ok tt
   ∧ upload_id (run [Sample.reply 204 "" []]).2 = None
   ∧ etags (run [Sample.reply 204 "" []]).2 = None)
  ∧ (run [Sample.reply 200 "Bad Gateway" []]).1 = Raise ParseError
  ∧ (run [Sample.reply 200 "<Result><Bucket>b</Bucket><Key>k</Key></Result>" []]).1
    = Raise IndexError.
Proof.
  cbv zeta. split; [|split].
  - destruct (proj1 (proj2 (@initiate_outcomes Sample.crypto Sample.urllib Sample.xml
                Sample.base (Sample.client 3 100 [Sample.reply 204 "" []])
                _ _ _ eq_refl)) (Sample.reply 204 "" []) eq_refl
                ltac:(simpl; lia)) as (Hrun & Hid & Hslots).
    split; [rewrite Hrun; reflexivity|]. split; [exact Hid|exact Hslots].
  - apply (proj1 (proj2 (proj2 (@initiate_outcomes Sample.crypto Sample.urllib
                Sample.xml Sample.base
                (Sample.client 3 100 [Sample.reply 200 "Bad Gateway" []])
                _ _ _ eq_refl))) (Sample.reply 200 "Bad Gateway" []) eq_refl eq_refl).
    vm_compute. reflexivity.
  - apply (proj2 (proj2 (proj2 (@initiate_outcomes Sample.crypto Sample.urllib
                Sample.xml Sample.base
                (Sample.client 3 100
                   [Sample.reply 200 "<Result><Bucket>b</Bucket><Key>k</Key></Result>" []])
                _ _ _ eq_refl)))
             (Sample.reply 200 "<Result><Bucket>b</Bucket><Key>k</Key></Result>" [])
             (Elem "Result" None [Elem "Bucket" (Some "b") []; Elem "Key" (Some "k") []])
             eq_refl eq_refl).
    + vm_compute. reflexivity.
    + simpl. lia.
Defined.


Lemma complete_before_initiate_witness :
  @_complete_multipart_upload Sample.crypto Sample.urllib Sample.base
    (Sample.client 3 100 [Sample.reply 200 "" []])
  = (Raise TypeError, Sample.client 3 100 [Sample.reply 200 "" []]).
Proof.
  apply (@complete_before_initiate Sample.crypto Sample.urllib Sample.base).
  reflexivity.
Defined.

Lemma abort_behaviour_witness :
  @_abort_multipart_upload Sample.crypto Sample.urllib Sample.base
    (Sample.client 3 100 [Sample.reply 204 "" []])
  = (Ok tt, Sample.client 3 100 [Sample.reply 204 "" []])
  ∧ (let s := with_upload_id (Some "UID")
                (Sample.client 3 100 [Sample.reply 204 "" []; Sample.reply 404 "" []]) in
     let once := @_abort_multipart_upload Sample.crypto Sample.urllib Sample.base s in
     let twice := @_abort_multipart_upload Sample.crypto Sample.urllib Sample.base once.2 in
     once.1 = Ok tt ∧ upload_id once.2 = Some "UID"
     ∧ twice.1 = Raise (HTTPError 404)
     ∧ rq_verb <$> wire twice.2 = ["DELETE"; "DELETE"]).
Proof.
  split.
  - apply (proj1 (@abort_behaviour Sample.crypto Sample.urllib Sample.base
                    (Sample.client 3 100 [Sample.reply 204 "" []]))).
    reflexivity.
  - cbv zeta.
    destruct (proj2 (@abort_behaviour Sample.crypto Sample.urllib Sample.base
                (with_upload_id (Some "UID")
                   (Sample.client 3 100
                      [Sample.reply 204 "" []; Sample.reply 404 "" []])))
                "UID" _ _ _ eq_refl eq_refl) as (Hrun & _ & _ & Hid & _).
    split; [rewrite Hrun; reflexivity|]. split; [exact Hid|].
    split; vm_compute; reflexivity.
Defined.

(** ** The slots after a series of part uploads *)

Lemma slots_after_snoc l tr p :
  slots_after l (tr ++ [p]) = <[p.1 := Some p.2]> (slots_after l tr).
Proof. unfold slots_after. by rewrite foldl_app. Qed.

Lemma slots_after_length l tr : length (slots_after l tr) = length l.
Proof.
  unfold slots_after. revert l. induction tr as [|p tr IH]; intros l; simpl; [done|].
  by rewrite IH, length_insert.
Qed.

Lemma slots_after_untouched l tr (j : nat) :
  j ∉ tr.*1 → slots_after l tr !! j = l !! j.
Proof.
  unfold slots_after. revert l.
  induction tr as [|p tr IH]; intros l Hj; simpl; [done|].
  simpl in Hj. apply not_elem_of_cons in Hj as [Hne Hj].
  rewrite IH by done. by apply list_lookup_insert_ne.
Qed.

Lemma slots_after_last l tr1 tr2 (j : nat) e :
  (j < length l)%nat → j ∉ tr2.*1 →
  slots_after l (tr1 ++ (j, e) :: tr2) !! j = Some (Some e).
Proof.
  intros Hj Hlast. unfold slots_after. rewrite foldl_app. simpl.
  fold (slots_after l tr1).
  fold (slots_after (<[j := Some e]> (slots_after l tr1)) tr2).
  rewrite slots_after_untouched by done.
  apply list_lookup_insert_eq. by rewrite slots_after_length.
Qed.


Section PartsTrace.
Context `{Crypto} `{UrlLib} `{XmlParser} `{StorageClientBase}.

Lemma parts_uploaded_etags (s s' : Client) l tr :
  num_of_chunks s ≠ 1 → etags s = Some l →
  Z.of_nat (length l) = num_of_chunks s →
  parts_uploaded s tr s' →
  etags s' = Some (slots_after l tr)
  ∧ upload_id s' = upload_id s
  ∧ num_of_chunks s' = num_of_chunks s
  ∧ Forall (fun j => (j < length l)%nat) tr.*1.
Proof.
  intros Hn Hl Hlen Htr.
  induction Htr as [s|s s1 tr chunk_id chunk response rc n etag _ IH Hi Hd Hs He].
  - by repeat split.
  - destruct (IH Hn Hl Hlen) as (Hl1 & Hid1 & Hn1 & Hidx).
    rewrite (upload_chunk_records_etag s1 chunk_id chunk response rc n
               (slots_after l tr) etag); try done.
    + simpl. rewrite slots_after_snoc. simpl.
      split; [done|]. split; [done|]. split; [done|].
      rewrite fmap_app. apply Forall_app. split; [done|].
      repeat constructor. simpl. lia.
    + congruence.
    + rewrite slots_after_length. lia.
Qed.

(** X17: From an object with one slot per chunk, after any series of part
    uploads that were each answered with 200 and an [ETag], in any order
    and with repetitions, a slot holds the [ETag] of the last upload of its
    chunk, and a slot whose chunk was not uploaded is as before; the upload
    identifier is unchanged. *)
Theorem parts_uploaded_slots (s s' : Client) l tr :
  num_of_chunks s ≠ 1 → etags s = Some l →
  Z.of_nat (length l) = num_of_chunks s →
  parts_uploaded s tr s' →
  ∃ slots,
    etags s' = Some slots ∧ length slots = length l
    ∧ upload_id s' = upload_id s
    ∧ (∀ j e tr1 tr2, tr = (tr1 ++ (j, e) :: tr2)%list → j ∉ tr2.*1 →
                      slots !! j = Some (Some e))
    ∧ (∀ j, j ∉ tr.*1 → slots !! j = l !! j).
Proof.
  intros Hn Hl Hlen Htr.
  destruct (parts_uploaded_etags _ _ _ _ Hn Hl Hlen Htr) as (Hs & Hid & _ & Hidx).
  exists (slots_after l tr).
  split; [done|]. split; [apply slots_after_length|]. split; [done|]. split.
  - intros j e tr1 tr2 -> Hlast. apply slots_after_last; [|done].
    rewrite Forall_forall in Hidx. apply Hidx.
    rewrite fmap_app. apply elem_of_app. right. by left.
  - intros j Hj. by apply slots_after_untouched.
Qed.


End PartsTrace.

(** Chunk 1, chunk 0, chunk 1 again and chunk 2 are uploaded. *)
Lemma sample_parts_uploaded :
  @parts_uploaded Sample.crypto Sample.urllib Sample.base
    (Sample.ready Sample.part_replies)
    (((([] ++ [(Z.to_nat 1, "e1")]) ++ [(Z.to_nat 0, "e0")])
      ++ [(Z.to_nat 1, "e1b")]) ++ [(Z.to_nat 2, "e2")])
    (Sample.uploads (Sample.ready Sample.part_replies)
       [(1, "b"); (0, "a"); (1, "b"); (2, "c")]).
Proof.
  change (Sample.uploads (Sample.ready Sample.part_replies)
            [(1, "b"); (0, "a"); (1, "b"); (2, "c")])
    with (@_upload_chunk Sample.crypto Sample.urllib Sample.base 2 "c"
            (Sample.uploads (Sample.ready Sample.part_replies)
               [(1, "b"); (0, "a"); (1, "b")])).2.
  eapply (@parts_more Sample.crypto Sample.urllib Sample.base _ _ _ 2 "c" (Sample.reply 200 "" [("ETag", "e2")]));
    [|vm_compute; by split|vm_compute; reflexivity|reflexivity|vm_compute; reflexivity].
  change (Sample.uploads (Sample.ready Sample.part_replies)
            [(1, "b"); (0, "a"); (1, "b")])
    with (@_upload_chunk Sample.crypto Sample.urllib Sample.base 1 "b"
            (Sample.uploads (Sample.ready Sample.part_replies)
               [(1, "b"); (0, "a")])).2.
  eapply (@parts_more Sample.crypto Sample.urllib Sample.base _ _ _ 1 "b" (Sample.reply 200 "" [("ETag", "e1b")]));
    [|vm_compute; by split|vm_compute; reflexivity|reflexivity|vm_compute; reflexivity].
  change (Sample.uploads (Sample.ready Sample.part_replies) [(1, "b"); (0, "a")])
    with (@_upload_chunk Sample.crypto Sample.urllib Sample.base 0 "a"
            (Sample.uploads (Sample.ready Sample.part_replies) [(1, "b")])).2.
  eapply (@parts_more Sample.crypto Sample.urllib Sample.base _ _ _ 0 "a" (Sample.reply 200 "" [("ETag", "e0")]));
    [|vm_compute; by split|vm_compute; reflexivity|reflexivity|vm_compute; reflexivity].
  change (Sample.uploads (Sample.ready Sample.part_replies) [(1, "b")])
    with (@_upload_chunk Sample.crypto Sample.urllib Sample.base 1 "b"
            (Sample.ready Sample.part_replies)).2.
  eapply (@parts_more Sample.crypto Sample.urllib Sample.base _ _ _ 1 "b" (Sample.reply 200 "" [("ETag", "e1")]));
    [|vm_compute; by split|vm_compute; reflexivity|reflexivity|vm_compute; reflexivity].
  apply parts_none.
Qed.

Lemma parts_uploaded_slots_witness :
  etags (Sample.uploads (Sample.ready Sample.part_replies)
           [(1, "b"); (0, "a"); (1, "b"); (2, "c")])
  = Some [Some "e0"; Some "e1b"; Some "e2"].
Proof.
  destruct (@parts_uploaded_slots Sample.crypto Sample.urllib Sample.base
              (Sample.ready Sample.part_replies) _ [None; None; None] _
              ltac:(simpl; lia) eq_refl eq_refl sample_parts_uploaded)
    as (slots & Hslots & Hlen & _ & Hlast & _).
  rewrite Hslots. f_equal.
  pose proof (Hlast 0%nat "e0" [(1%nat, "e1")] [(1%nat, "e1b"); (2%nat, "e2")]
                eq_refl ltac:(set_solver)) as H0.
  pose proof (Hlast 1%nat "e1b" [(1%nat, "e1"); (0%nat, "e0")] [(2%nat, "e2")]
                eq_refl ltac:(set_solver)) as H1.
  pose proof (Hlast 2%nat "e2" [(1%nat, "e1"); (0%nat, "e0"); (1%nat, "e1b")] []
                eq_refl ltac:(set_solver)) as H2.
  destruct slots as [|a [|b [|c [|d slots]]]]; simpl in *; try lia.
  congruence.
Defined.


(** ** Download and acceleration status *)

Section DownloadMore.
Context `{Crypto} `{UrlLib} `{XmlParser} `{StorageClientBase}.

Lemma download_single_run (s : Client) chunk_id r rc n :
  num_of_chunks s = 1 →
  _send_request_with_retry (get_request s chunk_id) (retry_count s) (net s)
  = (r, rc, n) →
  download_chunk chunk_id s =
    let s1 := dispatched (get_request s chunk_id) rc n s in
    match r with
    | Raise e => (Raise e, s1)
    | Ok response =>
        (raise_for_status response,
         if status_code response =? 200
         then with_result_status DOWNLOADED
                (with_sink (write_downloaded_chunk 0 (content response) (sink s1)) s1)
         else s1)
    end.
Proof.
  intros Hn Hd. unfold download_chunk, bind, gets. simpl. rewrite Hn. simpl.
  unfold get_request, object_url in Hd.
  rewrite (send_run _ _ _ _ _ _ _ _ _ _ Hd).
  destruct r as [response|e]; [|reflexivity].
  destruct (status_code response =? 200); reflexivity.
Qed.

Lemma download_range_run (s : Client) chunk_id r rc n :
  num_of_chunks s ≠ 1 →
  _send_request_with_retry (range_request s chunk_id) (retry_count s) (net s)
  = (r, rc, n) →
  download_chunk chunk_id s =
    let s1 := dispatched (range_request s chunk_id) rc n s in
    match r with
    | Raise e => (Raise e, s1)
    | Ok response =>
        (raise_for_status response,
         if (status_code response =? 200) || (status_code response =? 206)
         then with_sink (write_downloaded_chunk chunk_id (content response) (sink s1)) s1
         else s1)
    end.
Proof.
  intros Hn Hd. unfold download_chunk, bind, gets. simpl.
  destruct (Z.eqb_spec (num_of_chunks s) 1); [done|].
  unfold range_request, object_url in Hd.
  rewrite (send_run _ _ _ _ _ _ _ _ _ _ Hd).
  destruct r as [response|e]; [|reflexivity].
  destruct ((status_code response =? 200) || (status_code response =? 206));
    reflexivity.
Qed.

(** X19: A download in one piece asks for the whole object (no [Range] header)
    and takes the body only from a 200 answer, which it stores as chunk 0
    whatever the chunk index of the call, marking the job [DOWNLOADED]. With
    any other status nothing is stored and the status is left alone: a 206
    or a 204 returns normally with nothing written. *)
Theorem download_single_chunk (s : Client) chunk_id response rc n :
  num_of_chunks s = 1 →
  _send_request_with_retry (get_request s chunk_id) (retry_count s) (net s)
  = (Ok response, rc, n) →
  (download_chunk chunk_id s).1 = raise_for_status response
  ∧ rq_headers (get_request s chunk_id) = []
  ∧ (status_code response = 200 →
     sink (download_chunk chunk_id s).2
     = write_downloaded_chunk 0 (content response) (sink s)
     ∧ result_status (meta (download_chunk chunk_id s).2) = DOWNLOADED)
  ∧ (status_code response ≠ 200 →
     sink (download_chunk chunk_id s).2 = sink s
     ∧ result_status (meta (download_chunk chunk_id s).2) = result_status (meta s)).
Proof.
  intros Hn Hd. rewrite (download_single_run _ _ _ _ _ Hn Hd). cbv zeta.
  split; [done|]. split; [done|]. split.
  - intros ->. done.
  - intros Hs. by destruct (Z.eqb_spec (status_code response) 200).
Qed.

(** X20: A chunk of a chunked download is stored under its own index when the
    answer is 200 or 206 and not at all otherwise; in no case does the call
    change the result status of the job. *)
Theorem download_ranged_chunk (s : Client) chunk_id response rc n :
  num_of_chunks s ≠ 1 →
  _send_request_with_retry (range_request s chunk_id) (retry_count s) (net s)
  = (Ok response, rc, n) →
  (download_chunk chunk_id s).1 = raise_for_status response
  ∧ result_status (meta (download_chunk chunk_id s).2) = result_status (meta s)
  ∧ (status_code response = 200 ∨ status_code response = 206 →
     sink (download_chunk chunk_id s).2
     = write_downloaded_chunk chunk_id (content response) (sink s))
  ∧ (status_code response ≠ 200 → status_code response ≠ 206 →
     sink (download_chunk chunk_id s).2 = sink s).
Proof.
  intros Hn Hd. rewrite (download_range_run _ _ _ _ _ Hn Hd). cbv zeta.
  split; [done|]. split; [|split].
  - by destruct ((status_code response =? 200) || (status_code response =? 206)).
  - intros [->| ->]; reflexivity.
  - intros H200 H206.
    destruct (Z.eqb_spec (status_code response) 200); [done|].
    by destruct (Z.eqb_spec (status_code response) 206).
Qed.

Lemma accelerate_run (s : Client) r rc n :
  _send_request_with_retry (accelerate_request s)
    (<[inl "accelerate" := 0]> (retry_count s)) (net s) = (r, rc, n) →
  (transfer_accelerate_config s).1 =
    match r with
    | Raise e => Raise e
    | Ok response =>
        if status_code response =? 200 then
          match fromstring (Connector.text response) with
          | None => Raise ParseError
          | Some config =>
              Ok (match find "Status" config with
                  | None => ANone
                  | Some status =>
                      if element_truthy status
                      then ABool (bool_decide (Xml.text status = Some "Enabled"))
                      else AElement status
                  end)
          end
        else Ok (ABool false)
    end.
Proof.
  intros Hd.
  unfold transfer_accelerate_config, bind, gets, reset_retry, modify, lift, ret.
  simpl. unfold accelerate_request in Hd.
  erewrite send_run; [|exact Hd].
  destruct r as [response|e]; [|reflexivity].
  destruct (status_code response =? 200); [|reflexivity].
  destruct (fromstring (Connector.text response)); reflexivity.
Qed.

(** X21: The acceleration status is read with [find("Status") and ...], and an
    element without subelements is false: for a 200 answer whose [Status]
    element has no subelements the result is that element, which is false,
    whatever its text; the result is true only for a [Status] element that
    has subelements and the text [Enabled]. *)
Theorem accelerate_status_leaf (s : Client) r rc n :
  _send_request_with_retry (accelerate_request s)
    (<[inl "accelerate" := 0]> (retry_count s)) (net s) = (r, rc, n) →
  (∀ response config status,
     r = Ok response → status_code response = 200 →
     fromstring (Connector.text response) = Some config →
     find "Status" config = Some status → children status = [] →
     (transfer_accelerate_config s).1 = Ok (AElement status)
     ∧ accelerate_truthy (AElement status) = false)
  ∧ (∀ v, (transfer_accelerate_config s).1 = Ok v → accelerate_truthy v = true →
       ∃ response config status,
         r = Ok response ∧ status_code response = 200
         ∧ fromstring (Connector.text response) = Some config
         ∧ find "Status" config = Some status
         ∧ children status ≠ []
         ∧ Xml.text status = Some "Enabled").
Proof.
  intros Hd. rewrite (accelerate_run _ _ _ _ Hd). split.
  - intros response config status -> -> -> -> Hleaf. simpl.
    unfold element_truthy. by rewrite Hleaf.
  - intros v Hv Htrue. destruct r as [response|e]; [|done].
    destruct (Z.eqb_spec (status_code response) 200) as [Hs|Hs];
      [|by injection Hv as <-].
    destruct (fromstring (Connector.text response)) as [config|] eqn:Hp; [|done].
    injection Hv as <-.
    destruct (find "Status" config) as [status|] eqn:Hf; [|done].
    destruct (element_truthy status) eqn:Ht; simpl in Htrue; [|congruence].
    exists response, config, status. repeat split; try done.
    + unfold element_truthy in Ht. by destruct (children status).
    + by apply bool_decide_eq_true in Htrue.
Qed.

End DownloadMore.

Lemma download_single_chunk_witness :
  let run rs := @download_chunk Sample.crypto Sample.urllib Sample.base 5
                  (Sample.client 1 100 rs) in
  (sink (run [Sample.reply 200 "whole file" []]).2 !! 0 = Some "whole file"
   ∧ result_status (meta (run [Sample.reply 200 "whole file" []]).2) = DOWNLOADED)
  ∧ ((run [Sample.reply 206 "whole file" []]).1 = Ok tt
     ∧ sink (run [Sample.reply 206 "whole file" []]).2 = ∅
     ∧ result_status (meta (run [Sample.reply 206 "whole file" []]).2) = PENDING).
Proof.
  cbv zeta. split.
  - destruct (@download_single_chunk Sample.crypto Sample.urllib Sample.base
                (Sample.client 1 100 [Sample.reply 200 "whole file" []]) 5
                (Sample.reply 200 "whole file" []) _ _ eq_refl eq_refl)
      as (_ & _ & Hok & _).
    destruct (Hok eq_refl) as (Hsink & Hstatus).
    split; [rewrite Hsink; reflexivity|exact Hstatus].
  - destruct (@download_single_chunk Sample.crypto Sample.urllib Sample.base
                (Sample.client 1 100 [Sample.reply 206 "whole file" []]) 5
                (Sample.reply 206 "whole file" []) _ _ eq_refl eq_refl)
      as (Hrun & _ & _ & Hother).
    destruct (Hother ltac:(simpl; lia)) as (Hsink & Hstatus).
    split; [rewrite Hrun; reflexivity|]. split; [exact Hsink|exact Hstatus].
Defined.

Lemma download_ranged_chunk_witness :
  let run rs := @download_chunk Sample.crypto Sample.urllib Sample.base 2
                  (Sample.client 3 100 rs) in
  sink (run [Sample.reply 206 "tail" []]).2 !! 2 = Some "tail"
  ∧ result_status (meta (run [Sample.reply 206 "tail" []]).2) = PENDING
  ∧ (run [Sample.reply 416 "" []]).1 = Raise (HTTPError 416)
  ∧ sink (run [Sample.reply 416 "" []]).2 = ∅.
Proof.
  cbv zeta.
  destruct (@download_ranged_chunk Sample.crypto Sample.urllib Sample.base
              (Sample.client 3 100 [Sample.reply 206 "tail" []]) 2
              (Sample.reply 206 "tail" []) _ _ ltac:(simpl; lia) eq_refl)
    as (_ & Hstatus & Hstored & _).
  destruct (@download_ranged_chunk Sample.crypto Sample.urllib Sample.base
              (Sample.client 3 100 [Sample.reply 416 "" []]) 2
              (Sample.reply 416 "" []) _ _ ltac:(simpl; lia) eq_refl)
    as (Hrun & _ & _ & Hnot).
  split; [rewrite (Hstored ltac:(by right)); reflexivity|].
  split; [exact Hstatus|].
  split; [rewrite Hrun; reflexivity|].
  apply Hnot; simpl; lia.
Defined.

Lemma accelerate_status_leaf_witness :
  (@transfer_accelerate_config Sample.crypto Sample.xml Sample.base
     (Sample.client 1 100
        [Sample.reply 200
           "<AccelerateConfiguration><Status>Enabled</Status></AccelerateConfiguration>"
           []])).1
  = Ok (AElement (Elem "Status" (Some "Enabled") [])).
Proof.
  apply (proj1 (@accelerate_status_leaf Sample.crypto Sample.xml Sample.base
                  (Sample.client 1 100
                     [Sample.reply 200
                        "<AccelerateConfiguration><Status>Enabled</Status></AccelerateConfiguration>"
                        []])
                  _ _ _ eq_refl)
           (Sample.reply 200
              "<AccelerateConfiguration><Status>Enabled</Status></AccelerateConfiguration>"
              [])
           (Elem "AccelerateConfiguration" None [Elem "Status" (Some "Enabled") []])
           (Elem "Status" (Some "Enabled") [])
           eq_refl eq_refl ltac:(vm_compute; reflexivity) eq_refl eq_refl).
Defined.

(** ** Further properties of the local client *)

Lemma split_last_slash_spec (p : string) :
  free_of "/" (Local.split_last_slash p).2
  ∧ ((Local.split_last_slash p).1 = "" → (Local.split_last_slash p).2 = p)
  ∧ (free_of "/" p → Local.split_last_slash p = ("", p)).
Proof.
  unfold free_of. induction p as [|c r (IHfree & IHempty & IHplain)];
    [by repeat split|].
  simpl. destruct (Local.split_last_slash r) as [h t]. simpl in *.
  destruct h as [|d h]; simpl.
  - rewrite (IHempty eq_refl) in *. unfold Local.is_slash.
    destruct (Ascii.eqb c "/") eqn:Hc; simpl.
    + by repeat split.
    + split; [|done]. apply andb_true_iff. split; [|done].
      apply negb_true_iff. exact Hc.
  - split; [done|]. split; [done|].
    intros Hf. cbn in Hf. apply andb_true_iff in Hf as [_ Hr].
    by specialize (IHplain Hr).
Qed.

Lemma basename_free (p : string) : free_of "/" (Local.basename p).
Proof. apply split_last_slash_spec. Qed.

Lemma dirname_of_free (p : string) : free_of "/" p → Local.dirname p = "".
Proof.
  intros Hf. unfold Local.dirname.
  by rewrite (proj2 (proj2 (split_last_slash_spec p)) Hf).
Qed.

Lemma free_not_startswith (p : string) :
  free_of "/" p → startswith_slash p = false.
Proof.
  unfold free_of. destruct p as [|c r]; [done|]. simpl.
  intros Hf. apply andb_true_iff in Hf as [Hc _]. by apply negb_true_iff in Hc.
Qed.

Section LocalMore.
Context `{Local.Os}.

(** X22: An upload changes no directory and no file other than its target; an
    upload that raises changes nothing at all. It never creates the
    directories of the stage. *)
Theorem upload_footprint (meta : Local.FileMeta) (fs : Local.FS) :
  Local.dirs (Local._upload_file_with_retry meta fs).2 = Local.dirs fs
  ∧ (∀ p, p ≠ Local.upload_target meta →
          Local.files (Local._upload_file_with_retry meta fs).2 !! p
          = Local.files fs !! p)
  ∧ (∀ e, (Local._upload_file_with_retry meta fs).1.1 = Raise e →
          Local._upload_file_with_retry meta fs = (Raise e, meta, fs))
  ∧ (Local.is_dir (Local.dirname (Local.upload_target meta)) fs = false →
     Local.dirname (Local.upload_target meta) ≠ "" →
     ∃ e, (Local._upload_file_with_retry meta fs).1.1 = Raise e).
Proof.
  unfold Local._upload_file_with_retry.
  assert (∀ fs1, Local.open_write (Local.upload_target meta) fs = Ok fs1 →
                 Local.dirs fs1 = Local.dirs fs
                 ∧ ∀ p, p ≠ Local.upload_target meta →
                        Local.files fs1 !! p = Local.files fs !! p) as Hopen.
  { intros fs1. unfold Local.open_write.
    destruct (Local.is_dir _ fs); [done|].
    destruct (_ || _); [|done]. intros [= <-]. simpl. split; [done|].
    intros p Hp. by rewrite lookup_insert_ne. }
  assert (Local.is_dir (Local.dirname (Local.upload_target meta)) fs = false →
          Local.dirname (Local.upload_target meta) ≠ "" →
          ∃ e, Local.open_write (Local.upload_target meta) fs = Raise e) as Hnodir.
  { intros Hd Hne. unfold Local.open_write.
    destruct (Local.is_dir (Local.upload_target meta) fs); [by eexists|].
    rewrite Hd. destruct (Local.dirname (Local.upload_target meta)); [done|].
    simpl. by eexists. }
  destruct (Local.src_stream meta) as [stream|].
  - destruct (Local.real_src_stream meta) as [real|];
      destruct (Local.open_write (Local.upload_target meta) fs) as [fs1|e] eqn:Hw;
      simpl;
      try (destruct (Hopen fs1 eq_refl) as [Hdirs Hfiles]);
      (split; [done|]); (split; [try done; intros p Hp;
                                  rewrite lookup_insert_ne by done; by apply Hfiles|]);
      (split; [by intros e0 [= <-] || done|]);
      intros Hd Hne; destruct (Hnodir Hd Hne) as (e0 & He0); try congruence;
      by eexists.
  - destruct (Local.open_read (Local.real_src_file_name meta) fs) as [[]|e];
      [|simpl; split; [done|]; split; [done|]; split;
        [by intros e0 [= <-]|by eexists]].
    destruct (Local.open_write (Local.upload_target meta) fs) as [fs1|e] eqn:Hw;
      simpl;
      try (destruct (Hopen fs1 eq_refl) as [Hdirs Hfiles]);
      (split; [done|]); (split; [try done; intros p Hp;
                                  rewrite lookup_insert_ne by done; by apply Hfiles|]);
      (split; [by intros e0 [= <-] || done|]);
      intros Hd Hne; destruct (Hnodir Hd Hne) as (e0 & He0); try congruence;
      by eexists.
Qed.

End LocalMore.

Section LocalContent.
Context `{Local.Os}.



End LocalContent.

Section LocalPaths.
Context `{Local.Os}.




(** X26: A download with an empty [local_location] never gets as far as
    copying: the destination is a bare name, its directory is the empty
    path, which does not exist, and creating it raises
    [FileNotFoundError]; nothing is changed. *)
Theorem download_needs_local_location (meta : Local.FileMeta) (fs : Local.FS) :
  Local.local_location meta = "" →
  Local.path_exists "" fs = false →
  Local._download_file meta fs = (Raise (FileNotFoundError ""), meta, fs).
Proof.
  intros Hloc Hnone. unfold Local._download_file.
  assert (Local.dirname (Local.full_dst_file_name meta) = "") as Hdir.
  { unfold Local.full_dst_file_name, Local.path_join. rewrite Hloc.
    rewrite (free_not_startswith _ (basename_free _)). simpl.
    apply dirname_of_free, basename_free. }
  rewrite Hdir, Hnone. reflexivity.
Qed.

(** X27: Where the names of the job lead. A destination name that starts with a
    separator is used as it is, whatever the stage location, and so is what
    follows the first separator of a source name that starts with two of
    them; any other name is put under the expanded stage location. The
    destination of a download is the last component of the destination name
    and nothing else of it. *)
Theorem stage_paths (meta : Local.FileMeta) :
  (startswith_slash (Local.dst_file_name meta) = true →
   Local.upload_target meta = Local.dst_file_name meta)
  ∧ (startswith_slash (Local.dst_file_name meta) = false →
     ∃ sep, (sep = "" ∨ sep = "/")
       ∧ Local.upload_target meta
         = Local.expanduser (Local.stage_location meta) +:+ sep
           +:+ Local.dst_file_name meta)
  ∧ (∀ rest, Local.src_file_name meta = String "/" rest →
       startswith_slash rest = true →
       Local.full_src_file_name meta = rest)
  ∧ (∀ name, (Local.src_file_name meta = name ∨ Local.src_file_name meta = String "/" name) →
       startswith_slash name = false →
       ∃ sep, (sep = "" ∨ sep = "/")
         ∧ Local.full_src_file_name meta
           = Local.expanduser (Local.stage_location meta) +:+ sep +:+ name)
  ∧ (free_of "/" (Local.basename (Local.dst_file_name meta))
     ∧ ∃ sep, (sep = "" ∨ sep = "/")
         ∧ Local.full_dst_file_name meta
           = Local.local_location meta +:+ sep
             +:+ Local.basename (Local.dst_file_name meta)).
Proof.
  assert (∀ a b, startswith_slash b = false →
                 ∃ sep, (sep = "" ∨ sep = "/")
                        ∧ Local.path_join a b = a +:+ sep +:+ b) as Hjoin.
  { intros a b Hb. unfold Local.path_join. rewrite Hb.
    destruct (negb (truthy a) || endswith_slash a).
    - exists "". split; [by left|done].
    - exists "/". split; [by right|done]. }
  split; [|split; [|split; [|split]]].
  - intros Hs. unfold Local.upload_target, Local.path_join. by rewrite Hs.
  - intros Hs. unfold Local.upload_target. by apply Hjoin.
  - intros rest Hn Hrest. unfold Local.full_src_file_name, Local.path_join.
    rewrite Hn. simpl. by rewrite Hrest.
  - intros name [Hn|Hn] Hname; unfold Local.full_src_file_name; rewrite Hn.
    + rewrite Hname. simpl. by apply Hjoin.
    + simpl. by apply Hjoin.
  - split; [apply basename_free|].
    unfold Local.full_dst_file_name. apply Hjoin.
    apply free_not_startswith, basename_free.
Qed.

End LocalPaths.

Lemma upload_footprint_witness :
  @Local._upload_file_with_retry Sample.os Sample.no_stage_job Sample.disk
  = (Raise (FileNotFoundError "/nowhere/report.csv"), Sample.no_stage_job, Sample.disk).
Proof.
  destruct (@upload_footprint Sample.os Sample.no_stage_job Sample.disk)
    as (_ & _ & Hsame & Hraise).
  destruct Hraise as (e & He); [vm_compute; reflexivity|discriminate|].
  rewrite (Hsame e He). do 2 f_equal.
  assert ((@Local._upload_file_with_retry Sample.os Sample.no_stage_job Sample.disk).1.1
          = Raise (FileNotFoundError "/nowhere/report.csv")) as Hrun
    by (vm_compute; reflexivity).
  congruence.
Defined.




Lemma download_needs_local_location_witness :
  @Local._download_file Sample.os Sample.no_location_job Sample.disk
  = (Raise (FileNotFoundError ""), Sample.no_location_job, Sample.disk).
Proof.
  apply (@download_needs_local_location Sample.os); [reflexivity|].
  vm_compute. reflexivity.
Defined.

Lemma stage_paths_witness :
  @Local.upload_target Sample.os Sample.absolute_job = "/etc/motd"
  ∧ @Local.full_src_file_name Sample.os Sample.absolute_job = "/etc/passwd"
  ∧ Local.full_dst_file_name Sample.absolute_job = "/tmp/out/motd".
Proof.
  destruct (@stage_paths Sample.os Sample.absolute_job)
    as (Hup & _ & Hsrc & _ & _ & sep & Hsep & Hdst).
  split; [exact (Hup eq_refl)|]. split; [exact (Hsrc "/etc/passwd" eq_refl eq_refl)|].
  reflexivity.
Defined.

Lemma range_header_is_sent_witness :
  ∃ args,
    @generate_authenticated_url_and_args_v4 Sample.crypto Sample.urllib
      "us-west-2" Sample.creds "20211104T120000Z"
      (@closure_of Sample.crypto "https://bucket.s3.amazonaws.com/stage/data.csv.gz"
         "GET" (inr 2) None (Some [("Range", VStr "bytes=200-")]) None)
    = Ok ("https://bucket.s3.amazonaws.com/stage/data.csv.gz", args)
    ∧ dict_get "Range" (ra_headers args) = Some (VStr "bytes=200-")
    ∧ ra_data args = None.
Proof.
  destruct (@generate_authenticated_url_and_args_v4 Sample.crypto Sample.urllib
              "us-west-2" Sample.creds "20211104T120000Z"
              (@closure_of Sample.crypto
                 "https://bucket.s3.amazonaws.com/stage/data.csv.gz"
                 "GET" (inr 2) None (Some [("Range", VStr "bytes=200-")]) None))
    as [[url args]|e] eqn:Hrun; [|vm_compute in Hrun; discriminate].
  pose proof (@range_header_is_sent Sample.crypto Sample.urllib _ _ _ _ _ _ _ _ Hrun)
    as Hrange.
  exists args. split; [|split; [exact Hrange|]].
  - vm_compute in Hrun. injection Hrun as <- _. reflexivity.
  - vm_compute in Hrun. by injection Hrun as _ <-.
Defined.
